(** * broccoli-scss-lint: the filter, its cache key and its test generators

    A shallow embedding of the JavaScript sources

      - [lib/index.js] / [dist/index.js]  the sass-lint filter ([ScssLinter]),
      - [dist/test-generators.js]         the QUnit and Mocha test generators,
      - [index.js]                        the older scss-lint (shell) filter,

    followed by the properties of the filter that the specification states.

    JavaScript values are a small inductive type; an object is the list of
    its own enumerable properties in [Object.keys] order, so that key order
    is visible where the code can observe it.  Strings are byte strings
    (the UTF-8 text that [hash.update(buf, 'utf8')] consumes).  Exceptions
    are a sum type, calls to the collaborators that the code makes for
    their effect ([minimatch], [linter.outputResults], [shell.exec]) are
    recorded in a trace. *)

From Stdlib Require Import ZArith List String Ascii Bool Lia Permutation.
From Stdlib Require Import Numbers.DecimalString Numbers.DecimalZ.
Import ListNotations.
Open Scope string_scope.
Open Scope list_scope.

Set Warnings "-register-all".

(** ** JavaScript values *)

Module JS.

(** Numbers: the integers (meant in the range that JavaScript prints in
    plain decimal notation), [NaN] and the two infinities.  Fractions are
    not modelled. *)
Inductive number : Type :=
| Int (z : Z)
| NaN
| Infinity (negative : bool).

Inductive value : Type :=
| VUndefined
| VNull
| VBool (b : bool)
| VNum (n : number)
| VStr (s : string)
| VFun (src : string)           (* a function, by its source text *)
| VClosure (name src : string)  (* a function of the generators module *)
| VArr (items : list value)
| VObj (props : list (string * value)).

Inductive error : Type :=
| TypeError (msg : string)
| ReferenceError (msg : string)
| Error (msg : string).

(** A computation that may throw. *)
Definition result (A : Type) : Type := (error + A)%type.

Definition ok {A} (a : A) : result A := inr a.
Definition throw {A} (e : error) : result A := inl e.

Definition rbind {A B} (m : result A) (f : A -> result B) : result B :=
  match m with
  | inl e => inl e
  | inr a => f a
  end.

Definition typeof (v : value) : string :=
  match v with
  | VUndefined => "undefined"
  | VNull => "object"
  | VBool _ => "boolean"
  | VNum _ => "number"
  | VStr _ => "string"
  | VFun _ | VClosure _ _ => "function"
  | VArr _ | VObj _ => "object"
  end.

(** ToBoolean *)
Definition truthy (v : value) : bool :=
  match v with
  | VUndefined | VNull => false
  | VBool b => b
  | VNum (Int z) => negb (Z.eqb z 0)
  | VNum NaN => false
  | VNum (Infinity _) => true
  | VStr s => negb (String.eqb s "")
  | VFun _ | VClosure _ _ | VArr _ | VObj _ => true
  end.

Definition isArray (v : value) : bool :=
  match v with
  | VArr _ => true
  | _ => false
  end.

Definition decimal (z : Z) : string := NilZero.string_of_int (Z.to_int z).

(** Number::toString, on the numbers of the model. *)
Definition number_to_string (n : number) : string :=
  match n with
  | Int z => decimal z
  | NaN => "NaN"
  | Infinity false => "Infinity"
  | Infinity true => "-Infinity"
  end.

(** ToString.  An array prints its elements joined by commas, with
    [null] and [undefined] printed as the empty string. *)
Fixpoint to_string (v : value) : string :=
  match v with
  | VUndefined => "undefined"
  | VNull => "null"
  | VBool true => "true"
  | VBool false => "false"
  | VNum n => number_to_string n
  | VStr s => s
  | VFun src => src
  | VClosure _ src => src
  | VArr items =>
      String.concat ","
        ((fix each (l : list value) : list string :=
            match l with
            | [] => []
            | VUndefined :: l' => "" :: each l'
            | VNull :: l' => "" :: each l'
            | x :: l' => to_string x :: each l'
            end) items)
  | VObj _ => "[object Object]"
  end.

(** [items.join(sep)] *)
Definition join (sep : string) (items : list value) : string :=
  String.concat sep
    (map (fun x => match x with
                   | VUndefined | VNull => ""
                   | _ => to_string x
                   end) items).

(** Own property lookup in a property list. *)
Fixpoint lookup (key : string) (props : list (string * value)) : option value :=
  match props with
  | [] => None
  | (k, v) :: rest => if String.eqb k key then Some v else lookup key rest
  end.

Definition keys (props : list (string * value)) : list string := map fst props.

(** [obj[key] = v]: an existing property keeps its place, a new one is
    added last. *)
Fixpoint set (key : string) (v : value) (props : list (string * value))
  : list (string * value) :=
  match props with
  | [] => [(key, v)]
  | (k, w) :: rest =>
      if String.eqb k key then (k, v) :: rest else (k, w) :: set key v rest
  end.

(** [delete obj[key]] *)
Fixpoint remove (key : string) (props : list (string * value))
  : list (string * value) :=
  match props with
  | [] => []
  | (k, w) :: rest =>
      if String.eqb k key then remove key rest else (k, w) :: remove key rest
  end.

Fixpoint index_keys (from : nat) (n : nat) : list string :=
  match n with
  | O => []
  | S n' => decimal (Z.of_nat from) :: index_keys (S from) n'
  end.

Fixpoint at_index {A} (key : string) (from : nat) (l : list A) : option A :=
  match l with
  | [] => None
  | x :: rest =>
      if String.eqb (decimal (Z.of_nat from)) key then Some x
      else at_index key (S from) rest
  end.

Definition chars (s : string) : list value :=
  map (fun c => VStr (String c EmptyString)) (list_ascii_of_string s).

Definition or_undefined (o : option value) : value :=
  match o with
  | Some v => v
  | None => VUndefined
  end.

(** Property read [v[key]].  The own properties of objects, arrays and
    strings only: what the built-in prototypes would supply ([toString],
    [constructor], ...) and the [length] and [name] of a function read as
    [undefined] here; reading a property of [null] or [undefined]
    throws. *)
Definition get (v : value) (key : string) : result value :=
  match v with
  | VUndefined =>
      throw (TypeError ("Cannot read property '" ++ key ++ "' of undefined"))
  | VNull =>
      throw (TypeError ("Cannot read property '" ++ key ++ "' of null"))
  | VObj props => ok (or_undefined (lookup key props))
  | VArr items =>
      if String.eqb key "length"
      then ok (VNum (Int (Z.of_nat (List.length items))))
      else ok (or_undefined (at_index key 0 items))
  | VStr s =>
      if String.eqb key "length"
      then ok (VNum (Int (Z.of_nat (String.length s))))
      else ok (or_undefined (at_index key 0 (chars s)))
  | VBool _ | VNum _ | VFun _ | VClosure _ _ => ok VUndefined
  end.

(** [Object.keys(v)] *)
Definition object_keys (v : value) : result (list string) :=
  match v with
  | VUndefined | VNull =>
      throw (TypeError "Cannot convert undefined or null to object")
  | VObj props => ok (keys props)
  | VArr items => ok (index_keys 0 (List.length items))
  | VStr s => ok (index_keys 0 (String.length s))
  | VBool _ | VNum _ | VFun _ | VClosure _ _ => ok []
  end.

(** Strict equality with a number literal, as in [x === 0]. *)
Definition strict_eq_int (v : value) (z : Z) : bool :=
  match v with
  | VNum (Int z') => Z.eqb z' z
  | _ => false
  end.

End JS.

Import JS.

Notation "x <- m ;; k" := (rbind m (fun x => k))
  (at level 61, m at next level, right associativity).

(** ** md5-hex

    [md5Hex(input)] creates an MD5 hash object, feeds it every element of
    the array with [hash.update] and returns [hash.digest('hex')].  The
    hash object is modelled by the bytes it has consumed; MD5 itself
    (RFC 1321) is computed on 32-bit words held in [Z]. *)

Module Md5.
Local Open Scope Z_scope.

Definition wrap32 (x : Z) : Z := x mod 2 ^ 32.

Definition rotl32 (x n : Z) : Z :=
  Z.lor (wrap32 (Z.shiftl x n)) (Z.shiftr x (32 - n)).

Definition shifts : list Z :=
  [7; 12; 17; 22; 7; 12; 17; 22; 7; 12; 17; 22; 7; 12; 17; 22;
   5; 9; 14; 20; 5; 9; 14; 20; 5; 9; 14; 20; 5; 9; 14; 20;
   4; 11; 16; 23; 4; 11; 16; 23; 4; 11; 16; 23; 4; 11; 16; 23;
   6; 10; 15; 21; 6; 10; 15; 21; 6; 10; 15; 21; 6; 10; 15; 21].

Definition sines : list Z :=
  [0xd76aa478; 0xe8c7b756; 0x242070db; 0xc1bdceee;
   0xf57c0faf; 0x4787c62a; 0xa8304613; 0xfd469501;
   0x698098d8; 0x8b44f7af; 0xffff5bb1; 0x895cd7be;
   0x6b901122; 0xfd987193; 0xa679438e; 0x49b40821;
   0xf61e2562; 0xc040b340; 0x265e5a51; 0xe9b6c7aa;
   0xd62f105d; 0x02441453; 0xd8a1e681; 0xe7d3fbc8;
   0x21e1cde6; 0xc33707d6; 0xf4d50d87; 0x455a14ed;
   0xa9e3e905; 0xfcefa3f8; 0x676f02d9; 0x8d2a4c8a;
   0xfffa3942; 0x8771f681; 0x6d9d6122; 0xfde5380c;
   0xa4beea44; 0x4bdecfa9; 0xf6bb4b60; 0xbebfbc70;
   0x289b7ec6; 0xeaa127fa; 0xd4ef3085; 0x04881d05;
   0xd9d4d039; 0xe6db99e5; 0x1fa27cf8; 0xc4ac5665;
   0xf4292244; 0x432aff97; 0xab9423a7; 0xfc93a039;
   0x655b59c3; 0x8f0ccc92; 0xffeff47d; 0x85845dd1;
   0x6fa87e4f; 0xfe2ce6e0; 0xa3014314; 0x4e0811a1;
   0xf7537e82; 0xbd3af235; 0x2ad7d2bb; 0xeb86d391].

(** The four chaining words A, B, C, D. *)
Record state : Type := mkState { sa : Z; sb : Z; sc : Z; sd : Z }.

Definition init : state :=
  mkState 0x67452301 0xefcdab89 0x98badcfe 0x10325476.

(** The round function and the index of the message word it uses. *)
Definition round_fg (i b c d : Z) : Z * Z :=
  if i <? 16 then
    (Z.lor (Z.land b c) (Z.land (wrap32 (Z.lnot b)) d), i)
  else if i <? 32 then
    (Z.lor (Z.land d b) (Z.land (wrap32 (Z.lnot d)) c), (5 * i + 1) mod 16)
  else if i <? 48 then
    (Z.lxor (Z.lxor b c) d, (3 * i + 5) mod 16)
  else
    (Z.lxor c (Z.lor b (wrap32 (Z.lnot d))), (7 * i) mod 16).

Definition step (m : list Z) (st : state) (i : Z) : state :=
  let '(f, g) := round_fg i (sb st) (sc st) (sd st) in
  let f' := wrap32 (f + sa st + nth (Z.to_nat i) sines 0
                      + nth (Z.to_nat g) m 0) in
  mkState (sd st)
          (wrap32 (sb st + rotl32 f' (nth (Z.to_nat i) shifts 0)))
          (sb st)
          (sc st).

(** Little-endian 32-bit words of a block. *)
Fixpoint words (bs : list Z) : list Z :=
  match bs with
  | b0 :: b1 :: b2 :: b3 :: rest =>
      (b0 + 2 ^ 8 * b1 + 2 ^ 16 * b2 + 2 ^ 24 * b3) :: words rest
  | _ => []
  end.

Definition indices : list Z := map Z.of_nat (seq 0 64).

Definition compress (st : state) (block : list Z) : state :=
  let r := fold_left (step (words block)) indices st in
  mkState (wrap32 (sa st + sa r)) (wrap32 (sb st + sb r))
          (wrap32 (sc st + sc r)) (wrap32 (sd st + sd r)).

(** One compression per 64-byte block; [fuel] bounds the number of
    blocks and is given as the number of bytes. *)
Fixpoint blocks (fuel : nat) (st : state) (bs : list Z) : state :=
  match fuel with
  | O => st
  | S fuel' =>
      match bs with
      | [] => st
      | _ => blocks fuel' (compress st (firstn 64 bs)) (skipn 64 bs)
      end
  end.

Definition le_bytes (n : nat) (x : Z) : list Z :=
  map (fun k => Z.shiftr x (8 * Z.of_nat k) mod 2 ^ 8) (seq 0 n).

Definition pad (bs : list Z) : list Z :=
  let len := Z.of_nat (List.length bs) in
  bs ++ 0x80 :: repeat 0 (Z.to_nat ((55 - len) mod 64))
     ++ le_bytes 8 ((8 * len) mod 2 ^ 64).

Definition digest (bs : list Z) : state :=
  let p := pad bs in blocks (List.length p) init p.

Definition hex_digit (x : Z) : ascii :=
  nth (Z.to_nat x) (list_ascii_of_string "0123456789abcdef") "0"%char.

Definition hex_byte (x : Z) : string :=
  String (hex_digit (x / 16)) (String (hex_digit (x mod 16)) EmptyString).

Definition hex (st : state) : string :=
  String.concat ""
    (map hex_byte (le_bytes 4 (sa st) ++ le_bytes 4 (sb st)
                     ++ le_bytes 4 (sc st) ++ le_bytes 4 (sd st))).

Definition bytes_of_string (s : string) : list Z :=
  map (fun c => Z.of_N (N_of_ascii c)) (list_ascii_of_string s).

(** The hash object of [crypto.createHash('md5')]: what it was fed. *)
Definition hash : Type := string.

Definition createHash : hash := "".

(** [hash.update(buf, 'utf8')]; a value that is neither a string nor a
    buffer is refused. *)
Definition update (h : hash) (buf : option string) : result hash :=
  match buf with
  | Some s => ok (h ++ s)%string
  | None =>
      throw (TypeError "The data argument must be of type string or Buffer")
  end.

Definition hexdigest (h : hash) : string := hex (digest (bytes_of_string h)).

Fixpoint forEach_update (h : hash) (input : list (option string)) : result hash :=
  match input with
  | [] => ok h
  | buf :: rest => h' <- update h buf ;; forEach_update h' rest
  end.

(** [md5Hex(input)] for an array [input]. *)
Definition md5Hex (input : list (option string)) : result string :=
  h <- forEach_update createHash input ;; ok (hexdigest h).

End Md5.

(** ** json-stable-stringify

    [stringify(obj, { replacer })]: the JSON text of [obj] with the keys of
    every object sorted.  Every node is passed through the replacer first;
    the two replacers the filter uses (the default one and
    [functionStringifier]) return arrays and objects as they are, so the
    replacer is applied here where a node is not an array or an object.
    Values are trees, so there are no cycles; a [toJSON] method would be a
    function of the configuration and is not called. *)

Module StableStringify.
Local Open Scope string_scope.

Definition dquote : string := String "034"%char EmptyString.
Definition backslash : string := String "092"%char EmptyString.

(** The escape of one character inside a JSON string literal. *)
Definition quote_char (c : ascii) : string :=
  let n := nat_of_ascii c in
  if Nat.eqb n 34 then backslash ++ dquote
  else if Nat.eqb n 92 then backslash ++ backslash
  else if Nat.eqb n 8 then backslash ++ "b"
  else if Nat.eqb n 12 then backslash ++ "f"
  else if Nat.eqb n 10 then backslash ++ "n"
  else if Nat.eqb n 13 then backslash ++ "r"
  else if Nat.eqb n 9 then backslash ++ "t"
  else if Nat.ltb n 32 then backslash ++ "u00" ++ Md5.hex_byte (Z.of_nat n)
  else String c EmptyString.

Fixpoint quote_chars (s : string) : string :=
  match s with
  | EmptyString => EmptyString
  | String c rest => quote_char c ++ quote_chars rest
  end.

(** [JSON.stringify(s)] for a string [s]. *)
Definition json_quote (s : string) : string :=
  dquote ++ quote_chars s ++ dquote.

(** [JSON.stringify(node)] for a node that is not an array or an
    object: [undefined] (here [None]) for [undefined] and functions. *)
Definition json_primitive (node : value) : option string :=
  match node with
  | VUndefined => None
  | VNull => Some "null"
  | VBool true => Some "true"
  | VBool false => Some "false"
  | VNum (Int z) => Some (decimal z)
  | VNum NaN => Some "null"
  | VNum (Infinity _) => Some "null"
  | VStr s => Some (json_quote s)
  | VFun _ | VClosure _ _ => None
  | VArr _ | VObj _ => None
  end.

(** [keys.sort()]: entries in ascending order of their keys. *)
Fixpoint insert {A} (e : string * A) (l : list (string * A)) : list (string * A) :=
  match l with
  | [] => [e]
  | x :: rest =>
      if String.leb (fst e) (fst x) then e :: l else x :: insert e rest
  end.

Definition sort {A} (l : list (string * A)) : list (string * A) :=
  fold_right insert [] l.

(** [!value] for a string or [undefined]. *)
Definition absent (o : option string) : bool :=
  match o with
  | None => true
  | Some s => String.eqb s ""
  end.

(** The [key:value] members of an object; a member whose value has no
    JSON text is left out. *)
Fixpoint members (entries : list (string * option string)) : list string :=
  match entries with
  | [] => []
  | (k, o) :: rest =>
      match o with
      | Some text =>
          if absent o then members rest
          else (json_quote k ++ ":" ++ text) :: members rest
      | None => members rest
      end
  end.

(** The items of an array; an item without JSON text prints as [null]. *)
Definition item (o : option string) : string :=
  match o with
  | Some text => if absent o then "null" else text
  | None => "null"
  end.

Section Replacer.
Variable replacer : string -> value -> value.

Fixpoint stringify_node (key : string) (node : value) : option string :=
  match node with
  | VArr items =>
      let out :=
        (fix each (i : nat) (l : list value) : list string :=
           match l with
           | [] => []
           | x :: l' =>
               item (stringify_node (decimal (Z.of_nat i)) x) :: each (S i) l'
           end) 0%nat items in
      Some ("[" ++ String.concat "," out ++ "]")
  | VObj props =>
      let entries :=
        (fix each (l : list (string * value)) : list (string * option string) :=
           match l with
           | [] => []
           | (k, x) :: l' => (k, stringify_node k x) :: each l'
           end) props in
      Some ("{" ++ String.concat "," (members (sort entries)) ++ "}")
  | _ => json_primitive (replacer key node)
  end.

Definition stringify (obj : value) : option string := stringify_node "" obj.
End Replacer.

(** The replacer used when none is given. *)
Definition default_replacer (key : string) (v : value) : value := v.

End StableStringify.

Local Open Scope string_scope.

(** ** dist/test-generators.js *)

Module TestGenerators.

Definition newline : string := String "010"%char EmptyString.
Definition backslash : string := String "092"%char EmptyString.

(** *** js-string-escape

    [jsStringEscape(string)] puts a backslash before both quotes and the
    backslash and writes the four line terminators (line feed, carriage
    return, U+2028, U+2029) as escape sequences. *)
Definition escape_char (c : ascii) : string :=
  let n := nat_of_ascii c in
  if Nat.eqb n 34 || Nat.eqb n 39 || Nat.eqb n 92
  then backslash ++ String c EmptyString
  else if Nat.eqb n 10 then backslash ++ "n"
  else if Nat.eqb n 13 then backslash ++ "r"
  else String c EmptyString.

Definition is_separator (c c1 c2 : ascii) (last : nat) : bool :=
  Nat.eqb (nat_of_ascii c) 226 && Nat.eqb (nat_of_ascii c1) 128
  && Nat.eqb (nat_of_ascii c2) last.

Fixpoint jsStringEscape (s : string) : string :=
  match s with
  | EmptyString => EmptyString
  | String c rest =>
      match rest with
      | String c1 (String c2 rest') =>
          if is_separator c c1 c2 168
          then backslash ++ "u2028" ++ jsStringEscape rest'
          else if is_separator c c1 c2 169
          then backslash ++ "u2029" ++ jsStringEscape rest'
          else escape_char c ++ jsStringEscape rest
      | _ => escape_char c ++ jsStringEscape rest
      end
  end.

(** *** render *)

Definition renderLine (error : value) : result string :=
  line <- get error "line" ;;
  column <- get error "column" ;;
  message <- get error "message" ;;
  ruleId <- get error "ruleId" ;;
  ok (to_string line ++ ":" ++ to_string column ++ " - "
        ++ to_string message ++ " (" ++ to_string ruleId ++ ")").

Fixpoint map_renderLine (errors : list value) : result (list string) :=
  match errors with
  | [] => ok []
  | error :: rest =>
      l <- renderLine error ;;
      ls <- map_renderLine rest ;;
      ok (l :: ls)
  end.

(** [errors.map(renderLine).join('\n')]; only an array has [map]. *)
Definition render (errors : value) : result string :=
  match errors with
  | VArr items =>
      lines <- map_renderLine items ;;
      ok (String.concat newline lines)
  | _ => throw (TypeError "errors.map is not a function")
  end.

(** *** testGenerator

    [testGenerator(callback)] is the function of [relativePath],
    [errors] and [results] below. *)
Definition passed_of (results : value) : result bool :=
  errorCount <- get results "errorCount" ;;
  if negb (truthy errorCount) then ok true
  else
    len <- get errorCount "length" ;;
    ok (strict_eq_int len 0).

Definition messages_of (relativePath : string) (results : value) : result string :=
  let messages := relativePath ++ " should pass sass-lint" in
  msgs <- get results "messages" ;;
  if truthy msgs then
    rendered <- render msgs ;;
    ok (messages ++ newline ++ newline ++ rendered)
  else ok messages.

Definition testGenerator (callback : string -> bool -> string -> string)
    (relativePath : string) (errors results : value) : result string :=
  passed <- passed_of results ;;
  messages <- messages_of relativePath results ;;
  ok (callback relativePath passed messages).

Definition bool_text (b : bool) : string := if b then "true" else "false".

Definition qunitString (relativePath : string) (passed : bool) (messages : string)
  : string :=
  "QUnit.module('SCSS Lint | " ++ jsStringEscape relativePath ++ "');" ++ newline
  ++ "QUnit.test('should pass sass-lint', function(assert) {" ++ newline
  ++ "  assert.expect(1);" ++ newline
  ++ "  assert.ok(" ++ bool_text passed ++ ", '" ++ jsStringEscape messages
  ++ "');" ++ newline
  ++ "});" ++ newline.

Definition mochaString (relativePath : string) (passed : bool) (messages : string)
  : string :=
  let output :=
    "describe('SCSS Lint | " ++ jsStringEscape relativePath
    ++ "', function() {" ++ newline
    ++ "  it('should pass sass-lint', function() {" ++ newline in
  let output :=
    if passed then output ++ "    // SCSS Lint passed" ++ newline
    else
      output ++ "    // SCSS Lint failed" ++ newline
      ++ "    var error = new chai.AssertionError('" ++ jsStringEscape messages
      ++ "');" ++ newline
      ++ "    error.stack = undefined;" ++ newline
      ++ "    throw error;" ++ newline in
  output ++ "  });" ++ newline ++ "});" ++ newline.

(** *** The module scope and its exports *)

(** Text of the closure that [testGenerator] returns. *)
Definition generator_source : string :=
"function (relativePath, errors, results) {
    var passed = !results.errorCount || results.errorCount.length === 0;

    var messages = relativePath + ' should pass sass-lint';

    if (results.messages) {
      messages += '\n\n' + render(results.messages);
    }

    return callback(relativePath, passed, messages);
  }".

(** [var qunit = testGenerator(qunitString);]
    [var mocha = testGenerator(mochaString);] *)
Definition qunit : value := VClosure "qunit" generator_source.
Definition mocha : value := VClosure "mocha" generator_source.

(** The identifiers that the module declares, with the value each one
    has when the last statement runs (the source text is recorded for
    the two generators only). *)
Definition scope : list (string * value) :=
  [ ("jsStringEscape", VClosure "jsStringEscape" "");
    ("render", VClosure "render" "");
    ("testGenerator", VClosure "testGenerator" "");
    ("qunitString", VClosure "qunitString" "");
    ("mochaString", VClosure "mochaString" "");
    ("qunit", qunit);
    ("mocha", mocha) ].

(** Evaluation of an identifier: an undeclared one is a ReferenceError. *)
Definition resolve (id : string) : result value :=
  match lookup id scope with
  | Some v => ok v
  | None => throw (ReferenceError (id ++ " is not defined"))
  end.

(** [module.exports = { quint: quint, mocha: mocha };]
    each member is a key and the identifier that gives its value. *)
Definition exports_literal : list (string * string) :=
  [ ("quint", "quint"); ("mocha", "mocha") ].

Fixpoint object_literal (members : list (string * string))
    (props : list (string * value)) : result (list (string * value)) :=
  match members with
  | [] => ok props
  | (key, id) :: rest =>
      v <- resolve id ;;
      object_literal rest (set key v props)
  end.

(** What [require('./test-generators')] gives: the exports, or the
    exception that loading the module raises. *)
Definition module_exports : result value :=
  props <- object_literal exports_literal [] ;;
  ok (VObj props).

End TestGenerators.

(** ** lib/index.js (compiled to dist/index.js) *)

Module Lib.

(** The collaborators of the filter: minimatch, the sass-lint linter and
    the base class of broccoli-persistent-filter. *)
Class Host : Type := {
  (** [minimatch(path, pattern)] for a string pattern *)
  minimatch : string -> string -> bool;
  (** [linter.getConfig(options, configPath)] *)
  linter_getConfig : value -> value -> result value;
  (** [linter.lintText(file, options, configPath)] *)
  linter_lintText : value -> value -> value -> result value;
  (** [Filter.call(this, inputNode, { annotation, persist })] *)
  Filter_call : value -> result unit;
  (** [Filter.prototype.getDestFilePath.apply(this, arguments)] *)
  Filter_getDestFilePath : list (string * value) -> string -> value;
  (** [path.extname(relativePath)] *)
  path_extname : string -> string;
  (** a call of a function that the configuration supplies *)
  call_function : string -> list value -> result value
}.

(** Calls made for their effect, in the order they are made. *)
Inductive event : Type :=
| Minimatch (path : string) (pattern : value)
| OutputResults (reports options config : value).

(** A computation that may throw and that leaves a trace. *)
Definition M (A : Type) : Type := (list event * result A)%type.

Definition mret {A} (a : A) : M A := ([], ok a).

Definition mbind {A B} (m : M A) (f : A -> M B) : M B :=
  match m with
  | (t, inl e) => (t, inl e)
  | (t, inr a) => let '(t', r) := f a in ((t ++ t')%list, r)
  end.

Definition lift {A} (r : result A) : M A := ([], r).

Definition emit (e : event) : M unit := ([e], ok tt).

Notation "x <~ m ;; k" := (mbind m (fun x => k))
  (at level 61, m at next level, right associativity).

(** The filter object: its own properties. *)
Definition instance : Type := list (string * value).

(** [ScssLinter.prototype.extensions], [ScssLinter.prototype.targetExtension] *)
Definition prototype : list (string * value) :=
  [ ("extensions", VArr [VStr "sass"; VStr "scss"]);
    ("targetExtension", VStr "scss") ].

(** [this[key]]: an own property, else what the prototype has. *)
Definition this_get (this : instance) (key : string) : value :=
  match lookup key this with
  | Some v => v
  | None => or_undefined (lookup key prototype)
  end.

Section WithHost.
Context {host : Host}.

(** [for (const key of Object.keys(this.options)) this[key] = this.options[key];]
    with [this.options] read again at every turn. *)
Fixpoint copy_options (keys : list string) (this : instance) : result instance :=
  match keys with
  | [] => ok this
  | key :: rest =>
      v <- get (this_get this "options") key ;;
      copy_options rest (set key v this)
  end.

Definition ScssLinter (inputNode : value) (options : value) : result instance :=
  let options :=
    match options with
    | VUndefined => VObj []
    | _ => options
    end in
  if negb (String.eqb (typeof inputNode) "object")
  then throw (Error "Invalid input node.")
  else
    let this := set "options" options [] in
    _ <- Filter_call inputNode ;;
    keys <- object_keys (this_get this "options") ;;
    this <- copy_options keys this ;;
    this <-
      (if String.eqb (typeof (this_get this "testGenerator")) "string" then
         generators <- TestGenerators.module_exports ;;
         g <- get generators (to_string (this_get this "testGenerator")) ;;
         let this := set "testGenerator" g this in
         if negb (truthy (this_get this "testGenerator"))
         then throw (Error ("Could not find '"
                              ++ to_string (this_get this "testGenerator")
                              ++ "' test generator."))
         else ok this
       else ok this) ;;
    if truthy (this_get this "testGenerator")
    then ok (set "targetExtension" (VStr "sass-lint-test.js") this)
    else ok this.

Definition getConfig (this : instance) : result value :=
  linter_getConfig (this_get this "options") (this_get this "config").

Definition functionStringifier (key : string) (v : value) : value :=
  if String.eqb (typeof v) "function" then VStr (to_string v) else v.

Definition cacheKeyProcessString (this : instance) (content relativePath : string)
  : result string :=
  let options :=
    StableStringify.stringify functionStringifier (this_get this "options") in
  config <- getConfig this ;;
  Md5.md5Hex [ Some content; Some relativePath; options;
               StableStringify.stringify StableStringify.default_replacer config ].

(** [minimatch(relativePath, pattern)]; a pattern that is not a string
    is refused with a TypeError. *)
Definition call_minimatch (relativePath : string) (pattern : value) : M bool :=
  match pattern with
  | VStr p => ([Minimatch relativePath pattern], ok (minimatch relativePath p))
  | _ => ([Minimatch relativePath pattern],
          throw (TypeError "glob pattern string required"))
  end.

(** The [for ... of] loop of [shouldIgnore]. *)
Fixpoint any_match (relativePath : string) (ignore : list value) : M bool :=
  match ignore with
  | [] => mret false
  | file :: rest =>
      m <~ call_minimatch relativePath file ;;
      if m then mret true else any_match relativePath rest
  end.

Definition shouldIgnore (this : instance) (relativePath : string) : M bool :=
  config <~ lift (getConfig this) ;;
  files <~ lift (get config "files") ;;
  ignore <~ lift (get files "ignore") ;;
  if String.eqb (typeof ignore) "string" then
    m <~ call_minimatch relativePath ignore ;;
    if m then mret true else mret false
  else
    match ignore with
    | VArr items =>
        if Nat.ltb 0 (List.length items) then any_match relativePath items
        else mret false
    | _ => mret false
    end.

Definition getDestFilePath (this : instance) (relativePath : string) : M value :=
  ignored <~ shouldIgnore this relativePath ;;
  if ignored then mret VNull
  else mret (Filter_getDestFilePath this relativePath).

(** [str.replace('.', '')]: the first dot is removed. *)
Fixpoint remove_first_dot (s : string) : string :=
  match s with
  | EmptyString => EmptyString
  | String c rest =>
      if Ascii.eqb c "."%char then rest else String c (remove_first_dot rest)
  end.

Definition lintText (this : instance) (content relativePath : string)
  : result value :=
  linter_lintText
    (VObj [ ("text", VStr content);
            ("format", VStr (remove_first_dot (path_extname relativePath)));
            ("filename", VStr relativePath) ])
    (this_get this "options") (this_get this "config").

(** [this.testGenerator(relativePath, report.messages, report)] *)
Definition call_testGenerator (g : value) (relativePath : string)
    (messages report : value) : result value :=
  match g with
  | VClosure name _ =>
      if String.eqb name "qunit" then
        out <- TestGenerators.testGenerator TestGenerators.qunitString
                 relativePath messages report ;;
        ok (VStr out)
      else if String.eqb name "mocha" then
        out <- TestGenerators.testGenerator TestGenerators.mochaString
                 relativePath messages report ;;
        ok (VStr out)
      else throw (TypeError "this.testGenerator is not a function")
  | VFun src => call_function src [VStr relativePath; messages; report]
  | _ => throw (TypeError "this.testGenerator is not a function")
  end.

Definition processString (this : instance) (content relativePath : string)
  : result value :=
  report <- lintText this content relativePath ;;
  let cacheObject := [ ("report", report); ("output", VStr content) ] in
  if truthy (this_get this "testGenerator") then
    messages <- get report "messages" ;;
    if isArray messages then
      output <- call_testGenerator (this_get this "testGenerator")
                  relativePath messages report ;;
      ok (VObj (set "output" output cacheObject))
    else ok (VObj cacheObject)
  else ok (VObj cacheObject).

Definition outputResults (this : instance) (reports : value) : M value :=
  _ <~ emit (OutputResults reports (this_get this "options")
               (this_get this "config")) ;;
  mret reports.

Definition postProcess (this : instance) (results : value) : M value :=
  report <~ lift (get results "report") ;;
  output <~ lift (get results "output") ;;
  errorCount <~ lift (get report "errorCount") ;;
  counts <~ (if truthy errorCount then mret errorCount
             else lift (get report "warningCount")) ;;
  _ <~ (if truthy counts
        then _ <~ outputResults this (VArr [report]) ;; mret tt
        else mret tt) ;;
  mret (VObj [ ("output", output) ]).

End WithHost.

End Lib.

(** ** index.js: the filter that runs the scss-lint command

    [this.options] and the [options] parameter of [_buildCommand] are one
    object: the filter object is threaded through [processString], with
    the state of that object in its [options] property.  Methods are
    called as the prototype defines them. *)

Module Legacy.

Class Shell : Type := {
  (** [shell.exec(command, { silent: true })]: stdout and exit code *)
  shell_exec : string -> string * Z;
  (** [path.join(this.inputPaths[0], relativePath)] *)
  absolute : string -> string;
  (** [path.dirname(relativePath)] *)
  path_dirname : string -> string
}.

Definition instance : Type := list (string * value).

Definition this_get (this : instance) (key : string) : value :=
  or_undefined (lookup key this).

(** A property read on a value that is not [null] or [undefined]. *)
Definition prop (v : value) (key : string) : value :=
  match get v key with
  | inr x => x
  | inl _ => VUndefined
  end.

(** [delete v[key]] *)
Definition delete (v : value) (key : string) : value :=
  match v with
  | VObj props => VObj (remove key props)
  | _ => v
  end.

Definition own_keys (v : value) : list string :=
  match object_keys v with
  | inr ks => ks
  | inl _ => []
  end.

(** [for (var key in options) if (options.hasOwnProperty(key)) this[key] = options[key];] *)
Definition copy_options (options : value) (this : instance) : instance :=
  fold_left (fun this key => set key (prop options key) this) (own_keys options) this.

Definition ScssLinter (options : value) : instance :=
  let options := if truthy options then options else VObj [] in
  copy_options options (set "options" options []).

(** [_buildCommand(absolutePath, options)]: the command, and the state
    in which the call leaves the object it was given. *)
Definition _buildCommand (absolutePath : string) (options : value)
  : string * value :=
  let parts := [VStr "scss-lint"; VStr absolutePath] in
  let given := truthy options in
  let options := if given then options else VObj [] in
  let parts :=
    if truthy (prop options "bundleExec")
    then VStr "bundle" :: VStr "exec" :: parts
    else parts in
  let options := delete options "bundleExec" in
  let parts :=
    fold_left (fun parts key =>
                 (parts ++ [VStr ("--" ++ key)] ++ [prop options key])%list)
              (own_keys options) parts in
  (join " " parts, if given then options else VUndefined).

Section WithShell.
Context {shell : Shell}.

(** [stdout.substring(stdout.indexOf(relativePath))] *)
Definition from_first (relativePath stdout : string) : string :=
  match String.index 0 relativePath stdout with
  | Some n => String.substring n (String.length stdout - n) stdout
  | None => stdout
  end.

Definition testGenerator (this : instance) (relativePath : string)
    (passed : bool) (errors : string) : string :=
  let errors :=
    if truthy (VStr errors)
    then TestGenerators.backslash ++ "n" ++ TestGenerators.jsStringEscape errors
    else "" in
  "QUnit.module('JSHint - " ++ path_dirname relativePath ++ "');"
  ++ TestGenerators.newline
  ++ "QUnit.test('" ++ relativePath ++ " should pass jshint', function(assert) { "
  ++ TestGenerators.newline
  ++ "  assert.expect(1);" ++ TestGenerators.newline
  ++ "  assert.ok(" ++ TestGenerators.bool_text passed ++ ", '" ++ relativePath
  ++ " should pass jshint." ++ errors ++ "'); " ++ TestGenerators.newline
  ++ "});" ++ TestGenerators.newline.

(** The outcome of [processString]: the command that was run, what
    the call returns or throws, and the filter object afterwards. *)
Record outcome : Type := mkOutcome {
  command : string;
  returned : result value;
  after : instance
}.

Definition processString (this : instance) (content relativePath : string)
  : outcome :=
  let absolutePath := absolute relativePath in
  let '(cmd, options) := _buildCommand absolutePath (this_get this "options") in
  let this :=
    if truthy (this_get this "options") then set "options" options this
    else this in
  let '(stdout, code) := shell_exec cmd in
  let passed := Nat.leb (String.length stdout) 0 in
  let errors := from_first relativePath stdout in
  if Z.eqb code 2
  then mkOutcome cmd (throw (Error "There are errors in your SCSS files")) this
  else
    let output :=
      if negb (truthy (this_get this "disableTestGenerator"))
      then testGenerator this relativePath passed errors
      else "" in
    mkOutcome cmd
      (ok (VObj [ ("output", VStr output); ("passed", VBool passed);
                  ("errors", VStr errors) ]))
      this.

(** [postProcess(result)]: the result, and [this._errors] after the
    call. *)
Definition postProcess (_errors : list value) (results : value)
  : result (value * list value) :=
  errors <- get results "errors" ;;
  len <- get errors "length" ;;
  match len with
  | VNum (Int n) =>
      if Z.ltb 0 n then ok (results, (_errors ++ [errors])%list)
      else ok (results, _errors)
  | _ => ok (results, _errors)
  end.

End WithShell.

End Legacy.

(** ** Test doubles for the collaborators

    A linter that resolves the configuration from the [files] and [rules]
    options, a matcher for literal patterns with an optional trailing
    [**], and a shell that reports no output. *)

Module Stub.

(** A pattern of literal characters that may end in [**]. *)
Fixpoint glob (path pattern : string) : bool :=
  match pattern with
  | EmptyString =>
      match path with
      | EmptyString => true
      | _ => false
      end
  | String c pattern' =>
      if String.eqb pattern "**" then true
      else
        match path with
        | EmptyString => false
        | String d path' => Ascii.eqb c d && glob path' pattern'
        end
  end.

Definition option_or (options : value) (key : string) (default : value) : value :=
  match get options key with
  | inr VUndefined => default
  | inr v => v
  | inl _ => default
  end.

Definition getConfig (options config : value) : result value :=
  ok (VObj [ ("files",
               option_or options "files" (VObj [ ("include", VStr "**/*.s+(a|c)ss") ]));
             ("rules", option_or options "rules" (VObj [])) ]).

Definition lintText (file options config : value) : result value :=
  ok (VObj [ ("filePath", Legacy.prop file "filename");
             ("warningCount", VNum (Int 0));
             ("errorCount", VNum (Int 0));
             ("messages", VArr []) ]).

#[export] Instance host : Lib.Host := {|
  Lib.minimatch := glob;
  Lib.linter_getConfig := getConfig;
  Lib.linter_lintText := lintText;
  Lib.Filter_call := fun _ => ok tt;
  Lib.Filter_getDestFilePath := fun _ relativePath => VStr relativePath;
  Lib.path_extname := fun _ => ".scss";
  Lib.call_function := fun _ _ => ok VUndefined
|}.

#[export] Instance shell : Legacy.Shell := {|
  Legacy.shell_exec := fun _ => ("", 0%Z);
  Legacy.absolute := fun relativePath => "/tmp/in/" ++ relativePath;
  Legacy.path_dirname := fun _ => "."
|}.

End Stub.

(** ** Notions used by the statements *)

Import Lib.

Module Statements.

Section WithHost.
Context {host : Host}.

(** The string that [cacheKeyProcessString] hashes: the four elements
    of the array, one after the other. *)
Definition hash_input (this : instance) (content relativePath : string)
  : result string :=
  config <- getConfig this ;;
  match StableStringify.stringify functionStringifier (this_get this "options"),
        StableStringify.stringify StableStringify.default_replacer config with
  | Some options, Some resolved =>
      ok (content ++ relativePath ++ options ++ resolved)
  | _, _ =>
      throw (TypeError "The data argument must be of type string or Buffer")
  end.

(** The ignore rule as the specification words it: a single glob that
    matches the path, or a sequence with at least one glob that matches
    the path. *)
Definition matches_glob (relativePath : string) (pattern : value) : bool :=
  match pattern with
  | VStr glob => minimatch relativePath glob
  | _ => false
  end.

Definition ignored_by (relativePath : string) (ignore : value) : bool :=
  match ignore with
  | VStr _ => matches_glob relativePath ignore
  | VArr items => existsb (matches_glob relativePath) items
  | _ => false
  end.

(** The patterns of a sequence up to and including the first one that
    matches. *)
Fixpoint up_to_first_match (relativePath : string) (items : list value)
  : list value :=
  match items with
  | [] => []
  | x :: rest =>
      if matches_glob relativePath x then [x]
      else x :: up_to_first_match relativePath rest
  end.

(** The patterns that an evaluation which stops at the first match hands
    to the matcher. *)
Definition tested (relativePath : string) (ignore : value) : list value :=
  match ignore with
  | VStr _ => [ignore]
  | VArr items => up_to_first_match relativePath items
  | _ => []
  end.

(** The key of a file under a configuration: the filter is constructed
    (on an input node that is accepted) and asked for the key. *)
Definition key_under (configuration : value) (content relativePath : string)
  : result string :=
  this <- ScssLinter (VObj []) configuration ;;
  cacheKeyProcessString this content relativePath.

End WithHost.

Definition is_glob (v : value) : Prop := exists glob, v = VStr glob.

(** A sequence of patterns holds globs only. *)
Definition globs_only (ignore : value) : Prop :=
  match ignore with
  | VArr items => Forall is_glob items
  | _ => True
  end.

(** A message of a lint report, formatted as
    [{line}:{column} - {text} ({ruleId})]. *)
Definition field (v : value) (key : string) : string :=
  match get v key with
  | inr x => to_string x
  | inl _ => ""
  end.

Definition format_message (m : value) : string :=
  field m "line" ++ ":" ++ field m "column" ++ " - " ++ field m "message"
  ++ " (" ++ field m "ruleId" ++ ")".

Definition is_object (v : value) : Prop := exists props, v = VObj props.

(** The [errorCount] of a report is absent ([None]) or an integer. *)
Definition errorCount_is (props : list (string * value)) (count : option Z) : Prop :=
  match count with
  | None => lookup "errorCount" props = None
  | Some n => lookup "errorCount" props = Some (VNum (Int n))
  end.

Definition zero_or_absent (count : option Z) : bool :=
  match count with
  | None => true
  | Some n => Z.eqb n 0
  end.

(** The scalars that JSON tells apart. *)
Definition scalar (v : value) : Prop :=
  match v with
  | VNull | VBool _ | VNum (Int _) | VStr _ => True
  | _ => False
  end.

(** Reading back the characters of a JSON string literal (used to show
    that the literal determines the string). *)
Definition hex_value (c : ascii) : nat :=
  let n := nat_of_ascii c in
  if Nat.leb 97 n then n - 87 else n - 48.

Definition unescape (c : ascii) : ascii :=
  let n := nat_of_ascii c in
  if Nat.eqb n 98 then "008"%char
  else if Nat.eqb n 102 then "012"%char
  else if Nat.eqb n 110 then "010"%char
  else if Nat.eqb n 114 then "013"%char
  else if Nat.eqb n 116 then "009"%char
  else c.

Fixpoint unquote_chars (s : string) : string :=
  match s with
  | EmptyString => EmptyString
  | String c rest =>
      if Nat.eqb (nat_of_ascii c) 92 then
        match rest with
        | String d rest1 =>
            if Nat.eqb (nat_of_ascii d) 117 then
              match rest1 with
              | String _ (String _ (String h1 (String h2 rest2))) =>
                  String (ascii_of_nat (16 * hex_value h1 + hex_value h2))
                         (unquote_chars rest2)
              | _ => EmptyString
              end
            else String (unescape d) (unquote_chars rest1)
        | EmptyString => EmptyString
        end
      else String c (unquote_chars rest)
  end.

(** Finding the end of a JSON array or object at the head of a string
    (used to show that such a text is never the proper prefix of
    another): brackets are counted outside string literals, and the rest
    of the string is returned when the first bracket is closed. *)
Definition is_char (n : nat) (c : ascii) : bool := Nat.eqb (nat_of_ascii c) n.

Fixpoint scan (depth : nat) (in_string escaped : bool) (s : string) : option string :=
  match s with
  | EmptyString => None
  | String c rest =>
      if in_string then
        if escaped then scan depth true false rest
        else if is_char 92 c then scan depth true true rest
        else if is_char 34 c then scan depth false false rest
        else scan depth true false rest
      else if is_char 34 c then scan depth true false rest
      else if is_char 123 c || is_char 91 c then scan (S depth) false false rest
      else if is_char 125 c || is_char 93 c then
        match depth with
        | O => None
        | S O => Some rest
        | S d => scan d false false rest
        end
      else scan depth false false rest
  end.

(** No quote and no bracket. *)
Definition plain_char (c : ascii) : bool :=
  negb (is_char 34 c || is_char 123 c || is_char 91 c || is_char 125 c
        || is_char 93 c).

Fixpoint plain (s : string) : bool :=
  match s with
  | EmptyString => true
  | String c rest => plain_char c && plain rest
  end.

(** A text that the scan passes over inside an array or object. *)
Definition neutral (t : string) : Prop :=
  forall d x, scan (S d) false false (t ++ x) = scan (S d) false false x.

(** The entry of [key] is replaced, the others are kept. *)
Definition replace_text (key : string) (text : option string)
    (e : string * option string) : string * option string :=
  if String.eqb (fst e) key then (fst e, text) else e.

(** The key of a property with the JSON text of its value. *)
Definition entry (replacer : string -> value -> value) (e : string * value)
  : string * option string :=
  (fst e, StableStringify.stringify_node replacer (fst e) (snd e)).

(** The text of the value of an entry is neutral. *)
Definition neutral_entry (e : string * option string) : Prop :=
  forall t, snd e = Some t -> neutral t.

(** The 128 bits of a digest as one number. *)
Definition digest_number (st : Md5.state) : N :=
  Z.to_N (Md5.sa st + 2 ^ 32 * Md5.sb st + 2 ^ 64 * Md5.sc st
          + 2 ^ 96 * Md5.sd st)%Z.

Definition word (x : Z) : Prop := (0 <= x < 2 ^ 32)%Z.

Definition words_of (st : Md5.state) : Prop :=
  word (Md5.sa st) /\ word (Md5.sb st) /\ word (Md5.sc st) /\ word (Md5.sd st).

(** A content for every number: that many letters. *)
Definition filler (i : N) : string :=
  string_of_list_ascii (repeat "a"%char (N.to_nat i)).

(** Two values are the same mapping when they differ at most in the order
    of the keys of their objects, at any depth. *)
Inductive same_mapping : value -> value -> Prop :=
| same_value (v : value) : same_mapping v v
| same_array (items items' : list value) :
    Forall2 same_mapping items items' ->
    same_mapping (VArr items) (VArr items')
| same_object (props reordered props' : list (string * value)) :
    NoDup (keys props) ->
    Permutation props reordered ->
    Forall2 (fun e e' => fst e = fst e' /\ same_mapping (snd e) (snd e'))
            reordered props' ->
    same_mapping (VObj props) (VObj props').

(** The texts of the items of an array, the first of which has index
    [i]. *)
Fixpoint item_texts (replacer : string -> value -> value) (i : nat)
    (items : list value) : list string :=
  match items with
  | [] => []
  | x :: rest =>
      StableStringify.item
        (StableStringify.stringify_node replacer (decimal (Z.of_nat i)) x)
      :: item_texts replacer (S i) rest
  end.

(** The same outcome of a call, up to the order of keys. *)
Definition same_outcome (r r' : result value) : Prop :=
  match r, r' with
  | inr v, inr v' => same_mapping v v'
  | inl e, inl e' => e = e'
  | _, _ => False
  end.

End Statements.

Import Statements.

(** ** lib/index.js: the options object is shared with the linter

    [this.getConfig()] hands [this.options] itself to
    [linter.getConfig], and a linter may write to the object it is
    handed: sass-lint does ([options.rules = options.rules ?
    options.rules : {}]).  [cacheKeyProcessString] serializes
    [this.options] before it calls [this.getConfig()], so what a call
    leaves behind is seen by the next call.  Here the two operations
    return, next to their result, the filter object as the call leaves
    it; the result of one call is the one of [Lib]. *)

Module Shared.

Class Linter : Type := {
  (** the state in which [linter.getConfig(options, configPath)] leaves
      the object [options] *)
  getConfig_leaves : value -> value -> value
}.

Section WithLinter.
Context {host : Host} {linter : Linter}.

Definition getConfig (this : instance) : result value * instance :=
  (linter_getConfig (this_get this "options") (this_get this "config"),
   set "options"
     (getConfig_leaves (this_get this "options") (this_get this "config")) this).

(** The elements of the array are evaluated from left to right: the
    options are serialized, then the configuration is resolved. *)
Definition cacheKeyProcessString (this : instance) (content relativePath : string)
  : result string * instance :=
  let options :=
    StableStringify.stringify functionStringifier (this_get this "options") in
  let '(resolved, this) := getConfig this in
  (config <- resolved ;;
   Md5.md5Hex [ Some content; Some relativePath; options;
                StableStringify.stringify StableStringify.default_replacer config ],
   this).

End WithLinter.

(** What sass-lint writes: [options.rules = options.rules ? options.rules : {}]
    (for [options] an object). *)
Definition writes_rules (options config : value) : value :=
  match options with
  | VObj props =>
      let rules := or_undefined (lookup "rules" props) in
      VObj (set "rules" (if truthy rules then rules else VObj []) props)
  | _ => options
  end.

Definition sass_lint : Linter := {| getConfig_leaves := writes_rules |}.

(** A linter that does not write. *)
Definition read_only : Linter := {| getConfig_leaves := fun options _ => options |}.

(** A linter that reads the rules from the file at the config path; the
    resolved configuration of this test double names the file. *)
Definition reading_host : Host := {|
  minimatch := Stub.glob;
  linter_getConfig := fun options config =>
    ok (VObj [ ("files",
                 Stub.option_or options "files"
                   (VObj [ ("include", VStr "**/*.s+(a|c)ss") ]));
               ("rules", Stub.option_or options "rules" (VObj []));
               ("file", config) ]);
  linter_lintText := Stub.lintText;
  Filter_call := fun _ => ok tt;
  Filter_getDestFilePath := fun _ relativePath => VStr relativePath;
  path_extname := fun _ => ".scss";
  call_function := fun _ _ => ok VUndefined
|}.

End Shared.

(** ** Notions used by the further properties *)

Module Further.

(** A digit of a lower-case hexadecimal number. *)
Definition is_hex_digit (c : ascii) : bool :=
  let n := nat_of_ascii c in
  (Nat.leb 48 n && Nat.leb n 57) || (Nat.leb 97 n && Nat.leb n 102).

(** Every character of a text passes the test. *)
Fixpoint all_chars (p : ascii -> bool) (s : string) : bool :=
  match s with
  | EmptyString => true
  | String c rest => p c && all_chars p rest
  end.

(** A function applied to every node of a value that is not an array or
    an object. *)
Fixpoint map_leaves (g : value -> value) (v : value) : value :=
  match v with
  | VArr items => VArr (map (map_leaves g) items)
  | VObj props => VObj (map (fun e => (fst e, map_leaves g (snd e))) props)
  | _ => g v
  end.

(** The value with every function replaced by its source text. *)
Definition functions_as_text (v : value) : value :=
  map_leaves (functionStringifier "") v.

(** The value of a hexadecimal digit, in either case. *)
Definition hex_digit_value (c : ascii) : option N :=
  let n := N_of_ascii c in
  if N.leb 48 n && N.leb n 57 then Some (n - 48)%N
  else if N.leb 97 n && N.leb n 102 then Some (n - 87)%N
  else if N.leb 65 n && N.leb n 70 then Some (n - 55)%N
  else None.

(** The code point that [\uXXXX] names. *)
Definition code_point (h1 h2 h3 h4 : ascii) : option N :=
  match hex_digit_value h1, hex_digit_value h2,
        hex_digit_value h3, hex_digit_value h4 with
  | Some a, Some b, Some c, Some d => Some (4096 * a + 256 * b + 16 * c + d)%N
  | _, _, _, _ => None
  end.

(** The UTF-8 bytes of a code point below 0x10000. *)
Definition utf8 (cp : N) : string :=
  if N.ltb cp 128 then String (ascii_of_N cp) EmptyString
  else if N.ltb cp 2048 then
    String (ascii_of_N (192 + cp / 64))
      (String (ascii_of_N (128 + cp mod 64)) EmptyString)
  else
    String (ascii_of_N (224 + cp / 4096))
      (String (ascii_of_N (128 + (cp / 64) mod 64))
         (String (ascii_of_N (128 + cp mod 64)) EmptyString)).

(** The text starts with the last two bytes of U+2028 or U+2029. *)
Definition separator_tail (s : string) : bool :=
  match s with
  | String a (String b _) => is_char 128 a && (is_char 168 b || is_char 169 b)
  | _ => false
  end.

(** The string that a string literal of JavaScript denotes, read from
    the text between its quotes (UTF-8).  The escapes that are read are
    the ones that [jsStringEscape] writes: a backslash before a quote or
    a backslash, [\n], [\r] and [\uXXXX]; a text with another escape,
    with a quote that is not escaped or with a line terminator (line
    feed, carriage return, U+2028, U+2029) is not read. *)
Fixpoint literal_value (s : string) : option string :=
  match s with
  | EmptyString => Some EmptyString
  | String c rest =>
      if is_char 92 c then
        match rest with
        | String d rest1 =>
            if is_char 110 d
            then option_map (String "010"%char) (literal_value rest1)
            else if is_char 114 d
            then option_map (String "013"%char) (literal_value rest1)
            else if is_char 117 d then
              match rest1 with
              | String h1 (String h2 (String h3 (String h4 rest2))) =>
                  match code_point h1 h2 h3 h4, literal_value rest2 with
                  | Some cp, Some t => Some (utf8 cp ++ t)
                  | _, _ => None
                  end
              | _ => None
              end
            else if is_char 34 d || is_char 39 d || is_char 92 d
            then option_map (String d) (literal_value rest1)
            else None
        | EmptyString => None
        end
      else if is_char 34 c || is_char 39 c || is_char 10 c || is_char 13 c
      then None
      else if is_char 226 c && separator_tail rest then None
      else option_map (String c) (literal_value rest)
  end.

(** A message that [renderLine] can read. *)
Definition readable (m : value) : Prop := m <> VUndefined /\ m <> VNull.

(** The flags of the scss-lint command: [--key value] for every option,
    a value that is [undefined] or [null] being printed as nothing. *)
Definition flag (e : string * value) : string :=
  " --" ++ fst e ++ " "
  ++ match snd e with
     | VUndefined | VNull => ""
     | v => to_string v
     end.

Definition flags (props : list (string * value)) : string :=
  String.concat "" (map flag props).

(** No dot in a text. *)
Definition no_dot (s : string) : bool :=
  all_chars (fun c => negb (Ascii.eqb c "."%char)) s.

(** A linter that resolves the configuration to the options it is
    given, for a project without a configuration file. *)
Definition bare_host : Host := {|
  minimatch := Stub.glob;
  linter_getConfig := fun options _ => ok options;
  linter_lintText := Stub.lintText;
  Filter_call := fun _ => ok tt;
  Filter_getDestFilePath := fun _ relativePath => VStr relativePath;
  path_extname := fun _ => ".scss";
  call_function := fun _ _ => ok VUndefined
|}.

(** A shell in which scss-lint reports a warning (exit code 1). *)
Definition warning_shell : Legacy.Shell := {|
  Legacy.shell_exec := fun _ => ("/tmp/in/a.scss:1 [W] Rule: message", 1%Z);
  Legacy.absolute := fun relativePath => "/tmp/in/" ++ relativePath;
  Legacy.path_dirname := fun _ => "."
|}.

(** A linter that finds an error in every file. *)
Definition failing_lintText (file options config : value) : result value :=
  ok (VObj [ ("filePath", Legacy.prop file "filename");
             ("warningCount", VNum (Int 0));
             ("errorCount", VNum (Int 1));
             ("messages",
              VArr [ VObj [ ("ruleId", VStr "no-ids");
                            ("line", VNum (Int 3));
                            ("column", VNum (Int 1));
                            ("message", VStr "ID selectors not allowed");
                            ("severity", VNum (Int 2)) ] ]) ]).

Definition failing_host : Host := {|
  minimatch := Stub.glob;
  linter_getConfig := Stub.getConfig;
  linter_lintText := failing_lintText;
  Filter_call := fun _ => ok tt;
  Filter_getDestFilePath := fun _ relativePath => VStr relativePath;
  path_extname := fun _ => ".scss";
  call_function := fun _ _ => ok VUndefined
|}.

End Further.

Import Further.

(** * Properties *)

(** ** Runs of the model on concrete inputs *)

Example md5_of_empty : Md5.hexdigest "" = "d41d8cd98f00b204e9800998ecf8427e".
Proof. vm_compute. reflexivity. Qed.

Example md5_of_abc : Md5.hexdigest "abc" = "900150983cd24fb0d6963f7d28e17f72".
Proof. vm_compute. reflexivity. Qed.

Example md5_of_two_blocks :
  Md5.hexdigest
    "12345678901234567890123456789012345678901234567890123456789012345678901234567890"
  = "57edf4a22be3c955ac49da2e2107b67a".
Proof. vm_compute. reflexivity. Qed.

Example md5Hex_of_parts :
  Md5.md5Hex [Some "a"; Some "b"; Some "c"] = ok "900150983cd24fb0d6963f7d28e17f72".
Proof. vm_compute. reflexivity. Qed.

Example stringify_sorts_keys :
  StableStringify.stringify StableStringify.default_replacer
    (VObj [ ("b", VNum (Int 2)); ("a", VArr [VBool true; VUndefined; VStr "x"]) ])
  = Some ("{" ++ StableStringify.dquote ++ "a" ++ StableStringify.dquote ++ ":[true,null," ++ StableStringify.dquote ++ "x" ++ StableStringify.dquote ++ "],"
              ++ StableStringify.dquote ++ "b" ++ StableStringify.dquote ++ ":2}").
Proof. reflexivity. Qed.

Example stringify_function_source :
  StableStringify.stringify functionStringifier
    (VObj [ ("log", VFun "function () {}"); ("skip", VUndefined) ])
  = Some ("{" ++ StableStringify.dquote ++ "log" ++ StableStringify.dquote ++ ":" ++ StableStringify.dquote ++ "function () {}" ++ StableStringify.dquote ++ "}").
Proof. reflexivity. Qed.

Example ScssLinter_without_options :
  @ScssLinter Stub.host (VObj []) VUndefined = ok [ ("options", VObj []) ].
Proof. reflexivity. Qed.

Example ScssLinter_copies_options :
  @ScssLinter Stub.host (VObj [])
    (VObj [ ("config", VStr ".sass-lint.yml"); ("testGenerator", VBool false) ])
  = ok [ ("options", VObj [ ("config", VStr ".sass-lint.yml");
                            ("testGenerator", VBool false) ]);
         ("config", VStr ".sass-lint.yml");
         ("testGenerator", VBool false) ].
Proof. reflexivity. Qed.

Example module_exports_throws :
  TestGenerators.module_exports = throw (ReferenceError "quint is not defined").
Proof. reflexivity. Qed.

Example qunit_stub_for_clean_file :
  TestGenerators.testGenerator TestGenerators.qunitString "a.scss" (VArr [])
    (VObj [ ("errorCount", VNum (Int 0)); ("messages", VArr []) ])
  = ok ("QUnit.module('SCSS Lint | a.scss');" ++ TestGenerators.newline
        ++ "QUnit.test('should pass sass-lint', function(assert) {" ++ TestGenerators.newline
        ++ "  assert.expect(1);" ++ TestGenerators.newline
        ++ "  assert.ok(true, 'a.scss should pass sass-lint\n\n');" ++ TestGenerators.newline
        ++ "});" ++ TestGenerators.newline).
Proof. reflexivity. Qed.

(** ** Strings *)

Lemma append_assoc (a b c : string) : (a ++ b) ++ c = a ++ (b ++ c).
Proof. induction a as [|x a IH]; simpl; [reflexivity | now rewrite IH]. Qed.

Lemma append_nil_r (a : string) : a ++ "" = a.
Proof. induction a as [|x a IH]; simpl; [reflexivity | now rewrite IH]. Qed.

Lemma append_length (a b : string) :
  String.length (a ++ b) = (String.length a + String.length b)%nat.
Proof. induction a as [|x a IH]; simpl; [reflexivity | now rewrite IH]. Qed.

Lemma append_inv_head (a b c : string) : a ++ b = a ++ c -> b = c.
Proof.
  induction a as [|x a IH]; simpl; intros H; [exact H|].
  injection H as H. now apply IH.
Qed.

Lemma append_inv_tail (a b c : string) : a ++ c = b ++ c -> a = b.
Proof.
  revert b. induction a as [|x a IH]; intros [|y b] H; simpl in H.
  - reflexivity.
  - exfalso. apply (f_equal String.length) in H. simpl in H.
    rewrite append_length in H. lia.
  - exfalso. apply (f_equal String.length) in H. simpl in H.
    rewrite append_length in H. lia.
  - injection H as -> H. f_equal. now apply IH.
Qed.

(** ** Induction on values *)

Lemma value_induction (P : value -> Prop) :
  P VUndefined -> P VNull -> (forall b, P (VBool b)) -> (forall n, P (VNum n)) ->
  (forall s, P (VStr s)) -> (forall src, P (VFun src)) ->
  (forall name src, P (VClosure name src)) ->
  (forall items, Forall P items -> P (VArr items)) ->
  (forall props, Forall (fun e => P (snd e)) props -> P (VObj props)) ->
  forall v, P v.
Proof.
  intros Hu Hn Hb Hnum Hs Hf Hc Harr Hobj. fix IH 1. intros [| |b|n|s|src|name src|items|props].
  - exact Hu.
  - exact Hn.
  - apply Hb.
  - apply Hnum.
  - apply Hs.
  - apply Hf.
  - apply Hc.
  - apply Harr. induction items as [|x items IHitems]; constructor; [apply IH | exact IHitems].
  - apply Hobj. induction props as [|[k x] props IHprops]; constructor;
      [apply IH | exact IHprops].
Qed.

(** ** The cache key *)

Section CacheKey.
Context {host : Host}.

Lemma forEach_update_strings (h : Md5.hash) (l : list string) :
  Md5.forEach_update h (map Some l) = ok (h ++ String.concat "" l).
Proof.
  revert h. induction l as [|s l IH]; intros h; simpl.
  - now rewrite append_nil_r.
  - rewrite IH. destruct l as [|s' l]; simpl.
    + now rewrite !append_nil_r.
    + now rewrite append_assoc.
Qed.

Lemma md5Hex_strings (l : list string) :
  Md5.md5Hex (map Some l) = ok (Md5.hexdigest (String.concat "" l)).
Proof.
  unfold Md5.md5Hex. rewrite forEach_update_strings. reflexivity.
Qed.

(** The key is the MD5 digest, in hexadecimal, of the hashed string. *)
Lemma cacheKey_is_digest (this : instance) (content relativePath : string) :
  cacheKeyProcessString this content relativePath
  = (s <- hash_input this content relativePath ;; ok (Md5.hexdigest s)).
Proof.
  unfold cacheKeyProcessString, hash_input.
  destruct (getConfig this) as [e|config]; simpl; [reflexivity|].
  destruct (StableStringify.stringify functionStringifier _) as [o|]; simpl;
    [|reflexivity].
  destruct (StableStringify.stringify StableStringify.default_replacer _) as [c|];
    simpl.
  - change [Some content; Some relativePath; Some o; Some c]
      with (map Some [content; relativePath; o; c]).
    rewrite md5Hex_strings. simpl. reflexivity.
  - unfold Md5.md5Hex. simpl. reflexivity.
Qed.

(** The content and the path enter the hashed string only through their
    concatenation. *)
Lemma hash_input_concat (this : instance) (c1 p1 c2 p2 : string) :
  c1 ++ p1 = c2 ++ p2 ->
  hash_input this c1 p1 = hash_input this c2 p2.
Proof.
  intros H. unfold hash_input.
  destruct (getConfig this) as [e|config]; simpl; [reflexivity|].
  destruct (StableStringify.stringify functionStringifier _) as [o|];
    [|reflexivity].
  destruct (StableStringify.stringify StableStringify.default_replacer _) as [c|];
    [|reflexivity].
  rewrite <- !append_assoc. now rewrite H.
Qed.

(** C10.  Two distinct (content, relativePath) pairs have the same cache
    key under one configuration: the array elements are hashed one after
    the other without a separator, so content "a" with path "b.scss" and
    content "ab" with path ".scss" are the same hashed string. *)
Theorem cacheKey_ignores_boundary (this : instance) :
  ("a", "b.scss") <> ("ab", ".scss")
  /\ hash_input this "a" "b.scss" = hash_input this "ab" ".scss"
  /\ cacheKeyProcessString this "a" "b.scss"
     = cacheKeyProcessString this "ab" ".scss".
Proof.
  split; [discriminate|].
  assert (H : hash_input this "a" "b.scss" = hash_input this "ab" ".scss")
    by (apply hash_input_concat; reflexivity).
  split; [exact H|].
  rewrite !cacheKey_is_digest. now rewrite H.
Qed.

End CacheKey.

(** ** Ignore patterns and destination paths *)

Section Ignore.
Context {host : Host}.

Lemma any_match_globs (relativePath : string) (items : list value) :
  Forall is_glob items ->
  any_match relativePath items
  = (map (Minimatch relativePath) (up_to_first_match relativePath items),
     ok (existsb (matches_glob relativePath) items)).
Proof.
  induction 1 as [|x rest [glob ->] _ IH]; simpl; [reflexivity|].
  destruct (minimatch relativePath glob) eqn:Hm; simpl; [reflexivity|].
  rewrite IH. reflexivity.
Qed.

(** A sequence element that is not a string makes the matcher throw, unless
    an earlier element matched. *)
Lemma any_match_not_a_glob (relativePath : string) (pre post : list value) (x : value) :
  Forall is_glob pre ->
  existsb (matches_glob relativePath) pre = false ->
  typeof x <> "string" ->
  any_match relativePath (pre ++ x :: post)%list
  = (map (Minimatch relativePath) (pre ++ [x])%list,
     throw (TypeError "glob pattern string required")).
Proof.
  intros Hpre. induction Hpre as [|y pre [glob ->] _ IH]; simpl; intros Hno Hx.
  - destruct x; simpl in *; try reflexivity. now elim Hx.
  - apply orb_false_iff in Hno as [Hm Hno]. rewrite Hm. simpl.
    rewrite (IH Hno Hx). reflexivity.
Qed.

Lemma existsb_matches_glob (relativePath : string) (items : list value) :
  existsb (matches_glob relativePath) items = true
  <-> exists glob, In (VStr glob) items /\ minimatch relativePath glob = true.
Proof.
  rewrite existsb_exists. split.
  - intros [x [Hin Hx]]. destruct x; try discriminate. eauto.
  - intros [glob [Hin Hm]]. exists (VStr glob). auto.
Qed.

Lemma up_to_first_match_stops (relativePath : string) (pre post : list value)
    (glob : string) :
  (forall x, In x pre -> matches_glob relativePath x = false) ->
  minimatch relativePath glob = true ->
  up_to_first_match relativePath (pre ++ VStr glob :: post)%list
  = (pre ++ [VStr glob])%list.
Proof.
  intros Hpre Hm. induction pre as [|y pre IH]; simpl.
  - now rewrite Hm.
  - rewrite (Hpre y (or_introl eq_refl)). f_equal.
    apply IH. intros x Hx. apply Hpre. now right.
Qed.

(** C3.  When the resolved configuration has a [files] entry whose
    [ignore] value is [ignore] (globs only, if it is a sequence),
    [shouldIgnore] returns, without throwing, true exactly when [ignore] is
    a glob that matches the path or a sequence with a glob that matches the
    path; an absent or empty value and a value that is neither a string
    nor a sequence give false; the matcher is handed the patterns of a
    sequence up to the first match and none after it. *)
Theorem shouldIgnore_spec (this : instance) (relativePath : string)
    (config files ignore : value) :
  getConfig this = ok config ->
  get config "files" = ok files ->
  get files "ignore" = ok ignore ->
  globs_only ignore ->
  shouldIgnore this relativePath
  = (map (Minimatch relativePath) (tested relativePath ignore),
     ok (ignored_by relativePath ignore))
  /\ (ignored_by relativePath ignore = true <->
      (exists glob, ignore = VStr glob /\ minimatch relativePath glob = true)
      \/ (exists items glob, ignore = VArr items /\ In (VStr glob) items
                             /\ minimatch relativePath glob = true))
  /\ (ignore = VUndefined \/ ignore = VArr [] ->
      ignored_by relativePath ignore = false)
  /\ (typeof ignore <> "string" -> isArray ignore = false ->
      ignored_by relativePath ignore = false
      /\ tested relativePath ignore = [])
  /\ (forall pre glob post,
        ignore = VArr (pre ++ VStr glob :: post)%list ->
        (forall x, In x pre -> matches_glob relativePath x = false) ->
        minimatch relativePath glob = true ->
        tested relativePath ignore = (pre ++ [VStr glob])%list).
Proof.
  intros Hc Hf Hi Hg. repeat split.
  - unfold shouldIgnore. rewrite Hc. simpl. rewrite Hf. simpl. rewrite Hi. simpl.
    destruct ignore; simpl; try reflexivity.
    + destruct (minimatch relativePath s); reflexivity.
    + destruct items as [|x rest]; [reflexivity|].
      change (Nat.ltb 0 (List.length (x :: rest))) with true. cbv iota.
      rewrite (any_match_globs relativePath _ Hg). reflexivity.
  - intros H. destruct ignore; simpl in H; try discriminate.
    + left. eauto.
    + right. apply existsb_matches_glob in H as [glob [Hin Hm]]. eauto.
  - intros [[glob [-> Hm]] | [items [glob [-> [Hin Hm]]]]]; simpl; [exact Hm|].
    apply existsb_matches_glob. eauto.
  - intros [-> | ->]; reflexivity.
  - destruct ignore; simpl in *; try reflexivity; try discriminate. now elim H.
  - destruct ignore; simpl in *; try reflexivity; try discriminate. now elim H.
  - intros pre glob post -> Hpre Hm. simpl.
    now apply up_to_first_match_stops.
Qed.

(** C4.  [getDestFilePath] returns null for a path that [shouldIgnore]
    reports as ignored, and what the destination rule of the base filter
    returns for a path that is not ignored; the matcher calls are those of
    [shouldIgnore]. *)
Theorem getDestFilePath_spec (this : instance) (relativePath : string)
    (trace : list event) (ignored : bool) :
  shouldIgnore this relativePath = (trace, ok ignored) ->
  (ignored = true -> getDestFilePath this relativePath = (trace, ok VNull))
  /\ (ignored = false ->
      getDestFilePath this relativePath
      = (trace, ok (Filter_getDestFilePath this relativePath))).
Proof.
  intros H. unfold getDestFilePath. rewrite H.
  split; intros ->; simpl; rewrite app_nil_r; reflexivity.
Qed.

(** An exception of [shouldIgnore] leaves [getDestFilePath] unchanged. *)
Lemma getDestFilePath_throws (this : instance) (relativePath : string)
    (trace : list event) (e : error) :
  shouldIgnore this relativePath = (trace, throw e) ->
  getDestFilePath this relativePath = (trace, throw e).
Proof. intros H. unfold getDestFilePath. now rewrite H. Qed.

End Ignore.

(** ** Reporting *)

Section PostProcess.
Context {host : Host}.

(** C6.  For a [{ report, output }] pair, [postProcess] hands [[report]] to
    [outputResults] exactly when [report.errorCount || report.warningCount]
    is truthy, and returns in both cases an object whose only property is
    [output], with the value it was given. *)
Theorem postProcess_spec (this : instance)
    (results report output errorCount warningCount : value) :
  get results "report" = ok report ->
  get results "output" = ok output ->
  get report "errorCount" = ok errorCount ->
  get report "warningCount" = ok warningCount ->
  let forwarded :=
    OutputResults (VArr [report]) (this_get this "options") (this_get this "config") in
  postProcess this results
  = ((if truthy errorCount || truthy warningCount then [forwarded] else []),
     ok (VObj [ ("output", output) ]))
  /\ (In forwarded (fst (postProcess this results))
      <-> truthy errorCount || truthy warningCount = true)
  /\ get (VObj [ ("output", output) ]) "report" = ok VUndefined
  /\ get (VObj [ ("output", output) ]) "output" = ok output.
Proof.
  intros Hr Ho He Hw forwarded.
  assert (E : postProcess this results
              = ((if truthy errorCount || truthy warningCount
                  then [forwarded] else []),
                 ok (VObj [ ("output", output) ]))).
  { unfold postProcess. rewrite Hr. simpl. rewrite Ho. simpl.
    rewrite He. simpl.
    destruct (truthy errorCount) eqn:Ee; simpl.
    - rewrite Ee. reflexivity.
    - rewrite Hw. simpl. destruct (truthy warningCount); reflexivity. }
  rewrite E. repeat split.
  - simpl. destruct (truthy errorCount || truthy warningCount); simpl;
      [reflexivity | tauto].
  - intros H. rewrite H. simpl. now left.
Qed.

End PostProcess.

(** ** The test generators *)

Section Generators.

Lemma passed_of_count (props : list (string * value)) (count : option Z) :
  errorCount_is props count ->
  TestGenerators.passed_of (VObj props) = ok (zero_or_absent count).
Proof.
  unfold TestGenerators.passed_of. destruct count as [n|]; simpl; intros ->; simpl.
  - destruct (Z.eqb n 0); reflexivity.
  - reflexivity.
Qed.

Lemma renderLine_object (m : value) :
  is_object m -> TestGenerators.renderLine m = ok (format_message m).
Proof. intros [props ->]. reflexivity. Qed.

Lemma map_renderLine_objects (items : list value) :
  Forall is_object items ->
  TestGenerators.map_renderLine items = ok (map format_message items).
Proof.
  induction 1 as [|m items Hm _ IH]; simpl; [reflexivity|].
  rewrite (renderLine_object _ Hm). simpl. rewrite IH. reflexivity.
Qed.

Lemma messages_of_array (relativePath : string) (props : list (string * value))
    (items : list value) :
  lookup "messages" props = Some (VArr items) ->
  Forall is_object items ->
  TestGenerators.messages_of relativePath (VObj props)
  = ok (relativePath ++ " should pass sass-lint"
        ++ TestGenerators.newline ++ TestGenerators.newline
        ++ String.concat TestGenerators.newline (map format_message items)).
Proof.
  intros Hm Hitems. unfold TestGenerators.messages_of. simpl. rewrite Hm. simpl.
  rewrite (map_renderLine_objects _ Hitems). simpl.
  now rewrite !append_assoc.
Qed.

Lemma messages_of_absent (relativePath : string) (props : list (string * value)) :
  lookup "messages" props = None ->
  TestGenerators.messages_of relativePath (VObj props)
  = ok (relativePath ++ " should pass sass-lint").
Proof.
  intros Hm. unfold TestGenerators.messages_of. simpl. rewrite Hm. reflexivity.
Qed.

(** C5, as the code has it.  For a report whose [errorCount] is absent or
    an integer and whose [messages] is an array of message objects, a
    generator calls its callback with [passed] true exactly when the count
    is zero or absent, and with the block made of the header
    [{relativePath} should pass sass-lint], an empty line, and the
    messages formatted as [{line}:{column} - {text} ({ruleId})] joined by
    newlines: the empty line is there for an empty array too.  Without a
    [messages] property the block is the header alone.  The result is a
    function of the path and the report: the [errors] argument is not
    read. *)
Theorem testGenerator_spec (callback : string -> bool -> string -> string)
    (relativePath : string) (errors : value) (props : list (string * value))
    (count : option Z) :
  errorCount_is props count ->
  (forall items,
      lookup "messages" props = Some (VArr items) ->
      Forall is_object items ->
      TestGenerators.testGenerator callback relativePath errors (VObj props)
      = ok (callback relativePath (zero_or_absent count)
              (relativePath ++ " should pass sass-lint"
               ++ TestGenerators.newline ++ TestGenerators.newline
               ++ String.concat TestGenerators.newline (map format_message items))))
  /\ (lookup "messages" props = None ->
      TestGenerators.testGenerator callback relativePath errors (VObj props)
      = ok (callback relativePath (zero_or_absent count)
              (relativePath ++ " should pass sass-lint")))
  /\ (forall errors',
      TestGenerators.testGenerator callback relativePath errors' (VObj props)
      = TestGenerators.testGenerator callback relativePath errors (VObj props)).
Proof.
  intros Hc. repeat split.
  - intros items Hm Hitems. unfold TestGenerators.testGenerator.
    rewrite (passed_of_count props count Hc). simpl.
    rewrite (messages_of_array relativePath props _ Hm Hitems). reflexivity.
  - intros Hm. unfold TestGenerators.testGenerator.
    rewrite (passed_of_count props count Hc). simpl.
    rewrite (messages_of_absent relativePath props Hm). reflexivity.
Qed.

(** C5 as stated fails: for a report with an empty [messages] array the
    block is not the header alone, it ends with an empty line (and the
    header reads "should pass sass-lint"). *)
Lemma testGenerator_block_of_clean_report :
  TestGenerators.messages_of "a.scss"
    (VObj [ ("errorCount", VNum (Int 0)); ("messages", VArr []) ])
  = ok ("a.scss should pass sass-lint"
        ++ TestGenerators.newline ++ TestGenerators.newline)
  /\ TestGenerators.messages_of "a.scss"
       (VObj [ ("errorCount", VNum (Int 0)); ("messages", VArr []) ])
     <> ok "a.scss should pass lint"
  /\ TestGenerators.messages_of "a.scss"
       (VObj [ ("errorCount", VNum (Int 0)); ("messages", VArr []) ])
     <> ok "a.scss should pass sass-lint".
Proof. repeat split; discriminate. Qed.

End Generators.

(** ** Construction *)

Section Construction.
Context {host : Host}.

Lemma lookup_set_eq (key : string) (v : value) (props : list (string * value)) :
  lookup key (set key v props) = Some v.
Proof.
  induction props as [|[k w] props IH]; simpl.
  - now rewrite String.eqb_refl.
  - destruct (String.eqb k key) eqn:E; simpl; rewrite E; [reflexivity | exact IH].
Qed.

Lemma lookup_set_neq (key key' : string) (v : value) (props : list (string * value)) :
  key <> key' -> lookup key' (set key v props) = lookup key' props.
Proof.
  intros Hne. induction props as [|[k w] props IH]; simpl.
  - apply String.eqb_neq in Hne. now rewrite Hne.
  - destruct (String.eqb k key) eqn:E; simpl.
    + apply String.eqb_eq in E. subst k.
      apply String.eqb_neq in Hne. now rewrite Hne.
    + destruct (String.eqb k key'); [reflexivity | exact IH].
Qed.

Lemma this_get_set_eq (key : string) (v : value) (this : instance) :
  this_get (set key v this) key = v.
Proof. unfold this_get. now rewrite lookup_set_eq. Qed.

Lemma this_get_set_neq (key key' : string) (v : value) (this : instance) :
  key <> key' -> this_get (set key v this) key' = this_get this key'.
Proof. intros H. unfold this_get. now rewrite (lookup_set_neq _ _ v this H). Qed.

Lemma lookup_in_keys (key : string) (v : value) (props : list (string * value)) :
  lookup key props = Some v -> In key (keys props).
Proof.
  induction props as [|[k w] props IH]; simpl; [discriminate|].
  destruct (String.eqb k key) eqn:E.
  - apply String.eqb_eq in E. now left.
  - intros H. right. now apply IH.
Qed.

(** When the configuration has no key named [options], the copy loop reads
    every key from the configuration itself. *)
Lemma copy_options_plain (props : list (string * value)) (ks : list string)
    (this : instance) :
  this_get this "options" = VObj props ->
  ~ In "options" ks ->
  exists this',
    copy_options ks this = ok this'
    /\ this_get this' "options" = VObj props
    /\ (forall k, In k ks -> this_get this' k = or_undefined (lookup k props))
    /\ (forall k, ~ In k ks -> this_get this' k = this_get this k).
Proof.
  revert this. induction ks as [|key ks IH]; intros this Hopt Hno; simpl.
  - exists this. split; [reflexivity|]. split; [exact Hopt|].
    split; [intros k [] | reflexivity].
  - rewrite Hopt. simpl.
    assert (Hkey : "options" <> key) by (intros E; apply Hno; now left).
    assert (Hks : ~ In "options" ks) by (intros E; apply Hno; now right).
    destruct (IH (set key (or_undefined (lookup key props)) this)) as
      [this' [Hrun [Hopt' [Hin Hout]]]]; [|exact Hks|].
    { rewrite this_get_set_neq; [exact Hopt | congruence]. }
    exists this'. split; [exact Hrun|]. split; [exact Hopt'|]. split.
    + intros k [<- | Hk]; [|now apply Hin].
      destruct (in_dec string_dec key ks) as [Hk | Hk]; [now apply Hin|].
      rewrite (Hout key Hk). apply this_get_set_eq.
    + intros k Hk. rewrite Hout; [|intros E; apply Hk; now right].
      apply this_get_set_neq. intros E. apply Hk. now left.
Qed.

(** With no key named [options], a configuration whose [testGenerator] is
    a string cannot be constructed: loading the generators throws. *)
Lemma ScssLinter_string_generator (inputNode : value)
    (props : list (string * value)) (name : string) :
  ~ In "options" (keys props) ->
  lookup "testGenerator" props = Some (VStr name) ->
  exists e, ScssLinter inputNode (VObj props) = throw e.
Proof.
  intros Hno Hname. unfold ScssLinter.
  destruct (negb (String.eqb (typeof inputNode) "object")); [eauto|].
  destruct (Filter_call inputNode) as [e|[]]; simpl; [eauto|].
  destruct (copy_options_plain props (keys props)
              (set "options" (VObj props) [])) as
    [this' [Hrun [_ [Hin _]]]]; [reflexivity | exact Hno |].
  simpl in Hrun. rewrite Hrun. simpl.
  rewrite (Hin "testGenerator" (lookup_in_keys _ _ _ Hname)), Hname. simpl.
  eauto.
Qed.

(** C9.  The export statement of the generators module names the keys
    [quint] and [mocha]; the identifier [quint] is not declared in the
    module while [qunit] is, and holds the QUnit generator; no key [qunit]
    is exported, evaluating the statement throws, and a configuration that
    selects the style "qunit" is not constructed with the QUnit
    generator. *)
Theorem qunit_is_not_registered (inputNode : value) (props : list (string * value)) :
  ~ In "options" (keys props) ->
  lookup "testGenerator" props = Some (VStr "qunit") ->
  map fst TestGenerators.exports_literal = ["quint"; "mocha"]
  /\ lookup "quint" TestGenerators.scope = None
  /\ lookup "qunit" TestGenerators.scope = Some TestGenerators.qunit
  /\ ~ In "qunit" (map fst TestGenerators.exports_literal)
  /\ TestGenerators.module_exports = throw (ReferenceError "quint is not defined")
  /\ (generators <- TestGenerators.module_exports ;; get generators "qunit")
     <> ok TestGenerators.qunit
  /\ (forall this, ScssLinter inputNode (VObj props) = ok this ->
                  this_get this "testGenerator" <> TestGenerators.qunit)
  /\ exists e, ScssLinter inputNode (VObj props) = throw e.
Proof.
  intros Hno Hname.
  destruct (ScssLinter_string_generator inputNode props _ Hno Hname) as [e He].
  repeat split; try reflexivity.
  - simpl. intros [H | [H | []]]; discriminate.
  - discriminate.
  - intros this Hthis. rewrite He in Hthis. discriminate.
  - eauto.
Qed.

(** C7 fails on the code: a configuration that has an [options] key before
    [testGenerator] is constructed without an error and without a
    generator, whatever the string names.  The copy loop reads
    [this.options[key]] after [this.options] was replaced by the inner
    [options] value; with the two keys in the other order the same
    configuration is refused. *)
Theorem ScssLinter_drops_generator_name :
  @ScssLinter Stub.host (VObj [])
    (VObj [ ("options", VObj [ ("formatter", VStr "stylish") ]);
            ("testGenerator", VStr "nope") ])
  = ok [ ("options", VObj [ ("formatter", VStr "stylish") ]);
         ("testGenerator", VUndefined) ]
  /\ (forall this,
        @ScssLinter Stub.host (VObj [])
          (VObj [ ("options", VObj [ ("formatter", VStr "stylish") ]);
                  ("testGenerator", VStr "nope") ]) = ok this ->
        this_get this "testGenerator" = VUndefined
        /\ this_get this "targetExtension" = VStr "scss")
  /\ @ScssLinter Stub.host (VObj [])
       (VObj [ ("testGenerator", VStr "nope");
               ("options", VObj [ ("formatter", VStr "stylish") ]) ])
     = throw (ReferenceError "quint is not defined").
Proof.
  split; [reflexivity|]. split; [|reflexivity].
  intros this H. injection H as <-. split; reflexivity.
Qed.

(** The same holds for every host that accepts the input node. *)
Lemma ScssLinter_drops_generator_name_any_host (inputNode inner : value)
    (name : string) :
  typeof inputNode = "object" ->
  Filter_call inputNode = ok tt ->
  is_object inner ->
  lookup "testGenerator" (match inner with VObj p => p | _ => [] end) = None ->
  ScssLinter inputNode (VObj [ ("options", inner); ("testGenerator", VStr name) ])
  = ok [ ("options", inner); ("testGenerator", VUndefined) ].
Proof.
  intros Hnode Hcall [p ->] Hp. unfold ScssLinter. rewrite Hnode, Hcall. simpl.
  rewrite Hp. reflexivity.
Qed.

End Construction.

(** ** The scss-lint filter of index.js *)

Section LegacyFilter.
Context {shell : Legacy.Shell}.

(** Whatever the shell answers, [processString] runs the command that
    [_buildCommand] builds from the stored options and leaves the stored
    options as [_buildCommand] left them. *)
Lemma processString_command (this : Legacy.instance) (content relativePath : string) :
  Legacy.command (Legacy.processString this content relativePath)
  = fst (Legacy._buildCommand (Legacy.absolute relativePath)
           (Legacy.this_get this "options")).
Proof.
  unfold Legacy.processString.
  destruct (Legacy._buildCommand _ _) as [cmd options].
  destruct (Legacy.shell_exec cmd) as [stdout code].
  destruct (Z.eqb code 2); reflexivity.
Qed.

Lemma processString_after (this : Legacy.instance) (content relativePath : string) :
  Legacy.after (Legacy.processString this content relativePath)
  = if truthy (Legacy.this_get this "options")
    then set "options"
           (snd (Legacy._buildCommand (Legacy.absolute relativePath)
                   (Legacy.this_get this "options"))) this
    else this.
Proof.
  unfold Legacy.processString.
  destruct (Legacy._buildCommand _ _) as [cmd options].
  destruct (Legacy.shell_exec cmd) as [stdout code].
  destruct (Z.eqb code 2); reflexivity.
Qed.

(** C8 fails on the code: [_buildCommand] deletes [bundleExec] from the
    object it is given, which is the stored options object.  After one
    [processString] the stored options have lost the key, and the next
    file is linted without the [bundle exec] prefix. *)
Theorem processString_deletes_bundleExec :
  let configuration :=
    VObj [ ("bundleExec", VBool true); ("config", VStr ".scss-lint.yml") ] in
  let this := Legacy.ScssLinter configuration in
  let first := Legacy.processString this "a {}" "a.scss" in
  let second := Legacy.processString (Legacy.after first) "b {}" "b.scss" in
  Legacy.this_get this "options" = configuration
  /\ Legacy.this_get (Legacy.after first) "options"
     = VObj [ ("config", VStr ".scss-lint.yml") ]
  /\ Legacy.command first
     = "bundle exec scss-lint " ++ Legacy.absolute "a.scss"
       ++ " --config .scss-lint.yml"
  /\ Legacy.command second
     = "scss-lint " ++ Legacy.absolute "b.scss" ++ " --config .scss-lint.yml".
Proof.
  cbv zeta. rewrite !processString_command, !processString_after.
  repeat split.
Qed.

End LegacyFilter.

(** ** Key order

    [keys.sort()] makes the text of an object independent of the order in
    which its keys were inserted. *)

Section KeyOrder.

Lemma ascii_compare_trans (a b c : ascii) (r : comparison) :
  Ascii.compare a b = r -> Ascii.compare b c = r -> Ascii.compare a c = r.
Proof.
  unfold Ascii.compare. intros H1 H2. destruct r.
  - apply N.compare_eq_iff in H1. apply N.compare_eq_iff in H2.
    apply N.compare_eq_iff. congruence.
  - apply N.compare_lt_iff in H1. apply N.compare_lt_iff in H2.
    apply N.compare_lt_iff. eapply N.lt_trans; eassumption.
  - apply N.compare_gt_iff in H1. apply N.compare_gt_iff in H2.
    apply N.compare_gt_iff. eapply N.lt_trans; eassumption.
Qed.

Lemma string_compare_lt_trans (a b c : string) :
  String.compare a b = Lt -> String.compare b c = Lt -> String.compare a c = Lt.
Proof.
  revert b c. induction a as [|x a IH]; intros [|y b] [|z c]; simpl;
    try discriminate; try reflexivity.
  destruct (Ascii.compare x y) eqn:Hxy; try discriminate;
    destruct (Ascii.compare y z) eqn:Hyz; try discriminate; intros H1 H2.
  - apply Ascii.compare_eq_iff in Hxy, Hyz. subst.
    assert (E : Ascii.compare z z = Eq) by (unfold Ascii.compare; apply N.compare_refl).
    rewrite E. now apply (IH b c).
  - apply Ascii.compare_eq_iff in Hxy. subst. now rewrite Hyz.
  - apply Ascii.compare_eq_iff in Hyz. subst. now rewrite Hxy.
  - now rewrite (ascii_compare_trans x y z Lt Hxy Hyz).
Qed.

Lemma string_compare_refl (a : string) : String.compare a a = Eq.
Proof.
  induction a as [|x a IH]; simpl; [reflexivity|].
  assert (E : Ascii.compare x x = Eq) by (unfold Ascii.compare; apply N.compare_refl).
  now rewrite E.
Qed.

Lemma leb_trans (a b c : string) :
  String.leb a b = true -> String.leb b c = true -> String.leb a c = true.
Proof.
  unfold String.leb.
  destruct (String.compare a b) eqn:Hab; try discriminate;
    destruct (String.compare b c) eqn:Hbc; try discriminate; intros _ _.
  - apply String.compare_eq_iff in Hab, Hbc. subst. now rewrite string_compare_refl.
  - apply String.compare_eq_iff in Hab. subst. now rewrite Hbc.
  - apply String.compare_eq_iff in Hbc. subst. now rewrite Hab.
  - now rewrite (string_compare_lt_trans a b c Hab Hbc).
Qed.

Context {A : Type}.

Lemma insert_comm (x y : string * A) (l : list (string * A)) :
  fst x <> fst y ->
  StableStringify.insert x (StableStringify.insert y l)
  = StableStringify.insert y (StableStringify.insert x l).
Proof.
  intros Hne. induction l as [|c l IH]; simpl.
  - destruct (String.leb (fst x) (fst y)) eqn:Hxy;
      destruct (String.leb (fst y) (fst x)) eqn:Hyx; try reflexivity.
    + elim Hne. now apply String.leb_antisym.
    + destruct (String.leb_total (fst x) (fst y)); congruence.
  - destruct (String.leb (fst y) (fst c)) eqn:Hyc;
      destruct (String.leb (fst x) (fst c)) eqn:Hxc; simpl;
      rewrite ?Hyc, ?Hxc.
    + destruct (String.leb (fst x) (fst y)) eqn:Hxy;
        destruct (String.leb (fst y) (fst x)) eqn:Hyx; simpl;
        rewrite ?Hyc, ?Hxc; try reflexivity.
      * elim Hne. now apply String.leb_antisym.
      * destruct (String.leb_total (fst x) (fst y)); congruence.
    + destruct (String.leb (fst x) (fst y)) eqn:Hxy; simpl; rewrite ?Hxc, ?Hyc.
      * rewrite (leb_trans _ _ _ Hxy Hyc) in Hxc. discriminate.
      * reflexivity.
    + destruct (String.leb (fst y) (fst x)) eqn:Hyx; simpl; rewrite ?Hxc, ?Hyc.
      * rewrite (leb_trans _ _ _ Hyx Hxc) in Hyc. discriminate.
      * reflexivity.
    + now rewrite IH.
Qed.

Lemma sort_permutation (l1 l2 : list (string * A)) :
  Permutation l1 l2 ->
  NoDup (map fst l1) ->
  StableStringify.sort l1 = StableStringify.sort l2.
Proof.
  induction 1 as [|x l1 l2 _ IH|x y l|l1 l2 l3 H12 IH12 H23 IH23]; intros Hnd; simpl.
  - reflexivity.
  - inversion Hnd; subst. now rewrite IH.
  - apply insert_comm. inversion Hnd as [|? ? Hy _]; subst.
    intros E. apply Hy. left. now symmetry.
  - rewrite IH12 by exact Hnd. apply IH23.
    eapply Permutation_NoDup; [|exact Hnd]. now apply Permutation_map.
Qed.

End KeyOrder.

Section Serialization.
Variable replacer : string -> value -> value.

(** The entries of an object, before they are sorted. *)
Lemma stringify_object (key : string) (props : list (string * value)) :
  StableStringify.stringify_node replacer key (VObj props)
  = Some ("{" ++ String.concat ","
                   (StableStringify.members
                      (StableStringify.sort
                         (map (fun e => (fst e,
                                         StableStringify.stringify_node replacer
                                           (fst e) (snd e)))
                              props)))
              ++ "}").
Proof.
  simpl. do 5 f_equal.
  induction props as [|[k x] props IH]; simpl; [reflexivity | now rewrite IH].
Qed.

Lemma stringify_key_order (key : string) (props1 props2 : list (string * value)) :
  Permutation props1 props2 ->
  NoDup (keys props1) ->
  StableStringify.stringify_node replacer key (VObj props1)
  = StableStringify.stringify_node replacer key (VObj props2).
Proof.
  intros Hperm Hnd. rewrite !stringify_object. do 5 f_equal.
  apply sort_permutation.
  - now apply Permutation_map.
  - rewrite map_map. exact Hnd.
Qed.

End Serialization.

Section Determinism.
Context {host : Host}.

Lemma stringify_array_items (replacer : string -> value -> value) (key : string)
    (items : list value) :
  StableStringify.stringify_node replacer key (VArr items)
  = Some ("[" ++ String.concat "," (item_texts replacer 0 items) ++ "]").
Proof.
  cbn [StableStringify.stringify_node]. do 4 f_equal. generalize 0%nat.
  induction items as [|x items IH]; intros i; [reflexivity|].
  cbn [item_texts]. now rewrite IH.
Qed.

Lemma stringify_same_mapping (replacer : string -> value -> value) (v : value) :
  forall v' key,
    same_mapping v v' ->
    StableStringify.stringify_node replacer key v
    = StableStringify.stringify_node replacer key v'.
Proof.
  induction v as [| |b|n|s|src|name src|items IH|props IH] using value_induction;
    intros v' key H; inversion H as [|? items' Hitems|? reordered props' Hnd Hperm Hentries];
    subst; try reflexivity.
  - rewrite !stringify_array_items. do 4 f_equal. generalize 0%nat.
    clear H. revert IH.
    induction Hitems as [|x x' items items' Hx _ IHitems]; intros IH i; [reflexivity|].
    inversion IH as [|? ? IHx IHrest]; subst. cbn [item_texts].
    rewrite (IHx x' _ Hx). rewrite (IHitems IHrest (S i)). reflexivity.
  - rewrite (stringify_key_order replacer key props reordered Hperm Hnd).
    rewrite !stringify_object. do 5 f_equal.
    assert (IH' : Forall (fun e => forall v' key, same_mapping (snd e) v' ->
                            StableStringify.stringify_node replacer key (snd e)
                            = StableStringify.stringify_node replacer key v')
                         reordered)
      by (eapply Permutation_Forall; [exact Hperm | exact IH]).
    clear IH Hperm Hnd H. revert IH'.
    induction Hentries as [|e e' l l' [Hk He] _ IHl]; intros IH'; [reflexivity|].
    inversion IH' as [|? ? IHe IHrest]; subst. simpl.
    rewrite <- Hk, (IHe (snd e') (fst e) He). f_equal. now apply IHl.
Qed.

Lemma same_mapping_reordered (props props' : list (string * value)) :
  NoDup (keys props) -> Permutation props props' ->
  same_mapping (VObj props) (VObj props').
Proof.
  intros Hnd Hperm. apply (same_object props props' props' Hnd Hperm).
  induction props' as [|e l IH' ]; constructor.
  - split; [reflexivity | apply same_value].
  - clear. induction l as [|e l IHl]; constructor;
      [split; [reflexivity | apply same_value] | exact IHl].
Qed.

(** What holds of one state of the filter.  The cache key is a function
    of the content, the path, the stored options and the resolved
    configuration, each of the last two up to the order of keys: two
    filter objects whose stored options are the same mapping and whose
    resolved configurations are the same mapping (or the same exception)
    give the same digest for the same content and path.  In particular
    two stored option objects with the same keys and values inserted in
    a different order give the same digest. *)
Lemma cacheKey_deterministic (this1 this2 : instance)
    (content relativePath : string) :
  same_outcome (getConfig this1) (getConfig this2) ->
  (same_mapping (this_get this1 "options") (this_get this2 "options") ->
   cacheKeyProcessString this1 content relativePath
   = cacheKeyProcessString this2 content relativePath)
  /\ (forall props1 props2,
        this_get this1 "options" = VObj props1 ->
        this_get this2 "options" = VObj props2 ->
        NoDup (keys props1) ->
        Permutation props1 props2 ->
        cacheKeyProcessString this1 content relativePath
        = cacheKeyProcessString this2 content relativePath).
Proof.
  intros Hc.
  assert (Hgen : same_mapping (this_get this1 "options") (this_get this2 "options") ->
                 cacheKeyProcessString this1 content relativePath
                 = cacheKeyProcessString this2 content relativePath).
  { intros Ho. unfold cacheKeyProcessString, StableStringify.stringify.
    rewrite (stringify_same_mapping functionStringifier _ _ "" Ho).
    unfold same_outcome in Hc.
    destruct (getConfig this1) as [e1|c1], (getConfig this2) as [e2|c2];
      try contradiction.
    - now subst.
    - cbn [rbind].
      now rewrite (stringify_same_mapping StableStringify.default_replacer _ _ "" Hc). }
  split; [exact Hgen|].
  intros props1 props2 H1 H2 Hnd Hperm. apply Hgen. rewrite H1, H2.
  now apply same_mapping_reordered.
Qed.

End Determinism.

(** ** Repeated calls, and the order of the keys of a configuration *)

(** C1 fails on the code, in both of its parts.  A call of
    [cacheKeyProcessString] returns the key of the filter object as it
    finds it and leaves the stored options as the linter has written
    them.  For a filter constructed with the options [{}] and a linter
    that writes as sass-lint does, the first call hashes the options
    text [{}], leaves the stored options [{ rules: {} }], and the second
    call with the same content and path hashes another options text and
    returns another digest (the third call agrees with the second).
    And the configurations [{ config: 'strict.yml', options: {} }] and
    [{ options: {}, config: 'strict.yml' }], the same mapping with its
    keys in two orders, are constructed with different config paths (the
    copy loop reads [config] from the inner options in the second) and
    get different digests from a linter that reads the file at the
    config path. *)
Theorem cacheKey_not_deterministic :
  (forall (host : Host) (linter : Shared.Linter) (this : instance)
          (content relativePath : string),
      @Shared.cacheKeyProcessString host linter this content relativePath
      = (@cacheKeyProcessString host this content relativePath,
         set "options"
           (@Shared.getConfig_leaves linter (this_get this "options")
              (this_get this "config")) this))
  /\ (let resolved :=
        "{" ++ StableStringify.json_quote "files" ++ ":{"
        ++ StableStringify.json_quote "include" ++ ":"
        ++ StableStringify.json_quote "**/*.s+(a|c)ss" ++ "},"
        ++ StableStringify.json_quote "rules" ++ ":{}}" in
      let this := [ ("options", VObj []) ] in
      let first :=
        @Shared.cacheKeyProcessString Shared.reading_host Shared.sass_lint
          this "a {}" "a.scss" in
      let second :=
        @Shared.cacheKeyProcessString Shared.reading_host Shared.sass_lint
          (snd first) "a {}" "a.scss" in
      let third :=
        @Shared.cacheKeyProcessString Shared.reading_host Shared.sass_lint
          (snd second) "a {}" "a.scss" in
      @ScssLinter Shared.reading_host (VObj []) (VObj []) = ok this
      /\ @hash_input Shared.reading_host this "a {}" "a.scss"
         = ok ("a {}" ++ "a.scss" ++ "{}" ++ resolved)
      /\ fst first = ok "932a0704caeaa408346cf387934a8f98"
      /\ snd first = [ ("options", VObj [ ("rules", VObj []) ]) ]
      /\ @hash_input Shared.reading_host (snd first) "a {}" "a.scss"
         = ok ("a {}" ++ "a.scss"
               ++ ("{" ++ StableStringify.json_quote "rules" ++ ":{}}")
               ++ resolved)
      /\ fst second = ok "808e16310dc400c524bdac505ed501c2"
      /\ fst first <> fst second
      /\ third = second)
  /\ (let configuration :=
        [ ("config", VStr "strict.yml"); ("options", VObj []) ] in
      let reordered :=
        [ ("options", VObj []); ("config", VStr "strict.yml") ] in
      Permutation configuration reordered
      /\ NoDup (keys configuration)
      /\ @ScssLinter Shared.reading_host (VObj []) (VObj configuration)
         = ok [ ("options", VObj []); ("config", VStr "strict.yml") ]
      /\ @ScssLinter Shared.reading_host (VObj []) (VObj reordered)
         = ok [ ("options", VObj []); ("config", VUndefined) ]
      /\ @key_under Shared.reading_host (VObj configuration) "a {}" "a.scss"
         = ok "906840af93f2802da8df2e699d292a56"
      /\ @key_under Shared.reading_host (VObj reordered) "a {}" "a.scss"
         = ok "932a0704caeaa408346cf387934a8f98"
      /\ @key_under Shared.reading_host (VObj configuration) "a {}" "a.scss"
         <> @key_under Shared.reading_host (VObj reordered) "a {}" "a.scss").
Proof.
  split; [|split].
  - intros host linter this content relativePath. reflexivity.
  - cbv zeta. repeat split; try (vm_compute; reflexivity).
    vm_compute. intros H. discriminate H.
  - cbv zeta. split; [apply perm_swap|]. split.
    { repeat constructor; simpl; intuition discriminate. }
    repeat split; try (vm_compute; reflexivity).
    vm_compute. intros H. discriminate H.
Qed.

(** ** JSON texts of scalars *)

Section ScalarTexts.

Lemma unquote_quote_char (c : ascii) (rest : string) :
  unquote_chars (StableStringify.quote_char c ++ rest) = String c (unquote_chars rest).
Proof. destruct c as [[] [] [] [] [] [] [] []]; reflexivity. Qed.

Lemma unquote_quote_chars (s : string) :
  unquote_chars (StableStringify.quote_chars s) = s.
Proof.
  induction s as [|c s IH]; simpl; [reflexivity|].
  now rewrite unquote_quote_char, IH.
Qed.

Lemma quote_chars_inj (s s' : string) :
  StableStringify.quote_chars s = StableStringify.quote_chars s' -> s = s'.
Proof.
  intros H. apply (f_equal unquote_chars) in H.
  now rewrite !unquote_quote_chars in H.
Qed.

Lemma json_quote_inj (s s' : string) :
  StableStringify.json_quote s = StableStringify.json_quote s' -> s = s'.
Proof.
  unfold StableStringify.json_quote. intros H.
  apply append_inv_head in H. apply append_inv_tail in H.
  now apply quote_chars_inj.
Qed.

Lemma decimal_parses (z : Z) :
  NilZero.int_of_string (decimal z) = Some (Z.to_int z).
Proof.
  unfold decimal.
  apply NilZero.isi; destruct z; cbn; intros E; try discriminate E;
    injection E as E; try discriminate E;
    now apply (DecimalPos.Unsigned.to_uint_nonnil p).
Qed.

Lemma decimal_inj (z z' : Z) : decimal z = decimal z' -> z = z'.
Proof.
  intros H. apply (f_equal NilZero.int_of_string) in H.
  rewrite !decimal_parses in H. injection H as H.
  now apply DecimalZ.to_int_inj.
Qed.

Lemma decimal_not_quote (z : Z) (s : string) :
  decimal z <> StableStringify.json_quote s.
Proof.
  intros H. apply (f_equal NilZero.int_of_string) in H.
  rewrite decimal_parses in H. simpl in H.
  destruct (NilEmpty.uint_of_string _); discriminate.
Qed.

Lemma decimal_not_word (z : Z) (w : string) :
  NilZero.int_of_string w = None -> decimal z <> w.
Proof.
  intros Hw H. apply (f_equal NilZero.int_of_string) in H.
  rewrite decimal_parses, Hw in H. discriminate.
Qed.

Ltac decimal_clash :=
  exfalso;
  match goal with
  | H : decimal ?z = StableStringify.json_quote ?s |- _ =>
      exact (decimal_not_quote z s H)
  | H : StableStringify.json_quote ?s = decimal ?z |- _ =>
      exact (decimal_not_quote z s (eq_sym H))
  | H : decimal ?z = ?w |- _ =>
      exact (decimal_not_word z w eq_refl H)
  | H : ?w = decimal ?z |- _ =>
      exact (decimal_not_word z w eq_refl (eq_sym H))
  end.

(** JSON gives distinct scalars distinct texts. *)
Lemma scalar_text_inj (v v' : value) :
  scalar v -> scalar v' ->
  StableStringify.json_primitive v = StableStringify.json_primitive v' -> v = v'.
Proof.
  destruct v as [| |[]|[z| |]|s| | | |]; simpl; try contradiction; intros _;
    destruct v' as [| |[]|[z'| |]|s'| | | |]; simpl; try contradiction; intros _ H;
    try reflexivity; try discriminate H;
    injection H as H; try decimal_clash.
  - apply decimal_inj in H. now subst.
  - apply append_inv_tail, quote_chars_inj in H. now subst.
Qed.

Lemma scalar_text_nonempty (v : value) :
  scalar v -> exists t, StableStringify.json_primitive v = Some t /\ t <> "".
Proof.
  destruct v as [| |[]|[z| |]|s| | | |]; simpl; try contradiction; intros _;
    eexists; (split; [reflexivity|]); try discriminate.
  intros H. exact (decimal_not_word z "" eq_refl H).
Qed.

End ScalarTexts.

(** ** One changed option changes the text of the options *)

Section ChangedOption.
Variable replacer : string -> value -> value.

Lemma insert_map {A} (g : string * A -> string * A) (x : string * A)
    (l : list (string * A)) :
  (forall e, fst (g e) = fst e) ->
  StableStringify.insert (g x) (map g l) = map g (StableStringify.insert x l).
Proof.
  intros Hg. induction l as [|c l IH]; simpl; [reflexivity|].
  rewrite !Hg. destruct (String.leb (fst x) (fst c)); simpl; [reflexivity|].
  now rewrite IH.
Qed.

Lemma sort_map {A} (g : string * A -> string * A) (l : list (string * A)) :
  (forall e, fst (g e) = fst e) ->
  StableStringify.sort (map g l) = map g (StableStringify.sort l).
Proof.
  intros Hg. induction l as [|x l IH]; simpl; [reflexivity|].
  now rewrite IH, insert_map.
Qed.

Lemma insert_permutation {A} (x : string * A) (l : list (string * A)) :
  Permutation (StableStringify.insert x l) (x :: l).
Proof.
  induction l as [|c l IH]; simpl; [reflexivity|].
  destruct (String.leb (fst x) (fst c)); [reflexivity|].
  rewrite IH. apply perm_swap.
Qed.

Lemma sort_is_permutation {A} (l : list (string * A)) :
  Permutation (StableStringify.sort l) l.
Proof.
  induction l as [|x l IH]; simpl; [reflexivity|].
  rewrite insert_permutation. now constructor.
Qed.

Lemma replace_text_fst (key : string) (text : option string) (e : string * option string) :
  fst (replace_text key text e) = fst e.
Proof. unfold replace_text. now destruct (String.eqb (fst e) key). Qed.

Lemma replace_text_absent (key : string) (text : option string)
    (l : list (string * option string)) :
  ~ In key (map fst l) -> map (replace_text key text) l = l.
Proof.
  induction l as [|e l IH]; simpl; intros Hno; [reflexivity|].
  rewrite IH by tauto. unfold replace_text.
  destruct (String.eqb (fst e) key) eqn:E; [|reflexivity].
  apply String.eqb_eq in E. tauto.
Qed.

Lemma entries_of_set (key : string) (v' : value) (props : list (string * value)) :
  NoDup (keys props) ->
  In key (keys props) ->
  map (entry replacer) (set key v' props)
  = map (replace_text key (StableStringify.stringify_node replacer key v'))
        (map (entry replacer) props).
Proof.
  induction props as [|[k w] props IH]; simpl; intros Hnd Hin; [contradiction|].
  inversion Hnd as [|? ? Hk Hnd']; subst.
  unfold replace_text at 1. simpl.
  destruct (String.eqb k key) eqn:E; simpl.
  - apply String.eqb_eq in E. subst k. unfold entry at 1. simpl. f_equal.
    rewrite replace_text_absent; [reflexivity|].
    rewrite map_map. exact Hk.
  - f_equal. apply IH; [exact Hnd'|].
    destruct Hin as [Hin|Hin]; [|exact Hin].
    apply String.eqb_neq in E. congruence.
Qed.

Lemma members_app (l1 l2 : list (string * option string)) :
  StableStringify.members (l1 ++ l2)%list
  = (StableStringify.members l1 ++ StableStringify.members l2)%list.
Proof.
  induction l1 as [|[k [t|]] l1 IH]; simpl; [reflexivity| |exact IH].
  destruct (String.eqb t ""); [exact IH | simpl; now rewrite IH].
Qed.

(** A list joined by a separator, as a function of one of its elements. *)
Lemma concat_middle (sep : string) (A B : list string) :
  exists P S, forall x,
    String.concat sep (A ++ x :: B)%list = P ++ x ++ S.
Proof.
  induction A as [|a A [P [S IH]]]; simpl.
  - exists "". destruct B as [|b B].
    + exists "". intros x. simpl. now rewrite append_nil_r.
    + exists (sep ++ String.concat sep (b :: B)). intros x. reflexivity.
  - exists (a ++ sep ++ P), S. intros x.
    destruct (A ++ x :: B)%list eqn:E.
    + destruct A; discriminate.
    + rewrite <- E, IH. now rewrite !append_assoc.
Qed.

Lemma lookup_in (key : string) (v : value) (props : list (string * value)) :
  lookup key props = Some v -> In (key, v) props.
Proof.
  induction props as [|[k w] props IH]; simpl; [discriminate|].
  destruct (String.eqb k key) eqn:E.
  - apply String.eqb_eq in E. intros [= ->]. left. now subst.
  - intros H. right. now apply IH.
Qed.

Lemma in_keys_split {A} (key : string) (t : A) (l : list (string * A)) :
  NoDup (map fst l) ->
  In (key, t) l ->
  exists pre post,
    l = (pre ++ (key, t) :: post)%list
    /\ ~ In key (map fst pre) /\ ~ In key (map fst post).
Proof.
  intros Hnd Hin. apply in_split in Hin as [pre [post ->]].
  exists pre, post. split; [reflexivity|].
  rewrite map_app in Hnd. simpl in Hnd.
  apply NoDup_remove_2 in Hnd. rewrite in_app_iff in Hnd. tauto.
Qed.

Lemma braces_inj (P S x y : string) :
  Some ("{" ++ (P ++ x ++ S) ++ "}") = Some ("{" ++ (P ++ y ++ S) ++ "}") -> x = y.
Proof.
  intros H. injection H as H.
  apply append_inv_tail, append_inv_head, append_inv_tail in H. exact H.
Qed.

Lemma stringify_changed_option (key0 : string) (props : list (string * value))
    (key : string) (v v' : value) (t t' : string) :
  NoDup (keys props) ->
  lookup key props = Some v ->
  StableStringify.stringify_node replacer key v = Some t ->
  StableStringify.stringify_node replacer key v' = Some t' ->
  t <> "" -> t' <> "" -> t <> t' ->
  StableStringify.stringify_node replacer key0 (VObj props)
  <> StableStringify.stringify_node replacer key0 (VObj (set key v' props)).
Proof.
  intros Hnd Hlook Ht Ht' Hne Hne' Hdiff.
  rewrite !stringify_object.
  change (map (fun e => (fst e, StableStringify.stringify_node replacer (fst e) (snd e))))
    with (map (entry replacer)).
  rewrite (entries_of_set key v' props Hnd (lookup_in_keys _ _ _ Hlook)).
  rewrite sort_map by apply replace_text_fst.
  assert (Hin : In (key, Some t) (StableStringify.sort (map (entry replacer) props))).
  { eapply Permutation_in; [symmetry; apply sort_is_permutation|].
    apply lookup_in in Hlook. apply (in_map (entry replacer)) in Hlook.
    unfold entry in Hlook at 1. simpl in Hlook. now rewrite Ht in Hlook. }
  assert (Hnd' : NoDup (map fst (StableStringify.sort (map (entry replacer) props)))).
  { eapply Permutation_NoDup.
    - apply Permutation_map. symmetry. apply sort_is_permutation.
    - rewrite map_map. exact Hnd. }
  destruct (in_keys_split key (Some t) _ Hnd' Hin) as [pre [post [E [Hpre Hpost]]]].
  rewrite E.
  rewrite map_app. simpl.
  rewrite !replace_text_absent by assumption.
  unfold replace_text. simpl. rewrite String.eqb_refl, Ht'.
  rewrite !members_app. simpl.
  apply String.eqb_neq in Hne, Hne'. rewrite Hne, Hne'.
  destruct (concat_middle "," (StableStringify.members pre)
              (StableStringify.members post)) as [P [S HPS]].
  rewrite !HPS. intros H. apply braces_inj in H.
  injection H as H. apply append_inv_head in H. injection H as H.
  contradiction.
Qed.

End ChangedOption.

(** ** The text of an array or object is self-delimiting *)

Section SelfDelimiting.
Variable replacer : string -> value -> value.

Lemma neutral_nil : neutral "".
Proof. intros d x. reflexivity. Qed.

Lemma neutral_app (a b : string) : neutral a -> neutral b -> neutral (a ++ b).
Proof. intros Ha Hb d x. now rewrite append_assoc, Ha, Hb. Qed.

Lemma neutral_plain (w : string) : plain w = true -> neutral w.
Proof.
  induction w as [|c w IH]; simpl; intros H d x; [reflexivity|].
  apply andb_true_iff in H as [Hc Hw]. unfold plain_char in Hc.
  apply negb_true_iff in Hc. repeat (apply orb_false_iff in Hc as [Hc ?]).
  cbn [scan append].
  repeat match goal with E : is_char _ c = false |- _ => rewrite E; clear E end.
  simpl. now apply IH.
Qed.

Lemma scan_quote_char (c : ascii) (d : nat) (rest : string) :
  scan d true false (StableStringify.quote_char c ++ rest) = scan d true false rest.
Proof. destruct c as [[] [] [] [] [] [] [] []]; reflexivity. Qed.

Lemma scan_quote_chars (s : string) (d : nat) (rest : string) :
  scan d true false (StableStringify.quote_chars s ++ rest) = scan d true false rest.
Proof.
  induction s as [|c s IH]; simpl; [reflexivity|].
  now rewrite append_assoc, scan_quote_char.
Qed.

Lemma neutral_quote (s : string) : neutral (StableStringify.json_quote s).
Proof.
  intros d x. unfold StableStringify.json_quote.
  rewrite !append_assoc.
  change (scan (S d) true false
            (StableStringify.quote_chars s ++ StableStringify.dquote ++ x)
          = scan (S d) false false x).
  now rewrite scan_quote_chars.
Qed.

Lemma plain_app (a b : string) : plain a = true -> plain b = true -> plain (a ++ b) = true.
Proof.
  induction a as [|c a IH]; simpl; intros Ha Hb; [exact Hb|].
  apply andb_true_iff in Ha as [Hc Ha]. now rewrite Hc, IH.
Qed.

Lemma plain_uint (u : Decimal.uint) : plain (NilEmpty.string_of_uint u) = true.
Proof. induction u; simpl; try reflexivity; exact IHu. Qed.

Lemma plain_decimal (z : Z) : plain (decimal z) = true.
Proof.
  unfold decimal, NilZero.string_of_int, NilZero.string_of_uint.
  destruct (Z.to_int z) as [u|u]; destruct u; try reflexivity;
    simpl; apply plain_uint.
Qed.

Lemma neutral_primitive (w : value) (t : string) :
  StableStringify.json_primitive w = Some t -> neutral t.
Proof.
  destruct w as [| |[]|[z| |]|s| | | |]; simpl; intros [= <-];
    try (apply neutral_plain; reflexivity).
  - apply neutral_plain, plain_decimal.
  - apply neutral_quote.
Qed.

Lemma neutral_concat (l : list string) :
  Forall neutral l -> neutral (String.concat "," l).
Proof.
  induction 1 as [|a l Ha Hl IH]; simpl; [apply neutral_nil|].
  destruct l as [|b l]; [exact Ha|].
  apply neutral_app; [exact Ha|].
  apply (neutral_app ","); [now apply neutral_plain | exact IH].
Qed.

Lemma neutral_members (l : list (string * option string)) :
  Forall neutral_entry l -> Forall neutral (StableStringify.members l).
Proof.
  induction 1 as [|[k [t|]] l He Hl IH];
    cbn [StableStringify.members StableStringify.absent];
    [constructor| |exact IH].
  destruct (String.eqb t ""); [exact IH|].
  constructor; [|exact IH].
  apply neutral_app; [apply neutral_quote|].
  apply (neutral_app ":"); [now apply neutral_plain | now apply He].
Qed.

Lemma neutral_item (o : option string) :
  (forall t, o = Some t -> neutral t) -> neutral (StableStringify.item o).
Proof.
  intros H. destruct o as [t|]; cbn [StableStringify.item StableStringify.absent];
    [|now apply neutral_plain].
  destruct (String.eqb t ""); [now apply neutral_plain | now apply H].
Qed.

Lemma bracketed (open close body : string) :
  (open = "[" /\ close = "]") \/ (open = "{" /\ close = "}") ->
  neutral body ->
  neutral (open ++ body ++ close)
  /\ forall x, scan 0 false false ((open ++ body ++ close) ++ x) = Some x.
Proof.
  intros Hoc Hbody. split.
  - intros d x. rewrite !append_assoc.
    destruct Hoc as [[-> ->] | [-> ->]]; simpl;
      now rewrite Hbody.
  - intros x. rewrite !append_assoc.
    destruct Hoc as [[-> ->] | [-> ->]]; simpl;
      now rewrite Hbody.
Qed.

Lemma stringify_array (key : string) (items : list value) :
  exists out,
    StableStringify.stringify_node replacer key (VArr items)
    = Some ("[" ++ String.concat "," out ++ "]")
    /\ (Forall (fun v => forall k t,
                   StableStringify.stringify_node replacer k v = Some t -> neutral t)
               items ->
        Forall neutral out).
Proof.
  simpl. eexists. split; [reflexivity|].
  generalize 0%nat. induction items as [|x items IH]; intros i H; [constructor|].
  inversion H as [|? ? Hx Hitems]; subst. constructor.
  - apply neutral_item. intros t. apply Hx.
  - apply IH. exact Hitems.
Qed.

(** What is serialized passes the scan unchanged inside a container, and an
    array or object ends the scan where its text ends. *)
Lemma stringify_self_delimiting (v : value) :
  forall key t,
    StableStringify.stringify_node replacer key v = Some t ->
    neutral t
    /\ (isArray v = true \/ is_object v ->
        forall x, scan 0 false false (t ++ x) = Some x).
Proof.
  induction v as [| |b|n|s|src|name src|items IH|props IH] using value_induction;
    intros key t Ht;
    try (split; [exact (neutral_primitive _ _ Ht) |
                 intros [H | [p H]]; discriminate H]).
  - destruct (stringify_array key items) as [out [E Hout]].
    rewrite E in Ht. injection Ht as <-.
    assert (Hn : neutral (String.concat "," out)).
    { apply neutral_concat, Hout.
      eapply Forall_impl; [|exact IH]. intros v Hv k t Hk. now apply (Hv k t). }
    destruct (bracketed "[" "]" _ (or_introl (conj eq_refl eq_refl)) Hn) as [H1 H2].
    split; [exact H1 | intros _; exact H2].
  - rewrite stringify_object in Ht. injection Ht as <-.
    assert (Hn : neutral
                   (String.concat ","
                      (StableStringify.members
                         (StableStringify.sort (map (entry replacer) props))))).
    { apply neutral_concat, neutral_members.
      eapply Permutation_Forall; [symmetry; apply sort_is_permutation|].
      apply Forall_map. eapply Forall_impl; [|exact IH].
      intros [k x] Hx t Hk. exact (proj1 (Hx k t Hk)). }
    destruct (bracketed "{" "}" _ (or_intror (conj eq_refl eq_refl)) Hn) as [H1 H2].
    split; [exact H1 | intros _; exact H2].
Qed.

(** Two object texts, each followed by anything, make the same string only
    if the texts are the same. *)
Lemma object_text_prefix_free (key key' : string) (props props' : list (string * value))
    (t t' x x' : string) :
  StableStringify.stringify_node replacer key (VObj props) = Some t ->
  StableStringify.stringify_node replacer key' (VObj props') = Some t' ->
  t ++ x = t' ++ x' -> t = t' /\ x = x'.
Proof.
  intros Ht Ht' E.
  destruct (stringify_self_delimiting (VObj props) key t Ht) as [_ H].
  destruct (stringify_self_delimiting (VObj props') key' t' Ht') as [_ H'].
  assert (Hx : Some x = Some x').
  { rewrite <- (H (or_intror (ex_intro _ props eq_refl)) x).
    rewrite <- (H' (or_intror (ex_intro _ props' eq_refl)) x'). now rewrite E. }
  injection Hx as <-. split; [|reflexivity].
  now apply append_inv_tail in E.
Qed.

End SelfDelimiting.

(** ** Digests collide *)

Section Pigeonhole.

Lemma bounded_search (f : N -> N) (v n : N) :
  (exists i, (i <= n)%N /\ f i = v) \/ (forall i, (i <= n)%N -> f i <> v).
Proof.
  induction n as [|n IH] using N.peano_ind.
  - destruct (N.eq_dec (f 0%N) v) as [E|E].
    + left. exists 0%N. split; [lia | exact E].
    + right. intros i Hi. assert (i = 0%N) by lia. now subst.
  - destruct IH as [[i [Hi E]] | IH].
    + left. exists i. split; [lia | exact E].
    + destruct (N.eq_dec (f (N.succ n)) v) as [E|E].
      * left. exists (N.succ n). split; [lia | exact E].
      * right. intros i Hi.
        destruct (N.eq_dec i (N.succ n)) as [-> | Hne]; [exact E|].
        apply IH. lia.
Qed.

(** More arguments than values: two arguments share a value. *)
Lemma pigeonhole (n : N) (f : N -> N) :
  (forall i, (i <= n)%N -> (f i < n)%N) ->
  exists i j, (i < j)%N /\ (j <= n)%N /\ f i = f j.
Proof.
  revert f. induction n as [|n IH] using N.peano_ind; intros f Hf.
  - specialize (Hf 0%N). lia.
  - destruct (bounded_search f (f (N.succ n)) n) as [[i [Hi E]] | Hfresh].
    + exists i, (N.succ n). repeat split; [lia | lia | exact E].
    + set (v := f (N.succ n)) in *.
      destruct (IH (fun i => if (f i <? v)%N then f i else (f i - 1)%N))
        as [i [j [Hij [Hj E]]]].
      * intros i Hi. assert (Hi' : (i <= N.succ n)%N) by lia.
        assert (Hv : (v < N.succ n)%N) by (apply Hf; lia).
        specialize (Hf i Hi'). specialize (Hfresh i Hi).
        destruct (N.ltb_spec (f i) v); lia.
      * exists i, j. repeat split; [exact Hij | lia |].
        assert (Hi : (i <= n)%N) by lia.
        pose proof (Hfresh i Hi). pose proof (Hfresh j Hj).
        destruct (N.ltb_spec (f i) v); destruct (N.ltb_spec (f j) v); lia.
Qed.

Lemma wrap32_word (x : Z) : word (Md5.wrap32 x).
Proof. unfold word, Md5.wrap32. apply Z.mod_pos_bound. reflexivity. Qed.

Lemma compress_words (st : Md5.state) (block : list Z) :
  words_of (Md5.compress st block).
Proof.
  unfold Md5.compress, words_of. cbn [Md5.sa Md5.sb Md5.sc Md5.sd].
  repeat split; apply wrap32_word.
Qed.

Lemma blocks_words (fuel : nat) (st : Md5.state) (bs : list Z) :
  words_of st -> words_of (Md5.blocks fuel st bs).
Proof.
  revert st bs. induction fuel as [|fuel IH]; intros st bs Hst;
    cbn [Md5.blocks]; [exact Hst|].
  destruct bs as [|b bs]; [exact Hst|].
  apply IH, compress_words.
Qed.

Lemma digest_words (bs : list Z) : words_of (Md5.digest bs).
Proof.
  unfold Md5.digest. apply blocks_words.
  unfold words_of, word, Md5.init. cbn [Md5.sa Md5.sb Md5.sc Md5.sd]. lia.
Qed.

Lemma digest_number_bound (st : Md5.state) :
  words_of st -> (digest_number st < 2 ^ 128)%N.
Proof.
  unfold words_of, word, digest_number. intros [Ha [Hb [Hc Hd]]].
  change (2 ^ 128)%N with (Z.to_N (2 ^ 128)). lia.
Qed.

Lemma digest_number_inj (st st' : Md5.state) :
  words_of st -> words_of st' -> digest_number st = digest_number st' -> st = st'.
Proof.
  destruct st as [a b c d], st' as [a' b' c' d'].
  unfold words_of, word, digest_number. cbn [Md5.sa Md5.sb Md5.sc Md5.sd].
  intros [Ha [Hb [Hc Hd]]] [Ha' [Hb' [Hc' Hd']]] E.
  apply Z2N.inj in E; [|lia|lia].
  assert (a = a' /\ b = b' /\ c = c' /\ d = d') as [-> [-> [-> ->]]] by lia.
  reflexivity.
Qed.

Lemma filler_length (i : N) : String.length (filler i) = N.to_nat i.
Proof.
  unfold filler. generalize (N.to_nat i). intros n.
  induction n as [|n IH]; simpl; [reflexivity | now rewrite IH].
Qed.

Lemma filler_inj (i j : N) : filler i = filler j -> i = j.
Proof.
  intros H. apply (f_equal String.length) in H.
  rewrite !filler_length in H. lia.
Qed.

(** Whatever follows the content in the hashed string, two contents have
    the same digest. *)
Lemma digest_collision (suffix : string) :
  exists content content',
    content <> content'
    /\ Md5.hexdigest (content ++ suffix) = Md5.hexdigest (content' ++ suffix).
Proof.
  destruct (pigeonhole (2 ^ 128)
              (fun i => digest_number
                          (Md5.digest (Md5.bytes_of_string (filler i ++ suffix)))))
    as [i [j [Hij [_ E]]]].
  - intros i _. apply digest_number_bound, digest_words.
  - exists (filler i), (filler j). split.
    + intros H. apply filler_inj in H. lia.
    + unfold Md5.hexdigest. f_equal.
      apply digest_number_inj; [apply digest_words | apply digest_words | exact E].
Qed.

End Pigeonhole.

(** ** What changes the hashed string *)

Section Sensitivity.
Context {host : Host}.

Lemma hash_input_inv (this : instance) (content relativePath s : string) :
  hash_input this content relativePath = ok s ->
  exists config options resolved,
    getConfig this = ok config
    /\ StableStringify.stringify functionStringifier (this_get this "options")
       = Some options
    /\ StableStringify.stringify StableStringify.default_replacer config
       = Some resolved
    /\ s = content ++ relativePath ++ options ++ resolved.
Proof.
  unfold hash_input.
  destruct (getConfig this) as [e|config] eqn:Hc; cbn [rbind]; [discriminate|].
  destruct (StableStringify.stringify functionStringifier (this_get this "options"))
    as [o|] eqn:Ho; [|discriminate].
  destruct (StableStringify.stringify StableStringify.default_replacer config)
    as [r|] eqn:Hr; [|discriminate].
  intros [= <-]. exists config, o, r. repeat split; assumption.
Qed.

(** The text of a scalar or of a function among the options. *)
Lemma option_text (key : string) (v : value) :
  scalar v \/ (exists src, v = VFun src) ->
  exists t,
    StableStringify.stringify_node functionStringifier key v = Some t /\ t <> "".
Proof.
  intros [Hv | [src ->]].
  - destruct (scalar_text_nonempty v Hv) as [t [Ht Hne]]. exists t. split; [|exact Hne].
    destruct v as [| |b|[z| |]|s| | | |]; try contradiction; exact Ht.
  - eexists. split; [reflexivity | discriminate].
Qed.

Lemma option_text_differs (key : string) (v v' : value) (t t' : string) :
  (scalar v /\ scalar v' /\ v <> v')
  \/ (exists src src', v = VFun src /\ v' = VFun src' /\ src <> src') ->
  StableStringify.stringify_node functionStringifier key v = Some t ->
  StableStringify.stringify_node functionStringifier key v' = Some t' ->
  t <> t'.
Proof.
  intros [[Hv [Hv' Hne]] | [src [src' [-> [-> Hne]]]]] Ht Ht' E; subst t'.
  - apply Hne. apply scalar_text_inj; [exact Hv | exact Hv' |].
    destruct v as [| |b|[z| |]|s| | | |]; try contradiction;
      destruct v' as [| |b'|[z'| |]|s'| | | |]; try contradiction;
      simpl in Ht, Ht' |- *; congruence.
  - simpl in Ht, Ht'. rewrite <- Ht' in Ht. injection Ht as Ht.
    apply append_inv_tail, quote_chars_inj in Ht. congruence.
Qed.

(** C2, as the code has it.  The key is the MD5 digest of the hashed
    string, and the hashed string changes when exactly one of these
    changes: the content; the path; the text of the stored options, whatever
    happens to the resolved configuration; in particular the value of one
    option, from one of the scalars null, a boolean, an integer, a string
    to another, or from one function source to another. *)
Theorem cacheKey_sensitive (this : instance) (content relativePath s : string) :
  hash_input this content relativePath = ok s ->
  cacheKeyProcessString this content relativePath = ok (Md5.hexdigest s)
  /\ (forall content' s',
        content' <> content ->
        hash_input this content' relativePath = ok s' -> s' <> s)
  /\ (forall relativePath' s',
        relativePath' <> relativePath ->
        hash_input this content relativePath' = ok s' -> s' <> s)
  /\ (forall this' props props' options options' s',
        this_get this "options" = VObj props ->
        this_get this' "options" = VObj props' ->
        StableStringify.stringify functionStringifier (VObj props) = Some options ->
        StableStringify.stringify functionStringifier (VObj props') = Some options' ->
        options' <> options ->
        hash_input this' content relativePath = ok s' -> s' <> s)
  /\ (forall this' props key v v' s',
        this_get this "options" = VObj props ->
        NoDup (keys props) ->
        lookup key props = Some v ->
        this_get this' "options" = VObj (set key v' props) ->
        (scalar v /\ scalar v' /\ v <> v')
        \/ (exists src src', v = VFun src /\ v' = VFun src' /\ src <> src') ->
        hash_input this' content relativePath = ok s' -> s' <> s).
Proof.
  intros Hs.
  assert (Htext : forall this' props props' options options' s',
             this_get this "options" = VObj props ->
             this_get this' "options" = VObj props' ->
             StableStringify.stringify functionStringifier (VObj props) = Some options ->
             StableStringify.stringify functionStringifier (VObj props') = Some options' ->
             options' <> options ->
             hash_input this' content relativePath = ok s' -> s' <> s).
  { intros this' props props' options options' s' Hp Hp' Ho Ho' Hne Hs' E. subst s'.
    apply hash_input_inv in Hs as [config [o [r [_ [Eo [_ ->]]]]]].
    apply hash_input_inv in Hs' as [config' [o' [r' [_ [Eo' [_ E]]]]]].
    rewrite Hp in Eo. rewrite Hp' in Eo'.
    rewrite Ho in Eo. rewrite Ho' in Eo'. injection Eo as <-. injection Eo' as <-.
    apply append_inv_head, append_inv_head in E.
    destruct (object_text_prefix_free functionStringifier "" "" props props'
                options options' r r' Ho Ho' E) as [E' _].
    now apply Hne. }
  split; [|split; [|split; [|split; [exact Htext|]]]].
  - rewrite cacheKey_is_digest, Hs. reflexivity.
  - intros content' s' Hne Hs' E. subst s'.
    apply hash_input_inv in Hs as [config [o [r [Hc [Ho [Hr ->]]]]]].
    apply hash_input_inv in Hs' as [config' [o' [r' [Hc' [Ho' [Hr' E]]]]]].
    rewrite Hc in Hc'. injection Hc' as <-.
    rewrite Ho in Ho'. injection Ho' as <-. rewrite Hr in Hr'. injection Hr' as <-.
    apply append_inv_tail in E. now apply Hne.
  - intros relativePath' s' Hne Hs' E. subst s'.
    apply hash_input_inv in Hs as [config [o [r [Hc [Ho [Hr ->]]]]]].
    apply hash_input_inv in Hs' as [config' [o' [r' [Hc' [Ho' [Hr' E]]]]]].
    rewrite Hc in Hc'. injection Hc' as <-.
    rewrite Ho in Ho'. injection Ho' as <-. rewrite Hr in Hr'. injection Hr' as <-.
    apply append_inv_head, append_inv_tail in E. now apply Hne.
  - intros this' props key v v' s' Hp Hnd Hlook Hp' Hkind Hs'.
    assert (Hv : scalar v \/ (exists src, v = VFun src)).
    { destruct Hkind as [[H _] | [src [_ [-> _]]]]; [now left | right; eauto]. }
    assert (Hv' : scalar v' \/ (exists src, v' = VFun src)).
    { destruct Hkind as [[_ [H _]] | [_ [src' [_ [-> _]]]]]; [now left | right; eauto]. }
    destruct (option_text key v Hv) as [t [Ht Hne]].
    destruct (option_text key v' Hv') as [t' [Ht' Hne']].
    pose proof (option_text_differs key v v' t t' Hkind Ht Ht') as Hdiff.
    pose proof (stringify_changed_option functionStringifier "" props key v v' t t'
                  Hnd Hlook Ht Ht' Hne Hne' Hdiff) as Hobj.
    unfold StableStringify.stringify in Htext.
    apply (Htext this' props (set key v' props) _ _ s' Hp Hp'
             (stringify_object functionStringifier "" props)
             (stringify_object functionStringifier "" (set key v' props)));
      [|exact Hs'].
    intros E. apply Hobj. rewrite !stringify_object. now rewrite E.
Qed.

End Sensitivity.

(** C2 as stated fails.  The digest has 128 bits, so for the filter of an
    empty configuration two contents of one path have the same key; and
    the options [NaN] and [null], both printed as [null] by JSON, give one
    and the same key. *)
Lemma cacheKey_collisions :
  ~ (forall content content' : string,
        content <> content' ->
        @cacheKeyProcessString Stub.host [ ("options", VObj []) ] content "a.scss"
        <> @cacheKeyProcessString Stub.host [ ("options", VObj []) ] content' "a.scss")
  /\ VNum NaN <> VNull
  /\ @key_under Stub.host (VObj [ ("max-warnings", VNum NaN) ]) "a {}" "a.scss"
     = ok "cf7be77abe81560015a49861ca5d7bc6"
  /\ @key_under Stub.host (VObj [ ("max-warnings", VNull) ]) "a {}" "a.scss"
     = ok "cf7be77abe81560015a49861ca5d7bc6".
Proof.
  split; [|split; [discriminate | split; vm_compute; reflexivity]].
  intros H.
  pose (suffix :=
          "a.scss" ++ "{}" ++ "{" ++ StableStringify.json_quote "files" ++ ":{"
          ++ StableStringify.json_quote "include" ++ ":"
          ++ StableStringify.json_quote "**/*.s+(a|c)ss" ++ "},"
          ++ StableStringify.json_quote "rules" ++ ":{}}").
  destruct (digest_collision suffix) as [content [content' [Hne E]]].
  apply (H content content' Hne).
  rewrite !cacheKey_is_digest.
  change (@hash_input Stub.host [ ("options", VObj []) ] content "a.scss")
    with (ok (content ++ suffix)).
  change (@hash_input Stub.host [ ("options", VObj []) ] content' "a.scss")
    with (ok (content' ++ suffix)).
  change (ok (Md5.hexdigest (content ++ suffix))
          = ok (Md5.hexdigest (content' ++ suffix))).
  now rewrite E.
Qed.

(** The digest of the two pairs of C10 for the filter of an empty
    configuration. *)
Example cacheKey_ignores_boundary_run :
  @cacheKeyProcessString Stub.host [ ("options", VObj []) ] "a" "b.scss"
  = ok "a43226b3fc883db5399f0139343cc4ab"
  /\ @cacheKeyProcessString Stub.host [ ("options", VObj []) ] "ab" ".scss"
     = ok "a43226b3fc883db5399f0139343cc4ab".
Proof. split; vm_compute; reflexivity. Qed.

(** ** The statements at concrete inputs

    Each statement with hypotheses is applied once to the test doubles. *)

(** The key of two stored option objects with the keys [config] and
    [files] in the two orders. *)
Lemma cacheKey_deterministic_witness :
  same_outcome
    (@getConfig Stub.host
       [ ("options", VObj [ ("config", VStr ".sass-lint.yml");
                            ("files", VObj [ ("ignore", VStr "vendor/**") ]) ]) ])
    (@getConfig Stub.host
       [ ("options", VObj [ ("files", VObj [ ("ignore", VStr "vendor/**") ]);
                            ("config", VStr ".sass-lint.yml") ]) ])
  /\ @cacheKeyProcessString Stub.host
       [ ("options", VObj [ ("config", VStr ".sass-lint.yml");
                            ("files", VObj [ ("ignore", VStr "vendor/**") ]) ]) ]
       "a {}" "a.scss"
     = @cacheKeyProcessString Stub.host
         [ ("options", VObj [ ("files", VObj [ ("ignore", VStr "vendor/**") ]);
                              ("config", VStr ".sass-lint.yml") ]) ]
         "a {}" "a.scss".
Proof.
  assert (Hc : same_outcome
                 (@getConfig Stub.host
                    [ ("options", VObj [ ("config", VStr ".sass-lint.yml");
                                         ("files", VObj [ ("ignore", VStr "vendor/**") ]) ]) ])
                 (@getConfig Stub.host
                    [ ("options", VObj [ ("files", VObj [ ("ignore", VStr "vendor/**") ]);
                                         ("config", VStr ".sass-lint.yml") ]) ]))
    by (simpl; apply same_value).
  split; [exact Hc|].
  apply (proj2 (@cacheKey_deterministic Stub.host
                  [ ("options", VObj [ ("config", VStr ".sass-lint.yml");
                                       ("files", VObj [ ("ignore", VStr "vendor/**") ]) ]) ]
                  [ ("options", VObj [ ("files", VObj [ ("ignore", VStr "vendor/**") ]);
                                       ("config", VStr ".sass-lint.yml") ]) ]
                  "a {}" "a.scss" Hc)
           [ ("config", VStr ".sass-lint.yml");
             ("files", VObj [ ("ignore", VStr "vendor/**") ]) ]
           [ ("files", VObj [ ("ignore", VStr "vendor/**") ]);
             ("config", VStr ".sass-lint.yml") ]
           eq_refl eq_refl).
  - repeat constructor; simpl; intros H; decompose [or] H; try discriminate; assumption.
  - apply perm_swap.
Defined.

(** C2 for the options [{ 'max-warnings': 50 }]. *)
Lemma cacheKey_sensitive_witness :
  @hash_input Stub.host
    [ ("options", VObj [ ("max-warnings", VNum (Int 50)) ]) ] "a {}" "a.scss"
  = ok ("a {}" ++ "a.scss" ++ "{" ++ StableStringify.json_quote "max-warnings" ++ ":50}"
        ++ "{" ++ StableStringify.json_quote "files" ++ ":{"
        ++ StableStringify.json_quote "include" ++ ":"
        ++ StableStringify.json_quote "**/*.s+(a|c)ss" ++ "},"
        ++ StableStringify.json_quote "rules" ++ ":{}}")
  /\ @cacheKeyProcessString Stub.host
       [ ("options", VObj [ ("max-warnings", VNum (Int 50)) ]) ] "a {}" "a.scss"
     = ok (Md5.hexdigest
             ("a {}" ++ "a.scss" ++ "{" ++ StableStringify.json_quote "max-warnings" ++ ":50}"
              ++ "{" ++ StableStringify.json_quote "files" ++ ":{"
              ++ StableStringify.json_quote "include" ++ ":"
              ++ StableStringify.json_quote "**/*.s+(a|c)ss" ++ "},"
              ++ StableStringify.json_quote "rules" ++ ":{}}")).
Proof.
  split; [reflexivity|].
  exact (proj1 (@cacheKey_sensitive Stub.host
                  [ ("options", VObj [ ("max-warnings", VNum (Int 50)) ]) ]
                  "a {}" "a.scss" _ eq_refl)).
Defined.

(** C3 for a sequence of three globs, the second of which matches. *)
Lemma shouldIgnore_spec_witness :
  @getConfig Stub.host
    [ ("options", VObj [ ("files", VObj [ ("ignore", VArr [ VStr "tmp/**"; VStr "vendor/**";
                                                             VStr "dist/**" ]) ]) ]) ]
  = ok (VObj [ ("files", VObj [ ("ignore", VArr [ VStr "tmp/**"; VStr "vendor/**";
                                                  VStr "dist/**" ]) ]);
               ("rules", VObj []) ])
  /\ globs_only (VArr [ VStr "tmp/**"; VStr "vendor/**"; VStr "dist/**" ])
  /\ @shouldIgnore Stub.host
       [ ("options", VObj [ ("files", VObj [ ("ignore", VArr [ VStr "tmp/**"; VStr "vendor/**";
                                                                VStr "dist/**" ]) ]) ]) ]
       "vendor/reset.scss"
     = ([ Minimatch "vendor/reset.scss" (VStr "tmp/**");
          Minimatch "vendor/reset.scss" (VStr "vendor/**") ],
        ok true).
Proof.
  assert (Hg : globs_only (VArr [ VStr "tmp/**"; VStr "vendor/**"; VStr "dist/**" ])).
  { simpl. repeat constructor; eexists; reflexivity. }
  split; [reflexivity|]. split; [exact Hg|].
  exact (proj1 (@shouldIgnore_spec Stub.host
                  [ ("options", VObj [ ("files", VObj [ ("ignore",
                       VArr [ VStr "tmp/**"; VStr "vendor/**"; VStr "dist/**" ]) ]) ]) ]
                  "vendor/reset.scss" _ _ _ eq_refl eq_refl eq_refl Hg)).
Defined.

(** C4 for an ignored path. *)
Lemma getDestFilePath_spec_witness :
  @shouldIgnore Stub.host
    [ ("options", VObj [ ("files", VObj [ ("ignore", VStr "vendor/**") ]) ]) ]
    "vendor/reset.scss"
  = ([ Minimatch "vendor/reset.scss" (VStr "vendor/**") ], ok true)
  /\ @getDestFilePath Stub.host
       [ ("options", VObj [ ("files", VObj [ ("ignore", VStr "vendor/**") ]) ]) ]
       "vendor/reset.scss"
     = ([ Minimatch "vendor/reset.scss" (VStr "vendor/**") ], ok VNull).
Proof.
  split; [reflexivity|].
  exact (proj1 (@getDestFilePath_spec Stub.host
                  [ ("options", VObj [ ("files", VObj [ ("ignore", VStr "vendor/**") ]) ]) ]
                  "vendor/reset.scss" _ true eq_refl) eq_refl).
Defined.

(** C5 for a report with one error, rendered by the Mocha generator. *)
Lemma testGenerator_spec_witness :
  errorCount_is
    [ ("errorCount", VNum (Int 1));
      ("messages", VArr [ VObj [ ("line", VNum (Int 3)); ("column", VNum (Int 5));
                                 ("message", VStr "Bad indent");
                                 ("ruleId", VStr "indentation") ] ]) ]
    (Some 1%Z)
  /\ TestGenerators.testGenerator TestGenerators.mochaString "a.scss" VUndefined
       (VObj [ ("errorCount", VNum (Int 1));
               ("messages", VArr [ VObj [ ("line", VNum (Int 3)); ("column", VNum (Int 5));
                                          ("message", VStr "Bad indent");
                                          ("ruleId", VStr "indentation") ] ]) ])
     = ok (TestGenerators.mochaString "a.scss" false
             ("a.scss should pass sass-lint" ++ TestGenerators.newline
              ++ TestGenerators.newline ++ "3:5 - Bad indent (indentation)")).
Proof.
  split; [reflexivity|].
  apply (proj1 (testGenerator_spec TestGenerators.mochaString "a.scss" VUndefined
                  [ ("errorCount", VNum (Int 1));
                    ("messages",
                      VArr [ VObj [ ("line", VNum (Int 3)); ("column", VNum (Int 5));
                                    ("message", VStr "Bad indent");
                                    ("ruleId", VStr "indentation") ] ]) ]
                  (Some 1%Z) eq_refl)
           [ VObj [ ("line", VNum (Int 3)); ("column", VNum (Int 5));
                    ("message", VStr "Bad indent"); ("ruleId", VStr "indentation") ] ]
           eq_refl).
  repeat constructor. eexists. reflexivity.
Defined.

(** C6 for a report with two warnings. *)
Lemma postProcess_spec_witness :
  get (VObj [ ("report", VObj [ ("errorCount", VNum (Int 0));
                                ("warningCount", VNum (Int 2)) ]);
              ("output", VStr "a {}") ]) "report"
  = ok (VObj [ ("errorCount", VNum (Int 0)); ("warningCount", VNum (Int 2)) ])
  /\ postProcess [ ("options", VObj []) ]
       (VObj [ ("report", VObj [ ("errorCount", VNum (Int 0));
                                 ("warningCount", VNum (Int 2)) ]);
               ("output", VStr "a {}") ])
     = ([ OutputResults
            (VArr [ VObj [ ("errorCount", VNum (Int 0));
                           ("warningCount", VNum (Int 2)) ] ])
            (VObj []) VUndefined ],
        ok (VObj [ ("output", VStr "a {}") ])).
Proof.
  split; [reflexivity|].
  exact (proj1 (postProcess_spec [ ("options", VObj []) ]
                  (VObj [ ("report", VObj [ ("errorCount", VNum (Int 0));
                                            ("warningCount", VNum (Int 2)) ]);
                          ("output", VStr "a {}") ])
                  _ _ _ _ eq_refl eq_refl eq_refl eq_refl)).
Defined.

(** C9 for the configuration [{ testGenerator: 'qunit' }]. *)
Lemma qunit_is_not_registered_witness :
  ~ In "options" (keys [ ("testGenerator", VStr "qunit") ])
  /\ lookup "testGenerator" [ ("testGenerator", VStr "qunit") ] = Some (VStr "qunit")
  /\ @ScssLinter Stub.host (VObj []) (VObj [ ("testGenerator", VStr "qunit") ])
     = throw (ReferenceError "quint is not defined")
  /\ exists e,
       @ScssLinter Stub.host (VObj []) (VObj [ ("testGenerator", VStr "qunit") ])
       = throw e.
Proof.
  assert (Hno : ~ In "options" (keys [ ("testGenerator", VStr "qunit") ])).
  { simpl. intros [H | []]. discriminate H. }
  split; [exact Hno|]. split; [reflexivity|]. split; [reflexivity|].
  apply (@qunit_is_not_registered Stub.host (VObj [])
           [ ("testGenerator", VStr "qunit") ] Hno eq_refl).
Defined.

(** * Further properties

    Properties of the functions that the statements above leave out, and
    of their error and edge behaviour. *)

Section FurtherConstruction.
Context {host : Host}.

Lemma lookup_none (key : string) (props : list (string * value)) :
  lookup key props = None -> ~ In key (keys props).
Proof.
  induction props as [|[k w] props IH]; simpl; [tauto|].
  destruct (String.eqb k key) eqn:E; [discriminate|].
  apply String.eqb_neq in E. intros H [I|I]; [contradiction|]. now apply IH.
Qed.

(** What the copy loop leaves under [key], for a configuration without
    a key [options]. *)
Lemma copied_option (props : list (string * value)) (this' : instance)
    (key : string) :
  (forall k, In k (keys props) -> this_get this' k = or_undefined (lookup k props)) ->
  (forall k, ~ In k (keys props) ->
             this_get this' k = this_get (set "options" (VObj props) []) k) ->
  key <> "options" ->
  this_get this' key
  = match lookup key props with
    | Some v => v
    | None => or_undefined (lookup key prototype)
    end.
Proof.
  intros Hin Hout Hkey. destruct (lookup key props) as [v|] eqn:L.
  - rewrite (Hin _ (lookup_in_keys _ _ _ L)), L. reflexivity.
  - rewrite (Hout _ (lookup_none _ _ L)).
    rewrite this_get_set_neq; [reflexivity | congruence].
Qed.

(** X1.  What holds of every filter object that construction returns,
    for every configuration: the input node was an object and the base
    constructor accepted it, the test generator is not a string, and a
    truthy test generator goes with the target extension
    [sass-lint-test.js]. *)
Theorem ScssLinter_constructed (inputNode options : value) (this : instance) :
  ScssLinter inputNode options = ok this ->
  typeof inputNode = "object"
  /\ Filter_call inputNode = ok tt
  /\ typeof (this_get this "testGenerator") <> "string"
  /\ (truthy (this_get this "testGenerator") = true ->
      this_get this "targetExtension" = VStr "sass-lint-test.js").
Proof.
  unfold ScssLinter.
  destruct (String.eqb (typeof inputNode) "object") eqn:E; simpl; [|discriminate].
  apply String.eqb_eq in E.
  destruct (Filter_call inputNode) as [e|[]]; simpl; [discriminate|].
  destruct (object_keys _) as [e|ks]; simpl; [discriminate|].
  destruct (copy_options ks _) as [e|this0]; simpl; [discriminate|].
  destruct (String.eqb (typeof (this_get this0 "testGenerator")) "string") eqn:G;
    simpl; [discriminate|].
  apply String.eqb_neq in G.
  destruct (truthy (this_get this0 "testGenerator")) eqn:T; intros [= <-].
  - repeat split; try assumption.
    + rewrite this_get_set_neq; [exact G | discriminate].
    + intros _. apply this_get_set_eq.
  - repeat split; try assumption. intros T'. rewrite T in T'. discriminate.
Qed.

(** X2.  No name selects a test generator.  For a configuration without
    a key [options] whose [testGenerator] is a string, construction on an
    accepted input node throws the ReferenceError of the generators
    module, for "mocha" and "qunit" as for any other name; the error
    "Could not find ... test generator" is never reached. *)
Theorem ScssLinter_no_style_resolves (inputNode : value)
    (props : list (string * value)) (name : string) :
  typeof inputNode = "object" ->
  Filter_call inputNode = ok tt ->
  ~ In "options" (keys props) ->
  lookup "testGenerator" props = Some (VStr name) ->
  ScssLinter inputNode (VObj props)
  = throw (ReferenceError "quint is not defined").
Proof.
  intros Hnode Hcall Hno Hname. unfold ScssLinter.
  rewrite Hnode, Hcall. simpl.
  destruct (copy_options_plain props (keys props)
              (set "options" (VObj props) [])) as
    [this' [Hrun [_ [Hin _]]]]; [reflexivity | exact Hno |].
  simpl in Hrun. rewrite Hrun. simpl.
  rewrite (Hin "testGenerator" (lookup_in_keys _ _ _ Hname)), Hname. simpl.
  reflexivity.
Qed.

(** X3.  A configuration without a key [options] whose test generator is
    not a string is constructed on every accepted input node: the stored
    options are the configuration, every option is a property of the
    filter object with its value, and the target extension is
    [sass-lint-test.js] when the test generator is truthy and the
    configured one (or [scss]) when it is not. *)
Theorem ScssLinter_copies_every_option (inputNode : value)
    (props : list (string * value)) :
  typeof inputNode = "object" ->
  Filter_call inputNode = ok tt ->
  ~ In "options" (keys props) ->
  typeof (or_undefined (lookup "testGenerator" props)) <> "string" ->
  exists this,
    ScssLinter inputNode (VObj props) = ok this
    /\ this_get this "options" = VObj props
    /\ (forall k v, k <> "targetExtension" -> lookup k props = Some v ->
                    this_get this k = v)
    /\ this_get this "targetExtension"
       = if truthy (or_undefined (lookup "testGenerator" props))
         then VStr "sass-lint-test.js"
         else match lookup "targetExtension" props with
              | Some v => v
              | None => VStr "scss"
              end.
Proof.
  intros Hnode Hcall Hno Hgen. unfold ScssLinter.
  rewrite Hnode, Hcall. simpl.
  destruct (copy_options_plain props (keys props)
              (set "options" (VObj props) [])) as
    [this' [Hrun [Hopt [Hin Hout]]]]; [reflexivity | exact Hno |].
  simpl in Hrun. rewrite Hrun. simpl.
  assert (Hg : this_get this' "testGenerator"
               = or_undefined (lookup "testGenerator" props)).
  { rewrite (copied_option props this' "testGenerator" Hin Hout); [|discriminate].
    destruct (lookup "testGenerator" props); reflexivity. }
  rewrite Hg.
  destruct (String.eqb (typeof (or_undefined (lookup "testGenerator" props)))
              "string") eqn:G.
  { apply String.eqb_eq in G. contradiction. }
  simpl. rewrite Hg.
  destruct (truthy (or_undefined (lookup "testGenerator" props))) eqn:T.
  - eexists. split; [reflexivity|]. split.
    { rewrite this_get_set_neq; [exact Hopt | discriminate]. }
    split.
    + intros k v Hk L. rewrite this_get_set_neq; [|congruence].
      rewrite (Hin _ (lookup_in_keys _ _ _ L)), L. reflexivity.
    + apply this_get_set_eq.
  - exists this'. split; [reflexivity|]. split; [exact Hopt|]. split.
    + intros k v Hk L. rewrite (Hin _ (lookup_in_keys _ _ _ L)), L. reflexivity.
    + rewrite (copied_option props this' "targetExtension" Hin Hout); [|discriminate].
      destruct (lookup "targetExtension" props); reflexivity.
Qed.

Lemma copy_options_app (ks1 ks2 : list string) (this : instance) :
  copy_options (ks1 ++ ks2)%list this
  = (this' <- copy_options ks1 this ;; copy_options ks2 this').
Proof.
  revert this. induction ks1 as [|k ks1 IH]; intros this; [reflexivity|].
  cbn [app copy_options]. destruct (get (this_get this "options") k) as [e|v];
    [reflexivity|]. cbn [rbind]. apply IH.
Qed.

Lemma lookup_app_l (key : string) (v : value) (l1 l2 : list (string * value)) :
  lookup key l1 = Some v -> lookup key (l1 ++ l2)%list = Some v.
Proof.
  induction l1 as [|[k w] l1 IH]; simpl; [discriminate|].
  destruct (String.eqb k key); [tauto | exact IH].
Qed.

Lemma lookup_app_r (key : string) (l1 l2 : list (string * value)) :
  ~ In key (keys l1) -> lookup key (l1 ++ l2)%list = lookup key l2.
Proof.
  induction l1 as [|[k w] l1 IH]; simpl; intros H; [reflexivity|].
  destruct (String.eqb k key) eqn:E.
  - apply String.eqb_eq in E. elim H. now left.
  - apply IH. tauto.
Qed.

Lemma NoDup_app_disjoint {A} (l1 l2 : list A) :
  NoDup (l1 ++ l2)%list -> forall a, In a l1 -> ~ In a l2.
Proof.
  induction l1 as [|x l1 IH]; cbn [app]; intros H a I; [contradiction|].
  inversion H as [|? ? Hx Hnd]; subst. destruct I as [<- | I].
  - intros J. apply Hx, in_or_app. now right.
  - now apply IH.
Qed.

(** X4.  A configuration with a key [options] that holds an object.
    The copy loop reads [this.options] at every turn: the options listed
    before [options] are copied from the configuration, the stored
    options become the inner object, and every option listed after
    [options] is read from the inner object (and is [undefined] when the
    inner object does not have it), not from the configuration. *)
Theorem ScssLinter_reads_inner_options (inputNode : value)
    (pre post inner : list (string * value)) :
  typeof inputNode = "object" ->
  Filter_call inputNode = ok tt ->
  NoDup (keys (pre ++ ("options", VObj inner) :: post)%list) ->
  ~ In "testGenerator" (keys pre) ->
  typeof (or_undefined (lookup "testGenerator" inner)) <> "string" ->
  exists this,
    ScssLinter inputNode (VObj (pre ++ ("options", VObj inner) :: post)%list)
    = ok this
    /\ this_get this "options" = VObj inner
    /\ (forall k v, k <> "targetExtension" -> lookup k pre = Some v ->
                    this_get this k = v)
    /\ (forall k, k <> "targetExtension" -> In k (keys post) ->
                  this_get this k = or_undefined (lookup k inner)).
Proof.
  intros Hnode Hcall Hnd Hpre Hgen.
  set (config := (pre ++ ("options", VObj inner) :: post)%list) in *.
  assert (Hkeys : keys config = (keys pre ++ "options" :: keys post)%list).
  { unfold config, keys. now rewrite map_app. }
  rewrite Hkeys in Hnd.
  assert (Hno1 : ~ In "options" (keys pre)).
  { intros I. apply NoDup_remove_2 in Hnd. apply Hnd, in_or_app. now left. }
  assert (Hno2 : ~ In "options" (keys post)).
  { intros I. apply NoDup_remove_2 in Hnd. apply Hnd, in_or_app. now right. }
  assert (Hdisjoint : forall k, In k (keys pre) -> ~ In k (keys post)).
  { intros k I J. apply NoDup_remove_1 in Hnd.
    exact (NoDup_app_disjoint _ _ Hnd k I J). }
  unfold ScssLinter. rewrite Hnode, Hcall.
  cbn [negb String.eqb rbind ok]. change (String.eqb "object" "object") with true.
  cbv iota. rewrite this_get_set_eq. cbn [object_keys rbind ok].
  rewrite Hkeys, copy_options_app.
  destruct (copy_options_plain config (keys pre) (set "options" (VObj config) []))
    as [this1 [Hrun1 [Hopt1 [Hin1 Hout1]]]];
    [apply this_get_set_eq | exact Hno1 |].
  rewrite Hrun1. cbn [rbind ok copy_options]. rewrite Hopt1. cbn [get ok rbind].
  assert (Hinner : lookup "options" config = Some (VObj inner)).
  { unfold config. rewrite lookup_app_r by exact Hno1. reflexivity. }
  rewrite Hinner. cbn [or_undefined].
  destruct (copy_options_plain inner (keys post) (set "options" (VObj inner) this1))
    as [this3 [Hrun3 [Hopt3 [Hin3 Hout3]]]];
    [apply this_get_set_eq | exact Hno2 |].
  rewrite Hrun3. cbn [rbind ok].
  assert (Hg : typeof (this_get this3 "testGenerator") <> "string").
  { destruct (in_dec string_dec "testGenerator" (keys post)) as [I|I].
    - rewrite (Hin3 _ I). exact Hgen.
    - rewrite (Hout3 _ I). rewrite this_get_set_neq by discriminate.
      rewrite (Hout1 _ Hpre). discriminate. }
  apply String.eqb_neq in Hg. rewrite Hg. cbn [rbind ok].
  assert (Hfrom_pre : forall k v, lookup k pre = Some v -> this_get this3 k = v).
  { intros k v L. pose proof (lookup_in_keys _ _ _ L) as I.
    rewrite (Hout3 _ (Hdisjoint _ I)).
    rewrite this_get_set_neq by (intros <-; contradiction).
    rewrite (Hin1 _ I). unfold config. now rewrite (lookup_app_l _ _ _ _ L). }
  destruct (truthy (this_get this3 "testGenerator")).
  - eexists. split; [reflexivity|]. split.
    { rewrite this_get_set_neq by discriminate. exact Hopt3. }
    split.
    + intros k v Hk L. rewrite this_get_set_neq by congruence.
      now apply Hfrom_pre.
    + intros k Hk I. rewrite this_get_set_neq by congruence. now apply Hin3.
  - exists this3. split; [reflexivity|]. split; [exact Hopt3|]. split.
    + intros k v _ L. now apply Hfrom_pre.
    + intros k _ I. now apply Hin3.
Qed.

End FurtherConstruction.

Section FurtherCacheKey.
Context {host : Host}.

Lemma hex_digit_is_hex (x : Z) : is_hex_digit (Md5.hex_digit x) = true.
Proof.
  unfold Md5.hex_digit. generalize (Z.to_nat x). intros n.
  do 16 (destruct n as [|n]; [reflexivity|]). destruct n; reflexivity.
Qed.

Lemma concat_cons (x : string) (l : list string) :
  String.concat "" (x :: l) = (x ++ String.concat "" l)%string.
Proof. destruct l; simpl; [now rewrite append_nil_r | reflexivity]. Qed.

Lemma hex_bytes_text (l : list Z) :
  String.length (String.concat "" (map Md5.hex_byte l)) = (2 * List.length l)%nat
  /\ all_chars is_hex_digit (String.concat "" (map Md5.hex_byte l)) = true.
Proof.
  induction l as [|x l [IHlen IHall]]; [split; reflexivity|].
  cbn [map]. rewrite concat_cons. unfold Md5.hex_byte at 1 3.
  cbn [append String.length all_chars List.length].
  rewrite !hex_digit_is_hex, IHall, IHlen. split; [lia | reflexivity].
Qed.

Lemma hexdigest_text (h : Md5.hash) :
  String.length (Md5.hexdigest h) = 32%nat
  /\ all_chars is_hex_digit (Md5.hexdigest h) = true.
Proof.
  unfold Md5.hexdigest, Md5.hex.
  destruct (hex_bytes_text
              (Md5.le_bytes 4 (Md5.sa (Md5.digest (Md5.bytes_of_string h)))
               ++ Md5.le_bytes 4 (Md5.sb (Md5.digest (Md5.bytes_of_string h)))
               ++ Md5.le_bytes 4 (Md5.sc (Md5.digest (Md5.bytes_of_string h)))
               ++ Md5.le_bytes 4 (Md5.sd (Md5.digest (Md5.bytes_of_string h)))))
    as [Hlen Hall].
  split; [|exact Hall]. rewrite Hlen.
  unfold Md5.le_bytes. rewrite !length_app, !length_map, !length_seq. reflexivity.
Qed.

(** X5.  When the stored options are an object and the linter resolves
    the configuration to an object, the cache key is computed, and it is
    a text of 32 lower-case hexadecimal digits. *)
Theorem cacheKey_is_hex_digest (this : instance) (content relativePath : string)
    (props resolved : list (string * value)) :
  this_get this "options" = VObj props ->
  getConfig this = ok (VObj resolved) ->
  exists key,
    cacheKeyProcessString this content relativePath = ok key
    /\ String.length key = 32%nat
    /\ all_chars is_hex_digit key = true.
Proof.
  intros Ho Hc. rewrite cacheKey_is_digest. unfold hash_input.
  rewrite Hc, Ho. cbn [rbind]. unfold StableStringify.stringify.
  rewrite !stringify_object. cbn [rbind].
  eexists. split; [reflexivity|]. apply hexdigest_text.
Qed.

(** The replacer of the options acts on the nodes that are not arrays or
    objects, and makes a function a string. *)
Lemma stringify_functions_as_text (v : value) :
  forall key,
    StableStringify.stringify_node functionStringifier key v
    = StableStringify.stringify_node StableStringify.default_replacer key
        (functions_as_text v).
Proof.
  induction v as [| |b|n|s|src|name src|items IH|props IH] using value_induction;
    intros key; try reflexivity.
  - unfold functions_as_text. cbn [map_leaves].
    rewrite !stringify_array_items. do 4 f_equal. generalize 0%nat.
    induction IH as [|x items Hx _ IHitems]; intros i; [reflexivity|].
    cbn [item_texts map]. rewrite Hx, IHitems. reflexivity.
  - unfold functions_as_text. cbn [map_leaves].
    rewrite !stringify_object. do 6 f_equal.
    induction IH as [|e props He _ IHprops]; [reflexivity|].
    cbn [map fst snd]. rewrite He, IHprops. reflexivity.
Qed.

(** X6.  A function among the options enters the cache key as its
    source text: two stored options that are the same value once every
    function is replaced by its source text (a function here, a string
    with that text there) give the same key, for the same resolved
    configuration. *)
Theorem cacheKey_functions_as_text (this1 this2 : instance)
    (content relativePath : string) :
  functions_as_text (this_get this1 "options")
  = functions_as_text (this_get this2 "options") ->
  getConfig this1 = getConfig this2 ->
  cacheKeyProcessString this1 content relativePath
  = cacheKeyProcessString this2 content relativePath.
Proof.
  intros Ho Hc. unfold cacheKeyProcessString, StableStringify.stringify.
  rewrite !stringify_functions_as_text, Ho, Hc. reflexivity.
Qed.

End FurtherCacheKey.

Section FurtherIgnore.
Context {host : Host}.

(** X7.  A resolved configuration without [files] (the property is
    absent, [undefined] or [null]) makes [shouldIgnore] throw a TypeError
    before the matcher is called, and [getDestFilePath] throws with it:
    neither returns an answer for the file. *)
Theorem shouldIgnore_needs_files (this : instance) (relativePath : string)
    (config files : value) :
  getConfig this = ok config ->
  get config "files" = ok files ->
  files = VUndefined \/ files = VNull ->
  exists msg,
    shouldIgnore this relativePath = ([], throw (TypeError msg))
    /\ getDestFilePath this relativePath = ([], throw (TypeError msg)).
Proof.
  intros Hc Hf Hfiles. unfold getDestFilePath, shouldIgnore.
  rewrite Hc. cbn [lift mbind ok]. rewrite Hf. cbn [lift mbind app ok].
  destruct Hfiles as [-> | ->]; cbn; eexists; split; reflexivity.
Qed.

(** X8.  In a sequence of ignore patterns, an element that is not a
    string is handed to the matcher when no glob before it matches the
    path: [shouldIgnore] then throws the TypeError of the matcher, after
    the calls for the globs before the element and for the element, and
    [getDestFilePath] throws with it.  When a glob before the element
    matches, the element is never looked at. *)
Theorem shouldIgnore_bad_pattern (this : instance) (relativePath : string)
    (config files : value) (pre post : list value) (x : value) :
  getConfig this = ok config ->
  get config "files" = ok files ->
  get files "ignore" = ok (VArr (pre ++ x :: post)%list) ->
  Forall is_glob pre ->
  typeof x <> "string" ->
  (existsb (matches_glob relativePath) pre = false ->
   shouldIgnore this relativePath
   = (map (Minimatch relativePath) (pre ++ [x])%list,
      throw (TypeError "glob pattern string required"))
   /\ getDestFilePath this relativePath
      = (map (Minimatch relativePath) (pre ++ [x])%list,
         throw (TypeError "glob pattern string required")))
  /\ (existsb (matches_glob relativePath) pre = true ->
      shouldIgnore this relativePath
      = (map (Minimatch relativePath) (up_to_first_match relativePath pre),
         ok true)).
Proof.
  intros Hc Hf Hi Hpre Hx.
  assert (Hrun : shouldIgnore this relativePath
                 = any_match relativePath (pre ++ x :: post)%list).
  { unfold shouldIgnore. rewrite Hc. cbn [lift mbind ok]. rewrite Hf.
    cbn [lift mbind app ok]. rewrite Hi. cbn [lift mbind app typeof ok].
    change (String.eqb "object" "string") with false. cbv iota.
    rewrite length_app. cbn [List.length].
    replace (Nat.ltb 0 (List.length pre + S (List.length post))) with true
      by (symmetry; apply Nat.ltb_lt; lia).
    destruct (any_match relativePath (pre ++ x :: post)%list) as [t r].
    reflexivity. }
  split.
  - intros Hno. unfold getDestFilePath. rewrite Hrun.
    rewrite (any_match_not_a_glob relativePath pre post x Hpre Hno Hx).
    split; reflexivity.
  - intros Hyes. rewrite Hrun. clear Hrun Hi.
    induction Hpre as [|y pre [glob ->] _ IH]; [discriminate|].
    cbn [app any_match call_minimatch mbind existsb matches_glob
         up_to_first_match] in *.
    destruct (minimatch relativePath glob) eqn:Hm; [reflexivity|].
    cbn [orb] in Hyes. rewrite (IH Hyes). reflexivity.
Qed.

End FurtherIgnore.

Section FurtherProcess.
Context {host : Host}.

(** X9.  From the report of the linter to the test stub and the
    display, for a filter whose test generator is the QUnit or the Mocha
    generator and a report with an error count that is absent or an
    integer and an array of message objects.  [processString] followed
    by [postProcess] gives the stub of the style as the only output: the
    stub passes exactly when the error count is zero or absent, and its
    message block is the header, an empty line and the formatted
    messages.  The report is handed to [outputResults] exactly when the
    stub fails or the warning count is truthy: a file with warnings only
    has a passing stub and is displayed. *)
Theorem lint_then_postProcess (this : instance) (content relativePath : string)
    (callback : string -> bool -> string -> string)
    (report : list (string * value)) (count : option Z) (items : list value) :
  (this_get this "testGenerator" = TestGenerators.qunit
   /\ callback = TestGenerators.qunitString)
  \/ (this_get this "testGenerator" = TestGenerators.mocha
      /\ callback = TestGenerators.mochaString) ->
  lintText this content relativePath = ok (VObj report) ->
  errorCount_is report count ->
  lookup "messages" report = Some (VArr items) ->
  Forall is_object items ->
  exists results,
    processString this content relativePath = ok results
    /\ postProcess this results
       = ((if negb (zero_or_absent count)
              || truthy (or_undefined (lookup "warningCount" report))
           then [ OutputResults (VArr [VObj report]) (this_get this "options")
                    (this_get this "config") ]
           else []),
          ok (VObj [ ("output",
                      VStr (callback relativePath (zero_or_absent count)
                              (relativePath ++ " should pass sass-lint"
                               ++ TestGenerators.newline ++ TestGenerators.newline
                               ++ String.concat TestGenerators.newline
                                    (map format_message items)))) ])).
Proof.
  intros Hg Hl Hc Hm Hitems.
  assert (Hstub : forall cb,
             TestGenerators.testGenerator cb relativePath (VArr items) (VObj report)
             = ok (cb relativePath (zero_or_absent count)
                     (relativePath ++ " should pass sass-lint"
                      ++ TestGenerators.newline ++ TestGenerators.newline
                      ++ String.concat TestGenerators.newline
                           (map format_message items)))).
  { intros cb. unfold TestGenerators.testGenerator.
    rewrite (passed_of_count report count Hc). cbn [rbind ok].
    rewrite (messages_of_array relativePath report items Hm Hitems).
    reflexivity. }
  assert (Hrun : processString this content relativePath
                 = ok (VObj [ ("report", VObj report);
                              ("output",
                               VStr (callback relativePath (zero_or_absent count)
                                       (relativePath ++ " should pass sass-lint"
                                        ++ TestGenerators.newline
                                        ++ TestGenerators.newline
                                        ++ String.concat TestGenerators.newline
                                             (map format_message items)))) ])).
  { unfold processString. rewrite Hl. cbn [rbind ok get]. rewrite Hm.
    cbn [or_undefined isArray].
    destruct Hg as [[Hg ->] | [Hg ->]]; rewrite Hg; cbn [truthy];
      unfold call_testGenerator, TestGenerators.qunit, TestGenerators.mocha;
      cbn [String.eqb Ascii.eqb Bool.eqb]; rewrite Hstub; reflexivity. }
  eexists. split; [exact Hrun|].
  assert (He : truthy (or_undefined (lookup "errorCount" report))
               = negb (zero_or_absent count)).
  { destruct count as [n|]; simpl in Hc; rewrite Hc; reflexivity. }
  rewrite <- He.
  destruct (truthy (or_undefined (lookup "errorCount" report))) eqn:E1;
    [|destruct (truthy (or_undefined (lookup "warningCount" report))) eqn:E2];
    unfold postProcess, outputResults; cbn; rewrite ?E1; cbn; rewrite ?E1, ?E2;
    reflexivity.
Qed.

Lemma remove_first_dot_app (a b : string) :
  no_dot a = true -> remove_first_dot (a ++ String "."%char b) = a ++ b.
Proof.
  unfold no_dot. induction a as [|c a IH]; [reflexivity|].
  cbn [all_chars append remove_first_dot].
  intros H. apply andb_true_iff in H as [Hc Ha].
  destruct (Ascii.eqb c "."%char); [discriminate Hc|]. now rewrite (IH Ha).
Qed.

(** X10.  The format that [lintText] hands to the linter is the
    extension of the path without its dot: the first dot of what
    [path.extname] returns is removed, what follows it is kept as it
    is, and the content and the path are passed on with the stored
    options and config path. *)
Theorem lintText_format (this : instance) (content relativePath : string)
    (before extension : string) :
  no_dot before = true ->
  path_extname relativePath = before ++ "." ++ extension ->
  lintText this content relativePath
  = linter_lintText
      (VObj [ ("text", VStr content);
              ("format", VStr (before ++ extension));
              ("filename", VStr relativePath) ])
      (this_get this "options") (this_get this "config").
Proof.
  intros Hb He. unfold lintText. rewrite He.
  change (before ++ "." ++ extension) with (before ++ String "."%char extension).
  rewrite (remove_first_dot_app _ _ Hb). reflexivity.
Qed.

End FurtherProcess.

Section FurtherGenerators.

Ltac each_char c := destruct c as [[] [] [] [] [] [] [] []].

(** An escaped character is read back as the character. *)
Lemma literal_value_escape_char (c : ascii) (X : string) :
  is_char 226 c && separator_tail X = false ->
  literal_value (TestGenerators.escape_char c ++ X)
  = option_map (String c) (literal_value X).
Proof.
  intros H. each_char c; try reflexivity.
  change (literal_value (TestGenerators.escape_char "226"%char ++ X))
    with (if is_char 226 "226"%char && separator_tail X then None
          else option_map (String "226"%char) (literal_value X)).
  rewrite H. reflexivity.
Qed.

(** The first character of an escaped text that does not start with a
    backslash is the first character of the text. *)
Lemma jsStringEscape_head (s : string) (a : ascii) (Y : string) :
  TestGenerators.jsStringEscape s = String a Y ->
  is_char 92 a = false ->
  exists rest, s = String a rest /\ Y = TestGenerators.jsStringEscape rest.
Proof.
  intros H Ha. destruct s as [|c rest]; [discriminate|].
  assert (Hplain : TestGenerators.escape_char c ++ TestGenerators.jsStringEscape rest
                   = String a Y ->
                   exists rest0, String c rest = String a rest0
                                 /\ Y = TestGenerators.jsStringEscape rest0).
  { clear H. intros H. exists rest.
    each_char c; cbn [TestGenerators.escape_char append] in H;
      injection H as <- <-; try discriminate Ha; split; reflexivity. }
  cbn [TestGenerators.jsStringEscape] in H.
  destruct rest as [|c1 [|c2 rest']]; try (apply Hplain; exact H).
  destruct (TestGenerators.is_separator c c1 c2 168).
  { injection H as <- _. discriminate Ha. }
  destruct (TestGenerators.is_separator c c1 c2 169).
  { injection H as <- _. discriminate Ha. }
  apply Hplain. exact H.
Qed.

Lemma jsStringEscape_separator_tail (s : string) :
  separator_tail (TestGenerators.jsStringEscape s) = true -> separator_tail s = true.
Proof.
  intros H. destruct (TestGenerators.jsStringEscape s) as [|a [|b Y]] eqn:E;
    try discriminate H.
  cbn [separator_tail] in H. apply andb_true_iff in H as [Ha Hb].
  assert (Ha' : is_char 92 a = false).
  { unfold is_char in *. apply Nat.eqb_eq in Ha. rewrite Ha. reflexivity. }
  destruct (jsStringEscape_head s a (String b Y) E Ha') as [rest [-> E']].
  assert (Hb' : is_char 92 b = false).
  { unfold is_char in *. apply orb_true_iff in Hb as [Hb|Hb];
      apply Nat.eqb_eq in Hb; rewrite Hb; reflexivity. }
  destruct (jsStringEscape_head rest b Y (eq_sym E') Hb') as [rest' [-> _]].
  cbn [separator_tail]. now rewrite Ha, Hb.
Qed.

Lemma is_char_eq (n : nat) (c : ascii) : is_char n c = true -> c = ascii_of_nat n.
Proof.
  unfold is_char. intros H. apply Nat.eqb_eq in H. rewrite <- H.
  now rewrite ascii_nat_embedding.
Qed.

Lemma literal_value_jsStringEscape (n : nat) :
  forall s, (String.length s <= n)%nat ->
            literal_value (TestGenerators.jsStringEscape s) = Some s.
Proof.
  induction n as [|n IH]; intros s Hlen.
  - destruct s; [reflexivity | simpl in Hlen; lia].
  - destruct s as [|c rest]; [reflexivity|]. cbn [String.length] in Hlen.
    assert (Hplain : is_char 226 c && separator_tail rest = false ->
                     literal_value (TestGenerators.escape_char c
                                    ++ TestGenerators.jsStringEscape rest)
                     = Some (String c rest)).
    { intros H. rewrite literal_value_escape_char.
      - rewrite IH by lia. reflexivity.
      - destruct (is_char 226 c); [|reflexivity]. cbn [andb] in *.
        destruct (separator_tail (TestGenerators.jsStringEscape rest)) eqn:E;
          [|reflexivity].
        apply jsStringEscape_separator_tail in E. congruence. }
    cbn [TestGenerators.jsStringEscape].
    destruct rest as [|c1 [|c2 rest']].
    + apply Hplain. cbn [separator_tail]. apply andb_false_r.
    + apply Hplain. cbn [separator_tail]. apply andb_false_r.
    + cbn [String.length] in Hlen.
      unfold TestGenerators.is_separator.
      change (Nat.eqb (nat_of_ascii c) 226) with (is_char 226 c).
      change (Nat.eqb (nat_of_ascii c1) 128) with (is_char 128 c1).
      change (Nat.eqb (nat_of_ascii c2) 168) with (is_char 168 c2).
      change (Nat.eqb (nat_of_ascii c2) 169) with (is_char 169 c2).
      destruct (is_char 226 c) eqn:E0; [|apply Hplain; reflexivity].
      destruct (is_char 128 c1) eqn:E1;
        [|apply Hplain; cbn [separator_tail]; rewrite E1; reflexivity].
      apply is_char_eq in E0, E1. subst c c1.
      destruct (is_char 168 c2) eqn:E2.
      { apply is_char_eq in E2. subst c2. cbn [andb].
        change (literal_value
                  (TestGenerators.backslash ++ "u2028"
                   ++ TestGenerators.jsStringEscape rest'))
          with (match literal_value (TestGenerators.jsStringEscape rest') with
                | Some t => Some (utf8 8232 ++ t)
                | None => None
                end).
        rewrite IH by lia. reflexivity. }
      destruct (is_char 169 c2) eqn:E3.
      { apply is_char_eq in E3. subst c2. cbn [andb].
        change (literal_value
                  (TestGenerators.backslash ++ "u2029"
                   ++ TestGenerators.jsStringEscape rest'))
          with (match literal_value (TestGenerators.jsStringEscape rest') with
                | Some t => Some (utf8 8233 ++ t)
                | None => None
                end).
        rewrite IH by lia. reflexivity. }
      cbn [andb]. apply Hplain. cbn [separator_tail andb].
      rewrite E2, E3. reflexivity.
Qed.

(** X11.  The text that the generators put between quotes is a string
    literal for the text they were given: [jsStringEscape] leaves no
    quote without a backslash and no line terminator, and the literal
    denotes the text itself, whatever characters it has.  Two different
    texts are never escaped alike. *)
Theorem jsStringEscape_denotes (s : string) :
  literal_value (TestGenerators.jsStringEscape s) = Some s
  /\ (forall s', TestGenerators.jsStringEscape s = TestGenerators.jsStringEscape s' ->
                 s = s').
Proof.
  split; [apply (literal_value_jsStringEscape (String.length s)); lia|].
  intros s' H.
  assert (E : Some s = Some s').
  { rewrite <- (literal_value_jsStringEscape (String.length s) s) by lia.
    rewrite H. apply (literal_value_jsStringEscape (String.length s')). lia. }
  now injection E.
Qed.

End FurtherGenerators.

Section FurtherReports.

Lemma passed_of_returns (props : list (string * value)) :
  exists passed, TestGenerators.passed_of (VObj props) = ok passed.
Proof.
  unfold TestGenerators.passed_of. cbn [get rbind ok].
  destruct (or_undefined (lookup "errorCount" props)) as [| |b|n|s|src|name src|items|ps];
    cbn; try (eexists; reflexivity).
  - destruct b; eexists; reflexivity.
  - destruct n as [z| |]; cbn; try (eexists; reflexivity).
    destruct (Z.eqb z 0); eexists; reflexivity.
  - destruct (String.eqb s ""); eexists; reflexivity.
Qed.

Lemma renderLine_readable (m : value) :
  (readable m -> exists line, TestGenerators.renderLine m = ok line)
  /\ (~ readable m -> exists msg, TestGenerators.renderLine m = throw (TypeError msg)).
Proof.
  unfold readable. split.
  - intros [Hu Hn]. destruct m; try contradiction; eexists; reflexivity.
  - intros H. destruct m;
      try (exfalso; apply H; split; discriminate); eexists; reflexivity.
Qed.

Lemma map_renderLine_readable (items : list value) :
  (Forall readable items ->
   exists lines, TestGenerators.map_renderLine items = ok lines)
  /\ (~ Forall readable items ->
      exists msg, TestGenerators.map_renderLine items = throw (TypeError msg)).
Proof.
  induction items as [|m items [IHok IHno]]; cbn [TestGenerators.map_renderLine].
  - split; [eexists; reflexivity|]. intros H. elim H. constructor.
  - destruct (renderLine_readable m) as [Hok Hno]. split.
    + intros H. inversion H as [|? ? Hm Hitems]; subst.
      destruct (Hok Hm) as [line ->]. destruct (IHok Hitems) as [lines ->].
      eexists. reflexivity.
    + intros H.
      assert (Hm : readable m \/ ~ readable m).
      { unfold readable. destruct m; try (left; split; discriminate);
          right; intros [Hu Hn]; congruence. }
      destruct Hm as [Hm | Hm].
      * destruct (Hok Hm) as [line ->]. cbn [rbind].
        destruct IHno as [msg ->]; [|eexists; reflexivity].
        intros Hitems. apply H. now constructor.
      * destruct (Hno Hm) as [msg ->]. eexists. reflexivity.
Qed.

(** X12.  When a generator returns.  For a report object whose
    messages are not an object with a [map] property of its own, the
    generator returns a test stub exactly when the report has no
    messages (the property is absent or falsy) or its messages are an
    array without [undefined] and [null] elements; for every other
    report (messages that are not an array, a missing message) it throws
    a TypeError. *)
Theorem testGenerator_returns_iff (callback : string -> bool -> string -> string)
    (relativePath : string) (errors : value) (props : list (string * value)) :
  (forall ps, lookup "messages" props = Some (VObj ps) -> lookup "map" ps = None) ->
  ((exists stub,
       TestGenerators.testGenerator callback relativePath errors (VObj props)
       = ok stub)
   <-> (truthy (or_undefined (lookup "messages" props)) = false
        \/ exists items, lookup "messages" props = Some (VArr items)
                         /\ Forall readable items))
  /\ (forall e,
        TestGenerators.testGenerator callback relativePath errors (VObj props)
        = throw e ->
        exists msg, e = TypeError msg).
Proof.
  intros _. unfold TestGenerators.testGenerator.
  destruct (passed_of_returns props) as [passed ->]. cbn [rbind].
  unfold TestGenerators.messages_of. cbn [get rbind ok].
  destruct (lookup "messages" props) as [m|] eqn:L; cbn [or_undefined];
    [|split; [split; [now left | eexists; reflexivity] | discriminate]].
  destruct (truthy m) eqn:T;
    [|split; [split; [now left | eexists; reflexivity] | discriminate]].
  destruct m as [| |b|n|s|src|name src|items|ps];
    try discriminate T;
    try (split;
         [split; [intros [stub H]; discriminate H
                 | intros [H | [items [H _]]]; discriminate H]
         | intros e [= <-]; eexists; reflexivity]).
  cbn [TestGenerators.render].
  destruct (map_renderLine_readable items) as [Hok Hno]. split.
  - split.
    + intros [stub H]. right. exists items. split; [reflexivity|].
      destruct (Forall_dec readable) with (l := items) as [F|F]; [|exact F|].
      * intros x. unfold readable.
        destruct x; try (left; split; discriminate);
          right; intros [Hu Hn]; congruence.
      * destruct (Hno F) as [msg E]. rewrite E in H. discriminate H.
    + intros [H | [items' [[= <-] F]]]; [discriminate H|].
      destruct (Hok F) as [lines ->]. eexists. reflexivity.
  - intros e H.
    destruct (Forall_dec readable) with (l := items) as [F|F].
    + intros x. unfold readable.
      destruct x; try (left; split; discriminate);
        right; intros [Hu Hn]; congruence.
    + destruct (Hok F) as [lines E]. rewrite E in H. discriminate H.
    + destruct (Hno F) as [msg E]. rewrite E in H. injection H as <-.
      eexists. reflexivity.
Qed.

End FurtherReports.

Section FurtherLegacy.
Context {shell : Legacy.Shell}.

Lemma lookup_remove_eq (key : string) (props : list (string * value)) :
  lookup key (remove key props) = None.
Proof.
  induction props as [|[k w] props IH]; simpl; [reflexivity|].
  destruct (String.eqb k key) eqn:E; simpl; [exact IH | now rewrite E].
Qed.

Lemma lookup_remove_neq (key key' : string) (props : list (string * value)) :
  key <> key' -> lookup key' (remove key props) = lookup key' props.
Proof.
  intros Hne. induction props as [|[k w] props IH]; simpl; [reflexivity|].
  destruct (String.eqb k key) eqn:E; simpl.
  - apply String.eqb_eq in E. subst k. apply String.eqb_neq in Hne.
    now rewrite Hne.
  - now rewrite IH.
Qed.

Lemma remove_absent (key : string) (props : list (string * value)) :
  lookup key props = None -> remove key props = props.
Proof.
  induction props as [|[k w] props IH]; simpl; [reflexivity|].
  destruct (String.eqb k key); [discriminate|]. intros H. now rewrite IH.
Qed.

Lemma in_remove (key : string) (e : string * value) (props : list (string * value)) :
  In e (remove key props) -> In e props /\ fst e <> key.
Proof.
  induction props as [|[k w] props IH]; simpl; [tauto|].
  destruct (String.eqb k key) eqn:E.
  - intros H. destruct (IH H). tauto.
  - intros [<- | H].
    + split; [now left|]. simpl. now apply String.eqb_neq.
    + destruct (IH H). tauto.
Qed.

Lemma NoDup_remove_keys (key : string) (props : list (string * value)) :
  NoDup (keys props) -> NoDup (keys (remove key props)).
Proof.
  induction props as [|[k w] props IH]; simpl; intros H; [constructor|].
  inversion H as [|? ? Hk Hnd]; subst.
  destruct (String.eqb k key); [now apply IH|].
  simpl. constructor; [|now apply IH].
  intros Hin. apply Hk. unfold keys in *. apply in_map_iff in Hin as [e [<- He]].
  apply in_remove in He as [He _]. now apply in_map.
Qed.

Lemma lookup_NoDup (props : list (string * value)) (e : string * value) :
  NoDup (keys props) -> In e props -> lookup (fst e) props = Some (snd e).
Proof.
  induction props as [|[k w] props IH]; simpl; intros Hnd Hin; [contradiction|].
  inversion Hnd as [|? ? Hk Hnd']; subst.
  destruct Hin as [<- | Hin]; simpl.
  - now rewrite String.eqb_refl.
  - destruct (String.eqb k (fst e)) eqn:E.
    + apply String.eqb_eq in E. subst k. elim Hk. unfold keys. now apply in_map.
    + now apply IH.
Qed.

(** The parts that the loop over the keys adds to the command. *)
Lemma parts_of_options (all ps : list (string * value)) (parts : list value) :
  (forall e, In e ps -> lookup (fst e) all = Some (snd e)) ->
  fold_left (fun parts key =>
               (parts ++ [VStr ("--" ++ key)] ++ [Legacy.prop (VObj all) key])%list)
            (keys ps) parts
  = (parts ++ flat_map (fun e => [VStr ("--" ++ fst e); snd e]) ps)%list.
Proof.
  revert parts. induction ps as [|[k w] ps IH]; intros parts H; simpl.
  - now rewrite app_nil_r.
  - rewrite IH by (intros e He; apply H; now right).
    pose proof (H (k, w) (or_introl eq_refl)) as Hk. cbn [fst snd] in Hk.
    unfold Legacy.prop. cbn [get]. rewrite Hk.
    cbn [or_undefined ok snd fst]. rewrite <- app_assoc. reflexivity.
Qed.

Lemma concat_sep (sep x : string) (l : list string) :
  String.concat sep (x :: l) = x ++ String.concat "" (map (append sep) l).
Proof.
  revert x. induction l as [|y l IH]; intros x.
  - simpl. now rewrite append_nil_r.
  - change (String.concat sep (x :: y :: l))
      with (x ++ sep ++ String.concat sep (y :: l)).
    rewrite IH. cbn [map]. rewrite concat_cons. now rewrite !append_assoc.
Qed.

Lemma concat_nil_app (l1 l2 : list string) :
  String.concat "" (l1 ++ l2)%list = String.concat "" l1 ++ String.concat "" l2.
Proof.
  induction l1 as [|x l1 IH]; [reflexivity|].
  cbn [app]. rewrite !concat_cons, IH. now rewrite append_assoc.
Qed.

Lemma join_flags (ps : list (string * value)) :
  String.concat ""
    (map (append " ")
       (map (fun x => match x with
                      | VUndefined | VNull => ""
                      | _ => to_string x
                      end)
          (flat_map (fun e => [VStr ("--" ++ fst e); snd e]) ps)))
  = flags ps.
Proof.
  unfold flags. induction ps as [|[k w] ps IH]; [reflexivity|].
  cbn [flat_map app map]. rewrite !concat_cons, IH. unfold flag at 2.
  cbn [fst snd]. rewrite !append_assoc. destruct w; reflexivity.
Qed.

(** The command and the object that [_buildCommand] leaves, for an
    options object. *)
Lemma buildCommand_of_object (absolutePath : string) (props : list (string * value)) :
  NoDup (keys props) ->
  Legacy._buildCommand absolutePath (VObj props)
  = ((if truthy (or_undefined (lookup "bundleExec" props))
      then "bundle exec " else "")
     ++ "scss-lint " ++ absolutePath ++ flags (remove "bundleExec" props),
     VObj (remove "bundleExec" props)).
Proof.
  intros Hnd.
  unfold Legacy._buildCommand. cbn [truthy Legacy.delete Legacy.own_keys object_keys ok].
  change (Legacy.prop (VObj props) "bundleExec")
    with (or_undefined (lookup "bundleExec" props)).
  f_equal.
  assert (Hall : forall e, In e (remove "bundleExec" props) ->
                   lookup (fst e) (remove "bundleExec" props) = Some (snd e)).
  { intros e He. apply lookup_NoDup; [now apply NoDup_remove_keys | exact He]. }
  destruct (truthy (or_undefined (lookup "bundleExec" props)));
    rewrite (parts_of_options _ _ _ Hall); unfold join;
    rewrite map_app; cbn [map app];
    rewrite concat_sep; cbn [map]; rewrite !concat_cons, join_flags;
    rewrite ?append_assoc; reflexivity.
Qed.

(** X13.  The command that [_buildCommand] builds from an options
    object: [scss-lint], the path and a flag [--key value] for every
    option but [bundleExec], in the order of the keys; [bundle exec]
    comes first exactly when [bundleExec] is truthy.  The call leaves
    the object without the key [bundleExec], the other options as they
    were. *)
Theorem _buildCommand_shape (absolutePath : string) (props : list (string * value)) :
  NoDup (keys props) ->
  Legacy._buildCommand absolutePath (VObj props)
  = ((if truthy (or_undefined (lookup "bundleExec" props))
      then "bundle exec " else "")
     ++ "scss-lint " ++ absolutePath ++ flags (remove "bundleExec" props),
     VObj (remove "bundleExec" props))
  /\ lookup "bundleExec" (remove "bundleExec" props) = None
  /\ forall key, key <> "bundleExec" ->
                 lookup key (remove "bundleExec" props) = lookup key props.
Proof.
  intros Hnd. split; [now apply buildCommand_of_object|].
  split; [apply lookup_remove_eq|].
  intros key Hkey. apply lookup_remove_neq. congruence.
Qed.

Lemma legacy_copy_options (props : list (string * value)) (ks : list string)
    (this : Legacy.instance) (key : string) :
  Legacy.this_get
    (fold_left (fun this key => set key (Legacy.prop (VObj props) key) this) ks this)
    key
  = if in_dec string_dec key ks then or_undefined (lookup key props)
    else Legacy.this_get this key.
Proof.
  revert this. induction ks as [|k ks IH]; intros this; [reflexivity|].
  cbn [fold_left]. rewrite IH.
  destruct (in_dec string_dec key ks) as [I|I];
    destruct (in_dec string_dec key (k :: ks)) as [J|J]; try reflexivity.
  - elim J. now right.
  - destruct J as [-> | J]; [|contradiction].
    unfold Legacy.this_get. rewrite lookup_set_eq. reflexivity.
  - unfold Legacy.this_get. rewrite lookup_set_neq; [reflexivity|].
    intros ->. apply J. now left.
Qed.

(** X14.  The constructor of index.js copies the options from the
    object it was given: every option is a property of the filter object
    with its value, an option named [options] too; without such an
    option the stored options are the object itself. *)
Theorem Legacy_ScssLinter_copies (props : list (string * value)) :
  (forall key v, lookup key props = Some v ->
                 Legacy.this_get (Legacy.ScssLinter (VObj props)) key = v)
  /\ (lookup "options" props = None ->
      Legacy.this_get (Legacy.ScssLinter (VObj props)) "options" = VObj props).
Proof.
  unfold Legacy.ScssLinter, Legacy.copy_options.
  cbn [truthy Legacy.own_keys object_keys ok].
  split.
  - intros key v L. rewrite legacy_copy_options.
    destruct (in_dec string_dec key (keys props)) as [I|I].
    + now rewrite L.
    + elim I. exact (lookup_in_keys _ _ _ L).
  - intros L. rewrite legacy_copy_options.
    destruct (in_dec string_dec "options" (keys props)) as [I|I]; [|reflexivity].
    elim (lookup_none _ _ L I).
Qed.

Lemma legacy_get_set_eq (key : string) (v : value) (this : Legacy.instance) :
  Legacy.this_get (set key v this) key = v.
Proof. unfold Legacy.this_get. now rewrite lookup_set_eq. Qed.

Lemma legacy_get_set_neq (key key' : string) (v : value) (this : Legacy.instance) :
  key <> key' -> Legacy.this_get (set key v this) key' = Legacy.this_get this key'.
Proof. intros H. unfold Legacy.this_get. now rewrite lookup_set_neq. Qed.

(** X15.  What [processString] does to the filter object, for stored
    options that are an object: after the first file the stored options
    have lost the key [bundleExec] and kept the other options, and no
    other property of the filter object has changed; the first command
    has the prefix [bundle exec] when [bundleExec] was truthy, and the
    command of every later file is [scss-lint], the path and the flags,
    without the prefix. *)
Theorem processString_forgets_bundleExec (this : Legacy.instance)
    (props : list (string * value)) (c1 p1 c2 p2 : string) :
  Legacy.this_get this "options" = VObj props ->
  NoDup (keys props) ->
  Legacy.this_get (Legacy.after (Legacy.processString this c1 p1)) "options"
  = VObj (remove "bundleExec" props)
  /\ (forall key, key <> "options" ->
        Legacy.this_get (Legacy.after (Legacy.processString this c1 p1)) key
        = Legacy.this_get this key)
  /\ Legacy.command (Legacy.processString this c1 p1)
     = (if truthy (or_undefined (lookup "bundleExec" props))
        then "bundle exec " else "")
       ++ "scss-lint " ++ Legacy.absolute p1 ++ flags (remove "bundleExec" props)
  /\ Legacy.command
       (Legacy.processString (Legacy.after (Legacy.processString this c1 p1)) c2 p2)
     = "scss-lint " ++ Legacy.absolute p2 ++ flags (remove "bundleExec" props)
  /\ Legacy.this_get
       (Legacy.after
          (Legacy.processString (Legacy.after (Legacy.processString this c1 p1))
             c2 p2)) "options"
     = VObj (remove "bundleExec" props).
Proof.
  intros Ho Hnd.
  pose proof (buildCommand_of_object (Legacy.absolute p1) props Hnd) as Hb1.
  assert (Hafter : Legacy.after (Legacy.processString this c1 p1)
                   = set "options" (VObj (remove "bundleExec" props)) this).
  { rewrite processString_after, Ho, Hb1. reflexivity. }
  assert (Hopt : Legacy.this_get (Legacy.after (Legacy.processString this c1 p1))
                   "options" = VObj (remove "bundleExec" props)).
  { rewrite Hafter. apply legacy_get_set_eq. }
  pose proof (buildCommand_of_object (Legacy.absolute p2)
                (remove "bundleExec" props) (NoDup_remove_keys _ _ Hnd)) as Hb2.
  rewrite (remove_absent "bundleExec" (remove "bundleExec" props)
             (lookup_remove_eq _ _)) in Hb2.
  rewrite lookup_remove_eq in Hb2. cbn [or_undefined truthy] in Hb2.
  split; [exact Hopt|]. split.
  { intros key Hkey. rewrite Hafter. apply legacy_get_set_neq. congruence. }
  split.
  { rewrite processString_command, Ho, Hb1. reflexivity. }
  split.
  { rewrite processString_command, Hopt, Hb2. reflexivity. }
  rewrite processString_after, Hopt, Hb2. cbn [truthy snd].
  apply legacy_get_set_eq.
Qed.


Lemma substring_all (s : string) : String.substring 0 (String.length s) s = s.
Proof. induction s as [|c s IH]; simpl; [reflexivity | now rewrite IH]. Qed.

(** The text from the first occurrence of the path on. *)
Lemma index_suffix (p s : string) :
  forall n, String.index 0 p s = Some n ->
    exists pre,
      s = pre ++ String.substring n (String.length s - n) s
      /\ String.length pre = n
      /\ String.prefix p (String.substring n (String.length s - n) s) = true.
Proof.
  induction s as [|b s IH]; intros n H.
  - simpl in H. destruct p; [|discriminate]. injection H as <-.
    exists "". repeat split.
  - cbn [String.index] in H. destruct (String.prefix p (String b s)) eqn:P.
    + injection H as <-. exists "". rewrite Nat.sub_0_r, substring_all.
      repeat split. exact P.
    + destruct (String.index 0 p s) as [m|] eqn:I; [|discriminate].
      injection H as <-. destruct (IH m eq_refl) as [pre [Hs [Hlen Hp]]].
      exists (String b pre). cbn [String.length Nat.sub String.substring append].
      split; [now rewrite <- Hs|]. split; [now rewrite Hlen | exact Hp].
Qed.

Lemma from_first_suffix (p s : string) :
  (exists pre, s = pre ++ Legacy.from_first p s)
  /\ (String.index 0 p s <> None -> String.prefix p (Legacy.from_first p s) = true)
  /\ (Legacy.from_first p s = "" -> s = "").
Proof.
  unfold Legacy.from_first. destruct (String.index 0 p s) as [n|] eqn:I.
  - destruct (index_suffix p s n I) as [pre [Hs [Hlen Hp]]].
    split; [now exists pre|]. split; [intros _; exact Hp|].
    intros E. rewrite E in Hp. destruct p; [|discriminate Hp].
    destruct s as [|b s]; [reflexivity|]. cbn in I. injection I as <-.
    cbn in E. discriminate E.
  - split; [exists ""; reflexivity|]. split; [congruence | tauto].
Qed.

(** What [processString] returns, from the answer of the shell. *)
Lemma processString_returned (this : Legacy.instance) (content relativePath : string) :
  Legacy.returned (Legacy.processString this content relativePath)
  = let answer :=
      Legacy.shell_exec
        (fst (Legacy._buildCommand (Legacy.absolute relativePath)
                (Legacy.this_get this "options"))) in
    let after := Legacy.after (Legacy.processString this content relativePath) in
    let passed := Nat.leb (String.length (fst answer)) 0 in
    let errors := Legacy.from_first relativePath (fst answer) in
    if Z.eqb (snd answer) 2
    then throw (Error "There are errors in your SCSS files")
    else ok (VObj [ ("output",
                     VStr (if negb (truthy (Legacy.this_get after
                                              "disableTestGenerator"))
                           then Legacy.testGenerator after relativePath passed errors
                           else ""));
                    ("passed", VBool passed);
                    ("errors", VStr errors) ]).
Proof.
  unfold Legacy.processString.
  destruct (Legacy._buildCommand _ _) as [cmd options]. cbn [fst].
  destruct (Legacy.shell_exec cmd) as [stdout code]. cbn [fst snd].
  destruct (Z.eqb code 2); reflexivity.
Qed.

Lemma from_first_nothing (p : string) : Legacy.from_first p "" = "".
Proof.
  unfold Legacy.from_first. destruct (String.index 0 p "") as [[|n]|]; reflexivity.
Qed.

Lemma passed_iff_silent (stdout : string) :
  Nat.leb (String.length stdout) 0 = String.eqb stdout "".
Proof. destruct stdout; reflexivity. Qed.

(** X16.  The result of [processString] in index.js, from the answer of
    the shell to the command.  Exit code 2 makes it throw, whatever was
    printed; with any other exit code it returns, the file has passed
    exactly when nothing was printed, and the errors are the printed
    text from the first occurrence of the path on (all of it when the
    path does not occur): a part of the printed text that is empty only
    when nothing was printed. *)
Theorem processString_result (this : Legacy.instance) (content relativePath : string)
    (stdout : string) (code : Z) :
  Legacy.shell_exec (Legacy.command (Legacy.processString this content relativePath))
  = (stdout, code) ->
  (code = 2%Z ->
   Legacy.returned (Legacy.processString this content relativePath)
   = throw (Error "There are errors in your SCSS files"))
  /\ (code <> 2%Z ->
      exists output errors,
        Legacy.returned (Legacy.processString this content relativePath)
        = ok (VObj [ ("output", VStr output);
                     ("passed", VBool (String.eqb stdout ""));
                     ("errors", VStr errors) ])
        /\ errors = Legacy.from_first relativePath stdout
        /\ (exists before, stdout = before ++ errors)
        /\ (String.index 0 relativePath stdout <> None ->
            String.prefix relativePath errors = true)
        /\ (errors = "" <-> stdout = "")).
Proof.
  intros Hexec. rewrite processString_command in Hexec.
  rewrite processString_returned, Hexec. cbn [fst snd]. cbv zeta. split.
  - intros ->. reflexivity.
  - intros Hcode. apply Z.eqb_neq in Hcode. rewrite Hcode.
    rewrite passed_iff_silent.
    eexists. exists (Legacy.from_first relativePath stdout).
    destruct (from_first_suffix relativePath stdout) as [Hpre [Hp He]].
    split; [reflexivity|].
    split; [reflexivity|]. split; [exact Hpre|]. split; [exact Hp|].
    split; [exact He | intros ->; apply from_first_nothing].
Qed.

(** X17.  Linting a file and post-processing the result in index.js:
    when the shell answers with an exit code other than 2,
    [postProcess] returns the result of [processString] as it is, and
    the errors are added to the log of the build exactly when something
    was printed, that is when the file has not passed. *)
Theorem legacy_lint_then_log (this : Legacy.instance) (content relativePath : string)
    (stdout : string) (code : Z) (_errors : list value) :
  Legacy.shell_exec (Legacy.command (Legacy.processString this content relativePath))
  = (stdout, code) ->
  code <> 2%Z ->
  exists results,
    Legacy.returned (Legacy.processString this content relativePath) = ok results
    /\ get results "passed" = ok (VBool (String.eqb stdout ""))
    /\ Legacy.postProcess _errors results
       = ok (results,
             if String.eqb stdout "" then _errors
             else (_errors ++ [VStr (Legacy.from_first relativePath stdout)])%list).
Proof.
  intros Hexec Hcode. rewrite processString_command in Hexec.
  rewrite processString_returned, Hexec. cbn [fst snd]. cbv zeta.
  apply Z.eqb_neq in Hcode. rewrite Hcode. rewrite passed_iff_silent.
  eexists. split; [reflexivity|]. split; [reflexivity|].
  unfold Legacy.postProcess.
  change (get (VObj ?l) "errors") with (get (VObj l) "errors").
  cbn [get lookup or_undefined rbind ok].
  change (String.eqb "output" "errors") with false.
  change (String.eqb "passed" "errors") with false.
  change (String.eqb "errors" "errors") with true.
  change (String.eqb "length" "length") with true. cbv iota.
  cbn [or_undefined rbind].
  destruct (from_first_suffix relativePath stdout) as [_ [_ He]].
  destruct (Legacy.from_first relativePath stdout) as [|c errors] eqn:F.
  - rewrite (He eq_refl). reflexivity.
  - destruct stdout as [|d out].
    + rewrite from_first_nothing in F. discriminate F.
    + cbn [String.eqb].
      replace (Z.ltb 0 (Z.of_nat (String.length (String c errors)))) with true
        by (symmetry; apply Z.ltb_lt; cbn [String.length]; lia).
      reflexivity.
Qed.

End FurtherLegacy.

Section FurtherStubs.
Context {shell : Legacy.Shell}.

Lemma jsStringEscape_inj (s s' : string) :
  TestGenerators.jsStringEscape s = TestGenerators.jsStringEscape s' -> s = s'.
Proof.
  intros H.
  assert (E : Some s = Some s').
  { rewrite <- (literal_value_jsStringEscape (String.length s) s) by lia.
    rewrite H. apply (literal_value_jsStringEscape (String.length s')). lia. }
  now injection E.
Qed.

(** X18.  What the test stubs tell apart, for one path.  A QUnit stub
    determines the verdict and the message block it was made from; a
    Mocha stub determines the verdict, and the message block when the
    file has failed; the Mocha stub of a file that has passed is the
    same whatever the messages are. *)
Theorem stubs_and_messages (relativePath : string) :
  (forall passed passed' messages messages',
      TestGenerators.qunitString relativePath passed messages
      = TestGenerators.qunitString relativePath passed' messages' ->
      passed = passed' /\ messages = messages')
  /\ (forall passed passed' messages messages',
        TestGenerators.mochaString relativePath passed messages
        = TestGenerators.mochaString relativePath passed' messages' ->
        passed = passed' /\ (passed = false -> messages = messages'))
  /\ (forall messages messages',
        TestGenerators.mochaString relativePath true messages
        = TestGenerators.mochaString relativePath true messages').
Proof.
  split; [|split].
  - intros b b' m m' H. unfold TestGenerators.qunitString in H.
    repeat apply append_inv_head in H.
    destruct b, b'; cbn [TestGenerators.bool_text] in H; try discriminate H;
      repeat apply append_inv_head in H;
      apply append_inv_tail, jsStringEscape_inj in H; now split.
  - intros b b' m m' H. unfold TestGenerators.mochaString in H.
    destruct b, b'; rewrite ?append_assoc in H;
      repeat apply append_inv_head in H; try discriminate H.
    + split; [reflexivity | discriminate].
    + apply append_inv_tail, jsStringEscape_inj in H. now split.
  - reflexivity.
Qed.

(** X19.  The test stub of index.js determines, for one path, the
    verdict and the errors it was made from: nothing of the printed
    text is lost in the stub, and a stub without errors is told from
    every stub with errors. *)
Theorem legacy_stub_and_errors (this : Legacy.instance) (relativePath : string)
    (passed passed' : bool) (errors errors' : string) :
  Legacy.testGenerator this relativePath passed errors
  = Legacy.testGenerator this relativePath passed' errors' ->
  passed = passed' /\ errors = errors'.
Proof.
  unfold Legacy.testGenerator. intros H.
  repeat apply append_inv_head in H.
  assert (Hb : passed = passed'
               /\ (if truthy (VStr errors)
                   then TestGenerators.backslash ++ "n"
                        ++ TestGenerators.jsStringEscape errors
                   else "")
                  = (if truthy (VStr errors')
                     then TestGenerators.backslash ++ "n"
                          ++ TestGenerators.jsStringEscape errors'
                     else "")).
  { destruct passed, passed'; cbn [TestGenerators.bool_text] in H;
      try discriminate H; split; try reflexivity;
      repeat apply append_inv_head in H; apply append_inv_tail in H; exact H. }
  destruct Hb as [Hp He]. split; [exact Hp|].
  destruct errors as [|c e], errors' as [|c' e'];
    cbn [truthy String.eqb negb] in He; unfold TestGenerators.backslash in He;
    try reflexivity; try discriminate He.
  do 2 apply append_inv_head in He. now apply jsStringEscape_inj.
Qed.

End FurtherStubs.

(** ** Runs of the further properties on the test doubles *)

(** X1 for a configuration with a function as its test generator. *)
Lemma ScssLinter_constructed_witness :
  @ScssLinter Stub.host (VObj [])
    (VObj [ ("testGenerator", VFun "function () {}") ])
  = ok [ ("options", VObj [ ("testGenerator", VFun "function () {}") ]);
         ("testGenerator", VFun "function () {}");
         ("targetExtension", VStr "sass-lint-test.js") ]
  /\ typeof (VObj []) = "object"
  /\ @Filter_call Stub.host (VObj []) = ok tt
  /\ typeof (this_get
               [ ("options", VObj [ ("testGenerator", VFun "function () {}") ]);
                 ("testGenerator", VFun "function () {}");
                 ("targetExtension", VStr "sass-lint-test.js") ]
               "testGenerator") <> "string"
  /\ (truthy (this_get
                [ ("options", VObj [ ("testGenerator", VFun "function () {}") ]);
                  ("testGenerator", VFun "function () {}");
                  ("targetExtension", VStr "sass-lint-test.js") ]
                "testGenerator") = true ->
      this_get
        [ ("options", VObj [ ("testGenerator", VFun "function () {}") ]);
          ("testGenerator", VFun "function () {}");
          ("targetExtension", VStr "sass-lint-test.js") ]
        "targetExtension" = VStr "sass-lint-test.js").
Proof.
  split; [reflexivity|].
  apply (@ScssLinter_constructed Stub.host (VObj [])
           (VObj [ ("testGenerator", VFun "function () {}") ])
           [ ("options", VObj [ ("testGenerator", VFun "function () {}") ]);
             ("testGenerator", VFun "function () {}");
             ("targetExtension", VStr "sass-lint-test.js") ]).
  reflexivity.
Defined.

(** X2 for the configuration [{ testGenerator: 'mocha' }]. *)
Lemma ScssLinter_no_style_resolves_witness :
  typeof (VObj []) = "object"
  /\ @Filter_call Stub.host (VObj []) = ok tt
  /\ ~ In "options" (keys [ ("testGenerator", VStr "mocha") ])
  /\ lookup "testGenerator" [ ("testGenerator", VStr "mocha") ] = Some (VStr "mocha")
  /\ @ScssLinter Stub.host (VObj []) (VObj [ ("testGenerator", VStr "mocha") ])
     = throw (ReferenceError "quint is not defined").
Proof.
  assert (Hno : ~ In "options" (keys [ ("testGenerator", VStr "mocha") ])).
  { simpl. intros [H | []]. discriminate H. }
  split; [reflexivity|]. split; [reflexivity|]. split; [exact Hno|].
  split; [reflexivity|].
  apply (@ScssLinter_no_style_resolves Stub.host (VObj [])
           [ ("testGenerator", VStr "mocha") ] "mocha" eq_refl eq_refl Hno eq_refl).
Defined.

(** X3 for the configuration [{ formatter: 'stylish', testGenerator: f }]. *)
Lemma ScssLinter_copies_every_option_witness :
  typeof (VObj []) = "object"
  /\ @Filter_call Stub.host (VObj []) = ok tt
  /\ ~ In "options" (keys [ ("formatter", VStr "stylish");
                            ("testGenerator", VFun "function () {}") ])
  /\ typeof (or_undefined
               (lookup "testGenerator"
                  [ ("formatter", VStr "stylish");
                    ("testGenerator", VFun "function () {}") ])) <> "string"
  /\ exists this,
       @ScssLinter Stub.host (VObj [])
         (VObj [ ("formatter", VStr "stylish");
                 ("testGenerator", VFun "function () {}") ]) = ok this
       /\ this_get this "options"
          = VObj [ ("formatter", VStr "stylish");
                   ("testGenerator", VFun "function () {}") ]
       /\ (forall k v, k <> "targetExtension" ->
             lookup k [ ("formatter", VStr "stylish");
                        ("testGenerator", VFun "function () {}") ] = Some v ->
             this_get this k = v)
       /\ this_get this "targetExtension"
          = if truthy (or_undefined
                         (lookup "testGenerator"
                            [ ("formatter", VStr "stylish");
                              ("testGenerator", VFun "function () {}") ]))
            then VStr "sass-lint-test.js"
            else match lookup "targetExtension"
                         [ ("formatter", VStr "stylish");
                           ("testGenerator", VFun "function () {}") ] with
                 | Some v => v
                 | None => VStr "scss"
                 end.
Proof.
  assert (Hno : ~ In "options" (keys [ ("formatter", VStr "stylish");
                                       ("testGenerator", VFun "function () {}") ])).
  { simpl. intros [H | [H | []]]; discriminate H. }
  assert (Hgen : typeof (or_undefined
                           (lookup "testGenerator"
                              [ ("formatter", VStr "stylish");
                                ("testGenerator", VFun "function () {}") ]))
                 <> "string") by (simpl; discriminate).
  split; [reflexivity|]. split; [reflexivity|]. split; [exact Hno|].
  split; [exact Hgen|].
  apply (@ScssLinter_copies_every_option Stub.host (VObj [])
           [ ("formatter", VStr "stylish");
             ("testGenerator", VFun "function () {}") ]
           eq_refl eq_refl Hno Hgen).
Defined.

(** X4 for the configuration
    [{ config: '.sass-lint.yml', options: { formatter: 'stylish' }, testGenerator: 'mocha' }]. *)
Lemma ScssLinter_reads_inner_options_witness :
  typeof (VObj []) = "object"
  /\ @Filter_call Stub.host (VObj []) = ok tt
  /\ NoDup (keys ([ ("config", VStr ".sass-lint.yml") ]
                  ++ ("options", VObj [ ("formatter", VStr "stylish") ])
                  :: [ ("testGenerator", VStr "mocha") ])%list)
  /\ ~ In "testGenerator" (keys [ ("config", VStr ".sass-lint.yml") ])
  /\ typeof (or_undefined (lookup "testGenerator" [ ("formatter", VStr "stylish") ]))
     <> "string"
  /\ exists this,
       @ScssLinter Stub.host (VObj [])
         (VObj ([ ("config", VStr ".sass-lint.yml") ]
                ++ ("options", VObj [ ("formatter", VStr "stylish") ])
                :: [ ("testGenerator", VStr "mocha") ])%list) = ok this
       /\ this_get this "options" = VObj [ ("formatter", VStr "stylish") ]
       /\ (forall k v, k <> "targetExtension" ->
             lookup k [ ("config", VStr ".sass-lint.yml") ] = Some v ->
             this_get this k = v)
       /\ (forall k, k <> "targetExtension" ->
             In k (keys [ ("testGenerator", VStr "mocha") ]) ->
             this_get this k
             = or_undefined (lookup k [ ("formatter", VStr "stylish") ])).
Proof.
  assert (Hnd : NoDup (keys ([ ("config", VStr ".sass-lint.yml") ]
                             ++ ("options", VObj [ ("formatter", VStr "stylish") ])
                             :: [ ("testGenerator", VStr "mocha") ])%list)).
  { simpl. repeat constructor; simpl; intuition discriminate. }
  assert (Hpre : ~ In "testGenerator" (keys [ ("config", VStr ".sass-lint.yml") ])).
  { simpl. intros [H | []]. discriminate H. }
  assert (Hgen : typeof (or_undefined
                           (lookup "testGenerator" [ ("formatter", VStr "stylish") ]))
                 <> "string") by (simpl; discriminate).
  split; [reflexivity|]. split; [reflexivity|]. split; [exact Hnd|].
  split; [exact Hpre|]. split; [exact Hgen|].
  apply (@ScssLinter_reads_inner_options Stub.host (VObj [])
           [ ("config", VStr ".sass-lint.yml") ]
           [ ("testGenerator", VStr "mocha") ]
           [ ("formatter", VStr "stylish") ]
           eq_refl eq_refl Hnd Hpre Hgen).
Defined.

(** X5 for the options [{ rules: {} }]. *)
Lemma cacheKey_is_hex_digest_witness :
  this_get [ ("options", VObj [ ("rules", VObj []) ]) ] "options"
  = VObj [ ("rules", VObj []) ]
  /\ @getConfig Stub.host [ ("options", VObj [ ("rules", VObj []) ]) ]
     = ok (VObj [ ("files", VObj [ ("include", VStr "**/*.s+(a|c)ss") ]);
                  ("rules", VObj []) ])
  /\ exists key,
       @cacheKeyProcessString Stub.host [ ("options", VObj [ ("rules", VObj []) ]) ]
         "a {}" "a.scss" = ok key
       /\ String.length key = 32%nat
       /\ all_chars is_hex_digit key = true.
Proof.
  split; [reflexivity|]. split; [reflexivity|].
  apply (@cacheKey_is_hex_digest Stub.host
           [ ("options", VObj [ ("rules", VObj []) ]) ] "a {}" "a.scss"
           [ ("rules", VObj []) ]
           [ ("files", VObj [ ("include", VStr "**/*.s+(a|c)ss") ]);
             ("rules", VObj []) ]
           eq_refl eq_refl).
Defined.

(** X6 for an option that is a function here and its source text
    there. *)
Lemma cacheKey_functions_as_text_witness :
  functions_as_text
    (this_get [ ("options", VObj [ ("formatter", VFun "function () {}") ]) ]
       "options")
  = functions_as_text
      (this_get [ ("options", VObj [ ("formatter", VStr "function () {}") ]) ]
         "options")
  /\ @getConfig Stub.host
       [ ("options", VObj [ ("formatter", VFun "function () {}") ]) ]
     = @getConfig Stub.host
         [ ("options", VObj [ ("formatter", VStr "function () {}") ]) ]
  /\ @cacheKeyProcessString Stub.host
       [ ("options", VObj [ ("formatter", VFun "function () {}") ]) ]
       "a {}" "a.scss"
     = @cacheKeyProcessString Stub.host
         [ ("options", VObj [ ("formatter", VStr "function () {}") ]) ]
         "a {}" "a.scss".
Proof.
  split; [reflexivity|]. split; [reflexivity|].
  apply (@cacheKey_functions_as_text Stub.host
           [ ("options", VObj [ ("formatter", VFun "function () {}") ]) ]
           [ ("options", VObj [ ("formatter", VStr "function () {}") ]) ]
           "a {}" "a.scss" eq_refl eq_refl).
Defined.

(** X7 for a linter that resolves empty options to an empty
    configuration. *)
Lemma shouldIgnore_needs_files_witness :
  @getConfig bare_host [ ("options", VObj []) ] = ok (VObj [])
  /\ get (VObj []) "files" = ok VUndefined
  /\ (VUndefined = VUndefined \/ VUndefined = VNull)
  /\ exists msg,
       @shouldIgnore bare_host [ ("options", VObj []) ] "a.scss"
       = ([], throw (TypeError msg))
       /\ @getDestFilePath bare_host [ ("options", VObj []) ] "a.scss"
          = ([], throw (TypeError msg)).
Proof.
  split; [reflexivity|]. split; [reflexivity|]. split; [now left|].
  apply (@shouldIgnore_needs_files bare_host [ ("options", VObj []) ] "a.scss"
           (VObj []) VUndefined eq_refl eq_refl (or_introl eq_refl)).
Defined.

(** X8 for the ignore patterns [['vendor/**', 1]]. *)
Lemma shouldIgnore_bad_pattern_witness :
  @getConfig Stub.host
    [ ("options",
       VObj [ ("files", VObj [ ("ignore", VArr [ VStr "vendor/**";
                                                 VNum (Int 1) ]) ]) ]) ]
  = ok (VObj [ ("files", VObj [ ("ignore", VArr [ VStr "vendor/**";
                                                  VNum (Int 1) ]) ]);
               ("rules", VObj []) ])
  /\ Forall is_glob [ VStr "vendor/**" ]
  /\ typeof (VNum (Int 1)) <> "string"
  /\ existsb (@matches_glob Stub.host "app/a.scss") [ VStr "vendor/**" ] = false
  /\ @shouldIgnore Stub.host
       [ ("options",
          VObj [ ("files", VObj [ ("ignore", VArr [ VStr "vendor/**";
                                                    VNum (Int 1) ]) ]) ]) ]
       "app/a.scss"
     = ([ Minimatch "app/a.scss" (VStr "vendor/**");
          Minimatch "app/a.scss" (VNum (Int 1)) ],
        throw (TypeError "glob pattern string required"))
  /\ existsb (@matches_glob Stub.host "vendor/a.scss") [ VStr "vendor/**" ] = true
  /\ @shouldIgnore Stub.host
       [ ("options",
          VObj [ ("files", VObj [ ("ignore", VArr [ VStr "vendor/**";
                                                    VNum (Int 1) ]) ]) ]) ]
       "vendor/a.scss"
     = ([ Minimatch "vendor/a.scss" (VStr "vendor/**") ], ok true).
Proof.
  assert (Hpre : Forall is_glob [ VStr "vendor/**" ]).
  { constructor; [now exists "vendor/**" | constructor]. }
  assert (Hx : typeof (VNum (Int 1)) <> "string") by discriminate.
  split; [reflexivity|]. split; [exact Hpre|]. split; [exact Hx|].
  split; [reflexivity|]. split.
  - apply (proj1 (@shouldIgnore_bad_pattern Stub.host
                    [ ("options",
                       VObj [ ("files",
                               VObj [ ("ignore", VArr [ VStr "vendor/**";
                                                        VNum (Int 1) ]) ]) ]) ]
                    "app/a.scss"
                    (VObj [ ("files",
                             VObj [ ("ignore", VArr [ VStr "vendor/**";
                                                      VNum (Int 1) ]) ]);
                            ("rules", VObj []) ])
                    (VObj [ ("ignore", VArr [ VStr "vendor/**"; VNum (Int 1) ]) ])
                    [ VStr "vendor/**" ] [] (VNum (Int 1))
                    eq_refl eq_refl eq_refl Hpre Hx)).
    reflexivity.
  - split; [reflexivity|].
    apply (proj2 (@shouldIgnore_bad_pattern Stub.host
                    [ ("options",
                       VObj [ ("files",
                               VObj [ ("ignore", VArr [ VStr "vendor/**";
                                                        VNum (Int 1) ]) ]) ]) ]
                    "vendor/a.scss"
                    (VObj [ ("files",
                             VObj [ ("ignore", VArr [ VStr "vendor/**";
                                                      VNum (Int 1) ]) ]);
                            ("rules", VObj []) ])
                    (VObj [ ("ignore", VArr [ VStr "vendor/**"; VNum (Int 1) ]) ])
                    [ VStr "vendor/**" ] [] (VNum (Int 1))
                    eq_refl eq_refl eq_refl Hpre Hx)).
    reflexivity.
Defined.

(** X9 for a filter with the Mocha generator and a linter that finds an
    error: the stub fails and the report is displayed. *)
Lemma lint_then_postProcess_witness :
  @lintText failing_host
    [ ("options", VObj []); ("testGenerator", TestGenerators.mocha);
      ("targetExtension", VStr "sass-lint-test.js") ] "#a {}" "a.scss"
  = ok (VObj [ ("filePath", VStr "a.scss");
               ("warningCount", VNum (Int 0));
               ("errorCount", VNum (Int 1));
               ("messages",
                VArr [ VObj [ ("ruleId", VStr "no-ids");
                              ("line", VNum (Int 3));
                              ("column", VNum (Int 1));
                              ("message", VStr "ID selectors not allowed");
                              ("severity", VNum (Int 2)) ] ]) ])
  /\ exists results,
       @processString failing_host
         [ ("options", VObj []); ("testGenerator", TestGenerators.mocha);
           ("targetExtension", VStr "sass-lint-test.js") ] "#a {}" "a.scss"
       = ok results
       /\ postProcess
            [ ("options", VObj []); ("testGenerator", TestGenerators.mocha);
              ("targetExtension", VStr "sass-lint-test.js") ] results
          = ([ OutputResults
                 (VArr [ VObj [ ("filePath", VStr "a.scss");
                                ("warningCount", VNum (Int 0));
                                ("errorCount", VNum (Int 1));
                                ("messages",
                                 VArr [ VObj [ ("ruleId", VStr "no-ids");
                                               ("line", VNum (Int 3));
                                               ("column", VNum (Int 1));
                                               ("message",
                                                VStr "ID selectors not allowed");
                                               ("severity", VNum (Int 2)) ] ]) ] ])
                 (VObj []) VUndefined ],
             ok (VObj [ ("output",
                         VStr (TestGenerators.mochaString "a.scss" false
                                 ("a.scss should pass sass-lint"
                                  ++ TestGenerators.newline
                                  ++ TestGenerators.newline
                                  ++ "3:1 - ID selectors not allowed (no-ids)")))
                      ])).
Proof.
  split; [reflexivity|].
  apply (@lint_then_postProcess failing_host
           [ ("options", VObj []); ("testGenerator", TestGenerators.mocha);
             ("targetExtension", VStr "sass-lint-test.js") ] "#a {}" "a.scss"
           TestGenerators.mochaString
           [ ("filePath", VStr "a.scss");
             ("warningCount", VNum (Int 0));
             ("errorCount", VNum (Int 1));
             ("messages",
              VArr [ VObj [ ("ruleId", VStr "no-ids");
                            ("line", VNum (Int 3));
                            ("column", VNum (Int 1));
                            ("message", VStr "ID selectors not allowed");
                            ("severity", VNum (Int 2)) ] ]) ]
           (Some 1%Z)
           [ VObj [ ("ruleId", VStr "no-ids");
                    ("line", VNum (Int 3));
                    ("column", VNum (Int 1));
                    ("message", VStr "ID selectors not allowed");
                    ("severity", VNum (Int 2)) ] ]
           (or_intror (conj eq_refl eq_refl)) eq_refl eq_refl eq_refl).
  constructor; [|constructor].
  exists [ ("ruleId", VStr "no-ids"); ("line", VNum (Int 3));
           ("column", VNum (Int 1)); ("message", VStr "ID selectors not allowed");
           ("severity", VNum (Int 2)) ].
  reflexivity.
Defined.

(** X10 for a path whose extension is [.scss]. *)
Lemma lintText_format_witness :
  no_dot "" = true
  /\ @path_extname Stub.host "a.scss" = "" ++ "." ++ "scss"
  /\ @lintText Stub.host [ ("options", VObj []) ] "a {}" "a.scss"
     = @linter_lintText Stub.host
         (VObj [ ("text", VStr "a {}"); ("format", VStr ("" ++ "scss"));
                 ("filename", VStr "a.scss") ])
         (this_get [ ("options", VObj []) ] "options")
         (this_get [ ("options", VObj []) ] "config").
Proof.
  split; [reflexivity|]. split; [reflexivity|].
  apply (@lintText_format Stub.host [ ("options", VObj []) ] "a {}" "a.scss"
           "" "scss" eq_refl eq_refl).
Defined.

(** X12 for a report with one message, under the QUnit style. *)
Lemma testGenerator_returns_iff_witness :
  (forall ps,
      lookup "messages"
        [ ("errorCount", VNum (Int 1));
          ("messages", VArr [ VObj [ ("line", VNum (Int 3)) ] ]) ]
      = Some (VObj ps) ->
      lookup "map" ps = None)
  /\ ((exists stub,
         TestGenerators.testGenerator TestGenerators.qunitString "a.scss" VUndefined
           (VObj [ ("errorCount", VNum (Int 1));
                   ("messages", VArr [ VObj [ ("line", VNum (Int 3)) ] ]) ])
         = ok stub)
      <-> (truthy (or_undefined
                     (lookup "messages"
                        [ ("errorCount", VNum (Int 1));
                          ("messages", VArr [ VObj [ ("line", VNum (Int 3)) ] ]) ]))
           = false
           \/ exists items,
               lookup "messages"
                 [ ("errorCount", VNum (Int 1));
                   ("messages", VArr [ VObj [ ("line", VNum (Int 3)) ] ]) ]
               = Some (VArr items)
               /\ Forall readable items)).
Proof.
  assert (H : forall ps,
             lookup "messages"
               [ ("errorCount", VNum (Int 1));
                 ("messages", VArr [ VObj [ ("line", VNum (Int 3)) ] ]) ]
             = Some (VObj ps) ->
             lookup "map" ps = None) by (intros ps E; discriminate E).
  split; [exact H|].
  exact (proj1 (testGenerator_returns_iff TestGenerators.qunitString "a.scss"
                  VUndefined
                  [ ("errorCount", VNum (Int 1));
                    ("messages", VArr [ VObj [ ("line", VNum (Int 3)) ] ]) ]
                  H)).
Defined.

(** X13 for the options [{ bundleExec: true, config: '.scss-lint.yml' }]. *)
Lemma _buildCommand_shape_witness :
  NoDup (keys [ ("bundleExec", VBool true); ("config", VStr ".scss-lint.yml") ])
  /\ Legacy._buildCommand "/tmp/in/a.scss"
       (VObj [ ("bundleExec", VBool true); ("config", VStr ".scss-lint.yml") ])
     = ("bundle exec scss-lint /tmp/in/a.scss --config .scss-lint.yml",
        VObj [ ("config", VStr ".scss-lint.yml") ]).
Proof.
  assert (Hnd : NoDup (keys [ ("bundleExec", VBool true);
                              ("config", VStr ".scss-lint.yml") ])).
  { simpl. repeat constructor; simpl; intuition discriminate. }
  split; [exact Hnd|].
  exact (proj1 (_buildCommand_shape "/tmp/in/a.scss"
                  [ ("bundleExec", VBool true); ("config", VStr ".scss-lint.yml") ]
                  Hnd)).
Defined.

(** X15 for a filter constructed with
    [{ bundleExec: true, config: '.scss-lint.yml' }]. *)
Lemma processString_forgets_bundleExec_witness :
  Legacy.this_get
    (Legacy.ScssLinter
       (VObj [ ("bundleExec", VBool true); ("config", VStr ".scss-lint.yml") ]))
    "options"
  = VObj [ ("bundleExec", VBool true); ("config", VStr ".scss-lint.yml") ]
  /\ NoDup (keys [ ("bundleExec", VBool true); ("config", VStr ".scss-lint.yml") ])
  /\ Legacy.command
       (@Legacy.processString Stub.shell
          (Legacy.ScssLinter
             (VObj [ ("bundleExec", VBool true);
                     ("config", VStr ".scss-lint.yml") ]))
          "a {}" "a.scss")
     = "bundle exec scss-lint /tmp/in/a.scss --config .scss-lint.yml"
  /\ Legacy.command
       (@Legacy.processString Stub.shell
          (Legacy.after
             (@Legacy.processString Stub.shell
                (Legacy.ScssLinter
                   (VObj [ ("bundleExec", VBool true);
                           ("config", VStr ".scss-lint.yml") ]))
                "a {}" "a.scss"))
          "b {}" "b.scss")
     = "scss-lint /tmp/in/b.scss --config .scss-lint.yml".
Proof.
  assert (Hnd : NoDup (keys [ ("bundleExec", VBool true);
                              ("config", VStr ".scss-lint.yml") ])).
  { simpl. repeat constructor; simpl; intuition discriminate. }
  split; [reflexivity|]. split; [exact Hnd|].
  pose proof (@processString_forgets_bundleExec Stub.shell
                (Legacy.ScssLinter
                   (VObj [ ("bundleExec", VBool true);
                           ("config", VStr ".scss-lint.yml") ]))
                [ ("bundleExec", VBool true); ("config", VStr ".scss-lint.yml") ]
                "a {}" "a.scss" "b {}" "b.scss" eq_refl Hnd)
    as [_ [_ [H1 [H2 _]]]].
  split; [exact H1 | exact H2].
Defined.

(** X16 for a shell in which scss-lint reports a warning. *)
Lemma processString_result_witness :
  @Legacy.shell_exec warning_shell
    (Legacy.command
       (@Legacy.processString warning_shell (Legacy.ScssLinter (VObj []))
          "a {}" "a.scss"))
  = ("/tmp/in/a.scss:1 [W] Rule: message", 1%Z)
  /\ 1%Z <> 2%Z
  /\ exists output errors,
       Legacy.returned
         (@Legacy.processString warning_shell (Legacy.ScssLinter (VObj []))
            "a {}" "a.scss")
       = ok (VObj [ ("output", VStr output);
                    ("passed",
                     VBool (String.eqb "/tmp/in/a.scss:1 [W] Rule: message" ""));
                    ("errors", VStr errors) ])
       /\ errors = Legacy.from_first "a.scss" "/tmp/in/a.scss:1 [W] Rule: message"
       /\ (exists before,
             "/tmp/in/a.scss:1 [W] Rule: message" = before ++ errors)
       /\ (String.index 0 "a.scss" "/tmp/in/a.scss:1 [W] Rule: message" <> None ->
           String.prefix "a.scss" errors = true)
       /\ (errors = "" <-> "/tmp/in/a.scss:1 [W] Rule: message" = "").
Proof.
  assert (Hcode : 1%Z <> 2%Z) by discriminate.
  split; [reflexivity|]. split; [exact Hcode|].
  apply (proj2 (@processString_result warning_shell (Legacy.ScssLinter (VObj []))
                  "a {}" "a.scss" "/tmp/in/a.scss:1 [W] Rule: message" 1%Z
                  eq_refl)).
  exact Hcode.
Defined.

(** X17 for a shell in which scss-lint reports a warning. *)
Lemma legacy_lint_then_log_witness :
  @Legacy.shell_exec warning_shell
    (Legacy.command
       (@Legacy.processString warning_shell (Legacy.ScssLinter (VObj []))
          "a {}" "a.scss"))
  = ("/tmp/in/a.scss:1 [W] Rule: message", 1%Z)
  /\ 1%Z <> 2%Z
  /\ exists results,
       Legacy.returned
         (@Legacy.processString warning_shell (Legacy.ScssLinter (VObj []))
            "a {}" "a.scss") = ok results
       /\ get results "passed"
          = ok (VBool (String.eqb "/tmp/in/a.scss:1 [W] Rule: message" ""))
       /\ Legacy.postProcess [] results
          = ok (results,
                if String.eqb "/tmp/in/a.scss:1 [W] Rule: message" "" then []
                else ([] ++ [VStr (Legacy.from_first "a.scss"
                                     "/tmp/in/a.scss:1 [W] Rule: message")])%list).
Proof.
  assert (Hcode : 1%Z <> 2%Z) by discriminate.
  split; [reflexivity|]. split; [exact Hcode|].
  apply (@legacy_lint_then_log warning_shell (Legacy.ScssLinter (VObj []))
           "a {}" "a.scss" "/tmp/in/a.scss:1 [W] Rule: message" 1%Z []
           eq_refl Hcode).
Defined.

(** X19 for two stubs with the same errors. *)
Lemma legacy_stub_and_errors_witness :
  @Legacy.testGenerator Stub.shell [] "a.scss" false "a.scss:1 [W] message"
  = @Legacy.testGenerator Stub.shell [] "a.scss" false "a.scss:1 [W] message"
  /\ false = false
  /\ "a.scss:1 [W] message" = "a.scss:1 [W] message".
Proof.
  split; [reflexivity|].
  apply (@legacy_stub_and_errors Stub.shell [] "a.scss" false false
           "a.scss:1 [W] message" "a.scss:1 [W] message" eq_refl).
Defined.
